(** * terminal-docker-bot: the session and command execution engine

    A shallow embedding of [src/terminal-docker-bot.py] (class [TerminalBot]):
    the Redis session store and token ledger, the Docker runtime calls, the
    per-user command queues with their worker tasks, and the statements the
    specification makes about them.

    Conventions of the embedding.
    - Python integers are [Z]; [str(user_id)] is the decimal rendering [pretty].
    - The Redis keyspace is one flat [gmap string rentry], as the client sees it
      (live keys only: a key with a time to live is dropped when the clock
      passes its deadline, see [tick]).  A string value is kept by its content:
      [SInt n] is the decimal text that [redis.set(key, n)] writes and that
      [int(...)] reads back, [SJson s] is the text [json.dumps] makes of a
      session dict and that [json.loads] reads back.
    - The Docker daemon is a [gmap] from container ids to containers.  A call
      fails for the reason the daemon's state gives (an unknown id, removing a
      running container); what [containers.run] answers is an input.
    - Methods run in a state-and-exception monad [M] over one [world]; the
      asyncio tasks are a transition system over the same [world].
    - Time is the event loop's clock in whole seconds. *)

From Stdlib Require Import ZArith Lia Ascii.
From stdpp Require Import base gmap strings list fin_maps pretty.

Local Open Scope Z_scope.

(** ** Python exceptions *)

Inductive exn :=
| DockerNotFound                 (* docker.errors.NotFound *)
| DockerAPIError (msg : string)  (* docker.errors.APIError *)
| ResponseError (msg : string)   (* redis.exceptions.ResponseError *)
| AttributeError (attr : string)
| KeyError (key : string)
| ValueError
| TimeoutError                   (* asyncio.TimeoutError *)
| CancelledError.                (* asyncio.CancelledError, a BaseException *)

(** [except Exception] catches everything but [CancelledError]. *)
Definition is_Exception (e : exn) : bool :=
  match e with CancelledError => false | _ => true end.

Definition is_NotFound (e : exn) : bool :=
  match e with DockerNotFound => true | _ => false end.

Inductive result (A : Type) :=
| Ok (a : A)
| Raise (e : exn).
Arguments Ok {A} a.
Arguments Raise {A} e.

(** ** Data held in Redis and in the Docker daemon *)

(** The dict that [create_user_container] serialises under [session:<user>]. *)
Record session := mk_session {
  container_id : string;
  image : string;
  shell : string;
  ttl_seconds : option Z;
  ttl_display : string;
  config_name : string;
  network : bool;
  created_at : Z;
  is_confirmed : bool;
  is_test : bool
}.

(** A Redis string value, by content. *)
Inductive rstring :=
| SInt (n : Z)
| SJson (s : session).

Inductive rvalue :=
| VStr (s : rstring)
| VSet (members : gset string).

Record rentry := mk_rentry {
  rv : rvalue;
  expire_at : option Z
}.

Record container := mk_container {
  c_name : string;
  c_image : string;
  c_command : string;
  c_network_mode : string;
  c_mem_limit : string;
  c_cpu_period : Z;
  c_cpu_quota : Z;
  c_pids_limit : Z;
  c_status : string
}.

(** ** The command queue, the worker tasks and the thread pool *)

(** A queue item [(update, context, command, status_msg)]: the incoming
    update with its context, the command text and the bot's status message. *)
Record entry := mk_entry {
  e_update : nat;
  e_command : string;
  e_status_msg : nat
}.

(** An [asyncio.Queue]: its items and the count of unfinished tasks that
    [put] raises and [task_done] lowers. *)
Record queue := mk_queue {
  items : list entry;
  unfinished : nat
}.

(** Where the coroutine [worker()] of [start_command_worker] is suspended:
    not yet entered; in [wait_for(queue.get(), timeout=300.0)] since a time;
    inside [_execute_single_command] waiting for a thread-pool job (under
    [wait_for] with a timeout when the session is a test one); returned. *)
Inductive worker_pc :=
| WStart
| WGet (q : nat) (since : Z)
| WRun (q : nat) (e : entry) (job : nat) (since : Z) (timeout : option Z)
| WDone.

Record task := mk_task {
  t_user : Z;
  t_pc : worker_pc
}.

(** A call of [_run_command_sync] handed to [self.thread_pool]. *)
Record job := mk_job {
  j_user : Z;
  j_task : nat;            (* the worker task that awaits the future *)
  j_container : string;
  j_command : string;
  j_done : bool            (* [exec_run] has returned *)
}.

(** What the bot tells the user; [reply_text] below gives the wording. *)
Inductive reply :=
| NoActiveSession
| SessionNotFound
| ContainerIdMissing
| ContainerNotFound
| CommandForbidden
| CommandTimeout (seconds : Z)
| CommandOutput (output : string) (exit_code : Z)
| CommandError (e : exn)
| Enqueued
| QueuePosition (n : nat)
| CommandsCancelled
| SessionStopped.

(** The trace of a run: the calls that leave the process (Redis writes, Docker
    calls, chat messages) and the queue operations, in the order they happen.
    [ExecBegin]/[ExecEnd] bracket one call of [_execute_single_command] by a
    worker: it returns, returns after [asyncio.TimeoutError], is left by
    [CancelledError] when the worker is cancelled inside it, or raises. *)
Inductive exec_outcome := Returned | TimedOut | Cancelled | Raised.

Inductive effect :=
| RedisSet (key : string)
| RedisSetex (key : string) (ttl : Z)
| RedisDelete (key : string)
| RedisSadd (key member : string)
| DockerRun (cid : string)
| DockerStop (cid : string)
| DockerRemove (cid : string)
| DockerExec (cid : string) (full_command : string) (job : nat)
| Chat (msg : nat) (r : reply)
| QueuePut (user : Z) (e : entry)
| QueueDrop (user : Z) (e : entry)
| ExecBegin (user : Z) (e : entry)
| ExecEnd (user : Z) (e : entry) (o : exec_outcome).

(** A handler suspended inside [execute_command], between its first
    [reply_text] and the [put]. *)
Record pending_put := mk_pending {
  p_user : Z;
  p_entry : entry
}.

Record world := mk_world {
  now : Z;
  redis : gmap string rentry;
  docker : gmap string container;
  command_queues : gmap Z nat;       (* self.command_queues: user -> Queue object *)
  command_workers : gmap Z nat;      (* self.command_workers: user -> Task object *)
  active_commands : gmap Z unit;     (* self.active_commands *)
  queue_heap : list queue;           (* the asyncio.Queue objects, by identity *)
  tasks : list task;                 (* the Task objects, by identity *)
  jobs : list job;                   (* everything submitted to self.thread_pool *)
  handler : option pending_put;
  log : list effect
}.

Definition set_now (f : Z → Z) (w : world) : world :=
  mk_world (f (now w)) (redis w) (docker w) (command_queues w) (command_workers w)
    (active_commands w) (queue_heap w) (tasks w) (jobs w) (handler w) (log w).
Definition set_redis (f : gmap string rentry → gmap string rentry) (w : world) : world :=
  mk_world (now w) (f (redis w)) (docker w) (command_queues w) (command_workers w)
    (active_commands w) (queue_heap w) (tasks w) (jobs w) (handler w) (log w).
Definition set_docker (f : gmap string container → gmap string container) (w : world) : world :=
  mk_world (now w) (redis w) (f (docker w)) (command_queues w) (command_workers w)
    (active_commands w) (queue_heap w) (tasks w) (jobs w) (handler w) (log w).
Definition set_command_queues (f : gmap Z nat → gmap Z nat) (w : world) : world :=
  mk_world (now w) (redis w) (docker w) (f (command_queues w)) (command_workers w)
    (active_commands w) (queue_heap w) (tasks w) (jobs w) (handler w) (log w).
Definition set_command_workers (f : gmap Z nat → gmap Z nat) (w : world) : world :=
  mk_world (now w) (redis w) (docker w) (command_queues w) (f (command_workers w))
    (active_commands w) (queue_heap w) (tasks w) (jobs w) (handler w) (log w).
Definition set_active_commands (f : gmap Z unit → gmap Z unit) (w : world) : world :=
  mk_world (now w) (redis w) (docker w) (command_queues w) (command_workers w)
    (f (active_commands w)) (queue_heap w) (tasks w) (jobs w) (handler w) (log w).
Definition set_queue_heap (f : list queue → list queue) (w : world) : world :=
  mk_world (now w) (redis w) (docker w) (command_queues w) (command_workers w)
    (active_commands w) (f (queue_heap w)) (tasks w) (jobs w) (handler w) (log w).
Definition set_tasks (f : list task → list task) (w : world) : world :=
  mk_world (now w) (redis w) (docker w) (command_queues w) (command_workers w)
    (active_commands w) (queue_heap w) (f (tasks w)) (jobs w) (handler w) (log w).
Definition set_jobs (f : list job → list job) (w : world) : world :=
  mk_world (now w) (redis w) (docker w) (command_queues w) (command_workers w)
    (active_commands w) (queue_heap w) (tasks w) (f (jobs w)) (handler w) (log w).
Definition set_handler (h : option pending_put) (w : world) : world :=
  mk_world (now w) (redis w) (docker w) (command_queues w) (command_workers w)
    (active_commands w) (queue_heap w) (tasks w) (jobs w) h (log w).
Definition set_log (f : list effect → list effect) (w : world) : world :=
  mk_world (now w) (redis w) (docker w) (command_queues w) (command_workers w)
    (active_commands w) (queue_heap w) (tasks w) (jobs w) (handler w) (f (log w)).

(** ** The monad of the methods *)

Definition M (A : Type) : Type := world → result A * world.

Definition raise {A} (e : exn) : M A := λ w, (Raise e, w).

Definition ret {A} (a : A) : M A := λ w, (Ok a, w).

Global Instance M_ret : MRet M := @ret.
Definition bind {A B} (m : M A) (k : A → M B) : M B :=
  λ w, match m w with
       | (Ok a, w') => k a w'
       | (Raise e, w') => (Raise e, w')
       end.

Global Instance M_bind : MBind M := λ A B k m, bind m k.

Notation "'let*' x := m 'in' k" := (bind m (λ x, k))
  (at level 10, x name, m at level 200, k at level 200, only parsing).

(** [try: m except C1: h1 except C2: h2 ...]: the first clause whose class
    test accepts the exception handles it; a handler's own exception is not
    caught by the clauses that follow. *)
Fixpoint dispatch {A} (clauses : list ((exn → bool) * (exn → M A))) (e : exn) : M A :=
  match clauses with
  | [] => raise e
  | (catches, h) :: rest => if catches e then h e else dispatch rest e
  end.

Definition try_except {A} (m : M A) (clauses : list ((exn → bool) * (exn → M A))) : M A :=
  λ w, match m w with
       | (Ok a, w') => (Ok a, w')
       | (Raise e, w') => dispatch clauses e w'
       end.

(** [except Exception as e: logger.error(...)], [except: pass]. *)
Definition swallow_Exception : (exn → bool) * (exn → M unit) :=
  (is_Exception, λ _, ret tt).
Definition swallow_all : (exn → bool) * (exn → M unit) :=
  (λ _, true, λ _, ret tt).

Definition gets {A} (f : world → A) : M A := λ w, (Ok (f w), w).
Definition modify (f : world → world) : M unit := λ w, (Ok tt, f w).
Definition emit (e : effect) : M unit := modify (set_log (λ l, l ++ [e])).

Fixpoint for_each {A} (l : list A) (body : A → M unit) : M unit :=
  match l with
  | [] => ret tt
  | x :: l' => body x ;; for_each l' body
  end.

(** ** The Redis client ([redis.Redis(..., decode_responses=True)]) *)

Module Redis.

Definition WRONGTYPE : exn :=
  ResponseError "WRONGTYPE Operation against a key holding the wrong kind of value".

(** GET: the string value, [None] for a missing key, an error on a set. *)
Definition get (key : string) : M (option rstring) :=
  let* r := gets redis in
  match r !! key with
  | None => ret None
  | Some (mk_rentry (VStr v) _) => ret (Some v)
  | Some (mk_rentry (VSet _) _) => raise WRONGTYPE
  end.

(** SET discards a time to live the key had. *)
Definition set (key : string) (v : rstring) : M unit :=
  modify (set_redis (insert key (mk_rentry (VStr v) None)));;
  emit (RedisSet key).

Definition setex (key : string) (ttl : Z) (v : rstring) : M unit :=
  if ttl <=? 0 then raise (ResponseError "invalid expire time in setex")
  else
    let* t := gets now in
    modify (set_redis (insert key (mk_rentry (VStr v) (Some (t + ttl)))));;
    emit (RedisSetex key ttl).

Definition delete (key : string) : M unit :=
  modify (set_redis (base.delete key));;
  emit (RedisDelete key).

Definition exists_ (key : string) : M bool :=
  let* r := gets redis in
  ret (bool_decide (is_Some (r !! key))).

(** KEYS "<prefix>*". *)
Definition keys (prefix : string) : M (list string) :=
  let* r := gets redis in
  ret (filter (λ k, String.prefix prefix k = true) (map_to_list r).*1).

Definition sadd (key member : string) : M unit :=
  let* r := gets redis in
  match r !! key with
  | None =>
      modify (set_redis (insert key (mk_rentry (VSet {[member]}) None)));;
      emit (RedisSadd key member)
  | Some (mk_rentry (VSet s) t) =>
      modify (set_redis (insert key (mk_rentry (VSet ({[member]} ∪ s)) t)));;
      emit (RedisSadd key member)
  | Some _ => raise WRONGTYPE
  end.

Definition sismember (key member : string) : M bool :=
  let* r := gets redis in
  match r !! key with
  | None => ret false
  | Some (mk_rentry (VSet s) _) => ret (bool_decide (member ∈ s))
  | Some _ => raise WRONGTYPE
  end.

End Redis.

(** ** The Docker client ([docker.from_env()]) *)

Module Docker.

Definition with_status (st : string) (c : container) : container :=
  mk_container (c_name c) (c_image c) (c_command c) (c_network_mode c)
    (c_mem_limit c) (c_cpu_period c) (c_cpu_quota c) (c_pids_limit c) st.

(** [client.containers.get(id)]: the container as it is now, or [NotFound]. *)
Definition containers_get (cid : string) : M container :=
  let* d := gets docker in
  match d !! cid with
  | Some c => ret c
  | None => raise DockerNotFound
  end.

(** [container.stop()]. *)
Definition stop (cid : string) : M unit :=
  emit (DockerStop cid);;
  let* d := gets docker in
  match d !! cid with
  | Some c => modify (set_docker (insert cid (with_status "exited" c)))
  | None => raise DockerNotFound
  end.

(** [container.remove()]: the daemon refuses to remove a running container. *)
Definition remove (cid : string) : M unit :=
  emit (DockerRemove cid);;
  let* d := gets docker in
  match d !! cid with
  | Some c =>
      if String.eqb (c_status c) "running"
      then raise (DockerAPIError "cannot remove a running container")
      else modify (set_docker (base.delete cid))
  | None => raise DockerNotFound
  end.

(** [client.containers.run(detach=True, ...)]: [reply] is the daemon's
    answer, the id of the started container or an error. *)
Definition containers_run (kwargs : container) (reply : result string) : M string :=
  match reply with
  | Ok cid =>
      emit (DockerRun cid);;
      modify (set_docker (insert cid (with_status "running" kwargs)));;
      ret cid
  | Raise e => raise e
  end.

(** [client.containers.list(all=True, filters={"name": n})]: the ids of the
    containers whose name satisfies [matches]. *)
Definition containers_list (matches : string → bool) : M (list string) :=
  let* d := gets docker in
  ret (filter (λ kc, matches (c_name (snd kc)) = true) (map_to_list d)).*1.

End Docker.

(** ** Strings *)

(** [p in s] on Python strings. *)
Fixpoint contains (p s : string) : bool :=
  String.prefix p s ||
  match s with
  | EmptyString => false
  | String _ s' => contains p s'
  end.

(** [str.lower()] on the ASCII range. *)
Definition lower_ascii (c : ascii) : ascii :=
  let n := Ascii.N_of_ascii c in
  if ((65 <=? n) && (n <=? 90))%N then Ascii.ascii_of_N (n + 32) else c.

Fixpoint lower (s : string) : string :=
  match s with
  | EmptyString => EmptyString
  | String c s' => String (lower_ascii c) (lower s')
  end.

(** ** Class [TerminalBot]: configuration set in [__init__] *)

Record resource_config := mk_resource_config {
  rc_name : string;
  rc_cpu_period : Z;
  rc_cpu_quota : Z;
  rc_mem_limit : string;
  rc_pids_limit : Z;
  rc_description : string
}.

Record test_configuration := mk_test_config {
  tc_image : string;
  tc_shell : string;
  tc_mem_limit : string;
  tc_cpu_quota : Z;
  tc_cpu_period : Z;
  tc_pids_limit : Z;
  tc_timeout : Z;
  tc_max_session_time : Z;
  tc_no_background : bool
}.

Definition initial_tokens : Z := 480.
Definition token_consumption_rate : Z := 1.

Definition test_config : test_configuration :=
  mk_test_config "alpine:latest" "sh" "50m" 25000 100000 10 80 1200 true.

Definition resource_configs : gmap string resource_config :=
  list_to_map [
    ("minimal", mk_resource_config "Базовая" 100000 30000 "246m" 25 "246MB RAM, 30% CPU");
    ("medium", mk_resource_config "Средняя" 100000 50000 "246m" 50 "270MB RAM, 50% CPU");
    ("enhanced", mk_resource_config "Улучшенная" 100000 75000 "428m" 100 "428MB RAM, 75% CPU");
    ("maximum", mk_resource_config "Максимальная" 100000 100000 "612m" 200 "512MB RAM, 100% CPU")
  ].

Definition ttl_options : list (string * option Z) :=
  [("30m", Some 1800); ("1h", Some 3600); ("5h", Some 18000); ("24h", Some 86400);
   ("7d", Some 604800); ("12d", Some 1036800); ("always", None)].

(** The idle window of a worker, [timeout=300.0] in [start_command_worker]. *)
Definition worker_idle_timeout : Z := 300.

(** The names bound on a [TerminalBot] object: the methods of the class body
    and the attributes [__init__] assigns.  [_token_consumption_worker] and
    [stop_session_due_to_tokens] are not among them: the source defines them
    inside the body of [add_tokens], as local functions of that method. *)
Definition TerminalBot_attributes : list string :=
  [ "__init__"; "cleanup_old_sessions"; "cleanup_old_containers";
    "init_confirmed_users"; "is_admin"; "is_confirmed_user"; "add_confirmed_user";
    "has_active_session"; "get_session_info"; "setup_signal_handlers";
    "init_user_tokens"; "get_user_tokens"; "consume_tokens"; "add_tokens";
    "nohup_command"; "_execute_nohup_command"; "show_token_exhausted_menu";
    "show_token_info"; "background_processes"; "kill_process";
    "check_callback_access"; "start"; "container_command"; "start_command_worker";
    "_command_worker"; "show_main_menu"; "handle_callback"; "container_status";
    "stop_session"; "admin_token_management"; "cancel_user_commands";
    "cancel_command"; "launch_menu"; "select_image"; "custom_image_input";
    "process_custom_image"; "select_shell"; "toggle_network"; "select_config";
    "select_ttl"; "create_user_container"; "_execute_single_command";
    "_run_command_sync"; "execute_command"; "docker_command"; "send_smart_output";
    "handle_upload"; "handle_download"; "information_menu"; "admin_menu";
    "user_management"; "container_management"; "admin_stats"; "add_user_prompt";
    "receive_user_id"; "confirm_add_user"; "is_command_dangerous"; "cancel";
    "inline_query"; "handle_group_message";
    "docker_client"; "redis"; "admin_ids"; "file_limits"; "available_images";
    "available_shells"; "ttl_options"; "initial_tokens"; "token_consumption_rate";
    "test_config"; "resource_configs"; "command_queues"; "command_workers";
    "active_commands"; "thread_pool" ].

(** [self.<name>]: attribute lookup on the bot object. *)
Definition self_getattr (name : string) : M unit :=
  if bool_decide (name ∈ TerminalBot_attributes) then ret tt
  else raise (AttributeError name).

(** ** Keys and JSON *)

Definition session_key (user_id : Z) : string := "session:" +:+ pretty user_id.
Definition token_key (user_id : Z) : string := "tokens:" +:+ pretty user_id.
Definition confirmed_users_key : string := "confirmed_users".

(** What [json.loads] makes of a stored string: a dict from the text of a
    session, an int from decimal text. *)
Inductive pyobj :=
| PDict (s : session)
| PInt (n : Z).

Definition json_loads (v : rstring) : pyobj :=
  match v with
  | SJson s => PDict s
  | SInt n => PInt n
  end.

(** [obj.get(...)]: a dict has the method, an int does not. *)
Definition as_dict (o : pyobj) : M session :=
  match o with
  | PDict s => ret s
  | PInt _ => raise (AttributeError "get")
  end.

(** [int(text)]. *)
Definition py_int (v : rstring) : M Z :=
  match v with
  | SInt n => ret n
  | SJson _ => raise ValueError
  end.

(** Truth value of a Python string. *)
Definition truthy (s : string) : bool := negb (String.eqb s "").

(** ** Class [TerminalBot]: users, sessions, tokens *)

Definition admin_ids : list Z := [].

Definition cleanup_sessions_loop (session_keys : list string) : M unit :=
  for_each session_keys (λ key,
    try_except
      (let* session_data := Redis.get key in
       match session_data with
       | Some text =>
           let* session := as_dict (json_loads text) in
           if truthy (container_id session) then
             let* container := Docker.containers_get (container_id session) in
             if negb (String.eqb (c_status container) "running")
             then Redis.delete key
             else ret tt
           else ret tt
       | None => ret tt
       end)
      [ (is_NotFound, λ _, Redis.delete key); swallow_Exception ]).

Definition cleanup_old_sessions : M unit :=
  try_except
    (let* session_keys := Redis.keys "session:" in
     cleanup_sessions_loop session_keys)
    [ swallow_Exception ].

Definition cleanup_old_containers : M unit :=
  try_except
    (let* containers := Docker.containers_list (contains "terminal_bot_") in
     for_each containers (λ cid,
       try_except (Docker.stop cid;; Docker.remove cid) [ swallow_Exception ]))
    [ swallow_Exception ].

Definition is_confirmed_user (user_id : Z) : M bool :=
  Redis.sismember confirmed_users_key (pretty user_id).

Definition init_confirmed_users : M unit :=
  let* present := Redis.exists_ confirmed_users_key in
  if negb present
  then for_each admin_ids (λ admin_id, Redis.sadd confirmed_users_key (pretty admin_id))
  else ret tt.

(** [TerminalBot.__init__], as far as it touches Docker and Redis. *)
Definition TerminalBot_init : M unit :=
  cleanup_old_containers;;
  cleanup_old_sessions;;
  init_confirmed_users.

Definition is_admin (user_id : Z) : bool :=
  bool_decide (pretty user_id ∈ map (pretty : Z → string) admin_ids).

Definition add_confirmed_user (user_id : Z) : M unit :=
  Redis.sadd confirmed_users_key (pretty user_id).

Definition has_active_session (user_id : Z) : M bool :=
  Redis.exists_ (session_key user_id).

Definition get_session_info (user_id : Z) : M (option pyobj) :=
  let* session_data := Redis.get (session_key user_id) in
  match session_data with
  | Some text => ret (Some (json_loads text))
  | None => ret None
  end.

Definition init_user_tokens (user_id : Z) : M unit :=
  let* present := Redis.exists_ (token_key user_id) in
  if negb present
  then Redis.set (token_key user_id) (SInt initial_tokens)
  else ret tt.

Definition get_user_tokens (user_id : Z) : M Z :=
  let* tokens := Redis.get (token_key user_id) in
  match tokens with
  | Some text => py_int text
  | None => ret 0
  end.

Definition consume_tokens (user_id : Z) (minutes : Z) : M bool :=
  let* confirmed := is_confirmed_user user_id in
  if confirmed then ret true
  else
    let* current_tokens := get_user_tokens user_id in
    if current_tokens <=? 0 then ret false
    else
      let new_tokens := Z.max 0 (current_tokens - minutes) in
      Redis.set (token_key user_id) (SInt new_tokens);;
      ret true.

(** The two coroutine functions that the body of [add_tokens] goes on to
    define are local to the call and dropped when it returns. *)
Definition add_tokens (user_id : Z) (amount : Z) : M unit :=
  let* current_tokens := get_user_tokens user_id in
  let new_tokens := current_tokens + amount in
  Redis.set (token_key user_id) (SInt new_tokens).

(** [n] calls of [consume_tokens(user_id, 1)] in a row, with their answers. *)
Fixpoint consume_repeatedly (n : nat) (user_id : Z) : M (list bool) :=
  match n with
  | O => ret []
  | S n' =>
      let* b := consume_tokens user_id 1 in
      let* bs := consume_repeatedly n' user_id in
      ret (b :: bs)
  end.

Definition dangerous_patterns : list string :=
  [ "rm -rf /"; "rm -rf /*"; "dd if="; "mkfs"; ":(){:|:&};:";
    "> /dev/sd"; "> /dev/hd"; "chmod 777 /"; "passwd root" ].

Definition is_command_dangerous (command : string) : bool :=
  let command_lower := lower command in
  existsb (λ pattern, contains pattern command_lower) dangerous_patterns.

(** ** Class [TerminalBot]: sessions *)

Definition test_resource_config : resource_config :=
  mk_resource_config "Тестовая" (tc_cpu_period test_config) (tc_cpu_quota test_config)
    (tc_mem_limit test_config) (tc_pids_limit test_config) "50MB RAM, 25% CPU".

(** The best-effort removal of the container a stored session names, shared
    by [create_user_container] and [stop_session]. *)
Definition remove_session_container (text : rstring) : M unit :=
  try_except
    (let* session := as_dict (json_loads text) in
     if truthy (container_id session) then
       try_except
         (let* container := Docker.containers_get (container_id session) in
          Docker.stop (container_id session);;
          Docker.remove (container_id session))
         [ swallow_Exception ]
     else ret tt)
    [ swallow_Exception ].

(** [create_user_container].  [urandom] is [os.urandom(4).hex()] and
    [run_reply] the daemon's answer to [containers.run]. *)
Definition create_user_container (user_id : Z) (image shell : string)
    (ttl_seconds : option Z) (ttl_display config_key : string)
    (network is_test : bool) (urandom : string) (run_reply : result string) : M string :=
  let* session_data := Redis.get (session_key user_id) in
  match session_data with
  | Some text => remove_session_container text
  | None => ret tt
  end;;
  let* config :=
    if is_test then ret test_resource_config
    else match resource_configs !! config_key with
         | Some c => ret c
         | None => raise (KeyError config_key)
         end in
  let* confirmed := is_confirmed_user user_id in
  let limited := negb confirmed && negb is_test in
  let container_kwargs :=
    mk_container
      ("terminal_bot_" +:+ pretty user_id +:+ "_" +:+ urandom)
      image
      "tail -f /dev/null"
      (if network then "bridge" else "none")
      (if limited then "64m" else rc_mem_limit config)
      (rc_cpu_period config)
      (rc_cpu_quota config)
      (if limited then 20 else rc_pids_limit config)
      "" in
  let* cid := Docker.containers_run container_kwargs run_reply in
  let* t := gets now in
  let* confirmed := is_confirmed_user user_id in
  let session_data :=
    SJson (mk_session cid image shell ttl_seconds ttl_display (rc_name config)
             network t confirmed is_test) in
  match ttl_seconds with
  | Some ttl => if ttl =? 0 then Redis.set (session_key user_id) session_data
                else Redis.setex (session_key user_id) ttl session_data
  | None => Redis.set (session_key user_id) session_data
  end;;
  (if is_test then ret tt
   else
     let* confirmed := is_confirmed_user user_id in
     if confirmed then ret tt
     else
       (* await self.start_token_consumption(user_id, container.id): the
          attribute lookup comes first, and there is no method body in the
          source to run after it *)
       self_getattr "start_token_consumption");;
  ret cid.

(** ** Queues and tasks *)

Definition empty_queue : queue := mk_queue [] 0.

Definition queue_of (w : world) (q : nat) : queue :=
  default empty_queue (queue_heap w !! q).

(** [asyncio.Queue()] *)
Definition new_queue : M nat :=
  let* h := gets queue_heap in
  modify (set_queue_heap (λ h, h ++ [empty_queue]));;
  ret (length h).

Definition queue_empty (q : nat) : M bool :=
  let* w := gets id in
  ret (bool_decide (items (queue_of w q) = [])).

Definition queue_qsize (q : nat) : M nat :=
  let* w := gets id in
  ret (length (items (queue_of w q))).

(** [queue.put(item)] on an unbounded queue. *)
Definition queue_put (q : nat) (e : entry) : M unit :=
  let* w := gets id in
  let old := queue_of w q in
  modify (set_queue_heap (<[q := mk_queue (items old ++ [e]) (S (unfinished old))]>)).

(** [queue.task_done()] *)
Definition queue_task_done (q : nat) : M unit :=
  let* w := gets id in
  let old := queue_of w q in
  match unfinished old with
  | O => raise ValueError
  | S n => modify (set_queue_heap (<[q := mk_queue (items old) n]>))
  end.

(** [asyncio.create_task(coro)] *)
Definition create_task (t : task) : M nat :=
  let* ts := gets tasks in
  modify (set_tasks (λ ts, ts ++ [t]));;
  ret (length ts).

(** [task.cancel()]: the coroutine's next step is [CancelledError], which the
    worker answers with [break]; a job it was waiting for stays in the pool. *)
Definition task_cancel (tid : nat) : M unit :=
  let* ts := gets tasks in
  match ts !! tid with
  | Some (mk_task u (WRun q e j since tmo)) =>
      modify (set_tasks (<[tid := mk_task u WDone]>));;
      emit (ExecEnd u e Cancelled)
  | Some (mk_task u _) =>
      modify (set_tasks (<[tid := mk_task u WDone]>))
  | None => ret tt
  end.

(** The loop of [cancel_user_commands] that empties the queue; [fuel] is the
    size of the queue when the loop starts. *)
Fixpoint drain_queue (fuel : nat) (user_id : Z) (q : nat) : M unit :=
  match fuel with
  | O => ret tt
  | S fuel' =>
      let* w := gets id in
      match items (queue_of w q) with
      | [] => ret tt
      | e :: rest =>
          let* continue :=
            try_except
              ((* get_nowait() *)
               modify (set_queue_heap
                         (<[q := mk_queue rest (unfinished (queue_of w q))]>));;
               emit (QueueDrop user_id e);;
               queue_task_done q;;
               ret true)
              [ (λ _, true, λ _, ret false) ] in
          if continue then drain_queue fuel' user_id q else ret tt
      end
  end.

Definition cancel_user_commands (user_id : Z) : M unit :=
  (let* workers := gets command_workers in
   match workers !! user_id with
   | Some tid =>
       task_cancel tid;;
       modify (set_command_workers (base.delete user_id))
   | None => ret tt
   end);;
  (let* queues := gets command_queues in
   match queues !! user_id with
   | Some q =>
       let* n := queue_qsize q in
       drain_queue n user_id q;;
       modify (set_command_queues (base.delete user_id))
   | None => ret tt
   end);;
  (let* active := gets active_commands in
   match active !! user_id with
   | Some _ => modify (set_active_commands (base.delete user_id))
   | None => ret tt
   end).

(** [stop_session]; [query_msg] is the message of the callback query. *)
Definition stop_session (user_id : Z) (query_msg : nat) : M unit :=
  cancel_user_commands user_id;;
  let* session_data := Redis.get (session_key user_id) in
  match session_data with
  | Some text => remove_session_container text
  | None => ret tt
  end;;
  Redis.delete (session_key user_id);;
  emit (Chat query_msg SessionStopped).

(** [cancel_command], the handler of [/cancel]. *)
Definition cancel_command (user_id : Z) (msg : nat) : M unit :=
  cancel_user_commands user_id;;
  emit (Chat msg CommandsCancelled).

Definition start_command_worker (user_id : Z) : M unit :=
  let* workers := gets command_workers in
  match workers !! user_id with
  | Some _ => ret tt
  | None =>
      let* worker_task := create_task (mk_task user_id WStart) in
      modify (set_command_workers (insert user_id worker_task))
  end.

(** ** Command execution *)

Definition nl : string := String (Ascii.ascii_of_nat 10) "".
Definition dquote : string := String (Ascii.ascii_of_nat 34) "".

Definition str_exn (e : exn) : string :=
  match e with
  | DockerNotFound => "404 Client Error: Not Found"
  | DockerAPIError msg => msg
  | ResponseError msg => msg
  | AttributeError attr => "object has no attribute '" +:+ attr +:+ "'"
  | KeyError key => "'" +:+ key +:+ "'"
  | ValueError => "invalid value"
  | TimeoutError => ""
  | CancelledError => ""
  end.

(** [send_smart_output]: the output cut at 4000 characters, then the edit of
    the status message. *)
Definition send_smart_output (message : nat) (output : string) (exit_code : Z) : M unit :=
  let output :=
    if Nat.ltb 4000 (String.length output)
    then String.substring 0 4000 output +:+ nl +:+ "... (вывод обрезан)"
    else output in
  emit (Chat message (CommandOutput output exit_code)).

(** [_run_command_sync], run by a pool thread; [reply] is what
    [container.exec_run] answers: the decoded output and the exit code, or an
    exception. *)
Definition _run_command_sync (reply : result (string * Z)) : string * Z :=
  match reply with
  | Ok (output, exit_code) => (output, exit_code)
  | Raise e => ("Ошибка выполнения: " +:+ str_exn e, 1)
  end.

(** [_execute_single_command] up to [run_in_executor]: either it has answered
    in the status message and returns ([None]), or it hands
    [(container, full_command)] to the thread pool and says whether the
    session is a test one. *)
Definition _execute_single_command_begin (command : string) (status_msg : nat)
    (user_id : Z) : M (option (string * string * bool)) :=
  try_except
    (let* session_data := Redis.get (session_key user_id) in
     match session_data with
     | None =>
         emit (Chat status_msg SessionNotFound);;
         ret None
     | Some text =>
         let* session := as_dict (json_loads text) in
         if negb (truthy (container_id session)) then
           emit (Chat status_msg ContainerIdMissing);;
           ret None
         else
           let* found :=
             try_except
               (Docker.containers_get (container_id session);; ret true)
               [ (λ _, true, λ _, ret false) ] in
           if negb found then
             emit (Chat status_msg ContainerNotFound);;
             Redis.delete (session_key user_id);;
             ret None
           else
             let* confirmed := is_confirmed_user user_id in
             if negb confirmed && is_command_dangerous command then
               emit (Chat status_msg CommandForbidden);;
               ret None
             else
               let full_command :=
                 shell session +:+ " -c " +:+ dquote +:+ command +:+ dquote in
               ret (Some (container_id session, full_command, is_test session))
     end)
    [ (is_Exception, λ e, emit (Chat status_msg (CommandError e));; ret None) ].

(** [_execute_single_command] from the result of the pool job on. *)
Definition _execute_single_command_result (status_msg : nat) (result : string * Z) : M unit :=
  try_except
    (let '(output, exit_code) := result in
     let output :=
       if negb (exit_code =? 0) && negb (truthy output)
       then "Команда завершилась с кодом ошибки: " +:+ pretty exit_code
       else if negb (truthy output)
       then "Команда выполнена успешно (нет вывода)"
       else output in
     send_smart_output status_msg output exit_code)
    [ (is_Exception, λ e, emit (Chat status_msg (CommandError e))) ].

(** [_execute_single_command] after [asyncio.TimeoutError]. *)
Definition _execute_single_command_timeout (status_msg : nat) : M unit :=
  emit (Chat status_msg (CommandTimeout (tc_timeout test_config))).

(** [execute_command] up to its first [await], the [reply_text] that makes
    the status message [status_msg]; [command] is the stripped text. *)
Definition execute_command (user_id : Z) (update : nat) (command : string)
    (status_msg : nat) : M unit :=
  let* active := has_active_session user_id in
  if negb active then emit (Chat status_msg NoActiveSession)
  else
    let* workers := gets command_workers in
    match workers !! user_id with
    | None => start_command_worker user_id
    | Some _ => ret tt
    end;;
    let* queues := gets command_queues in
    match queues !! user_id with
    | None =>
        let* q := new_queue in
        modify (set_command_queues (insert user_id q))
    | Some _ => ret tt
    end;;
    emit (Chat status_msg Enqueued);;
    modify (set_handler (Some (mk_pending user_id (mk_entry update command status_msg)))).

(** [execute_command] from the [put] on. *)
Definition execute_command_resumed (p : pending_put) : M unit :=
  modify (set_handler None);;
  let* queues := gets command_queues in
  match queues !! p_user p with
  | None => raise (KeyError (pretty (p_user p)))
  | Some q =>
      queue_put q (p_entry p);;
      emit (QueuePut (p_user p) (p_entry p));;
      let* queue_size := queue_qsize q in
      emit (Chat (e_status_msg (p_entry p)) (QueuePosition queue_size))
  end.

(** ** The event loop

    One [event] is one uninterrupted stretch of the single-threaded loop: a
    handler of the chat application from its start to an [await] that lets
    tasks run, a step of a worker task between two suspension points, the
    completion of a pool job, or the passing of time.  Updates are handled one
    at a time, so no handler starts while [execute_command] is suspended.
    Awaits on chat calls inside a worker step are taken with the step. *)

Inductive event :=
| EvTick (dt : Z)
| EvCreate (user_id : Z) (image shell : string) (ttl_seconds : option Z)
    (ttl_display config_key : string) (network is_test : bool)
    (urandom : string) (run_reply : result string)
| EvStop (user_id : Z) (query_msg : nat)
| EvCancel (user_id : Z) (msg : nat)
| EvSubmit (user_id : Z) (update : nat) (command : string) (status_msg : nat)
| EvSubmitResume
| EvWorkerStart (tid : nat)
| EvWorkerGet (tid : nat)
| EvWorkerIdle (tid : nat)
| EvWorkerTimeout (tid : nat)
| EvJobDone (jid : nat) (reply : result (string * Z)).

Definition live (t : Z) (e : rentry) : bool :=
  match expire_at e with
  | Some deadline => t <? deadline
  | None => true
  end.

(** Time passes: keys whose time to live is over leave the keyspace. *)
Definition tick (dt : Z) (w : world) : world :=
  let t := now w + dt in
  set_redis (filter (λ kv, live t (snd kv) = true)) (set_now (λ _, t) w).

Definition run_handler {A} (m : M A) (w : world) : option world :=
  match handler w with
  | Some _ => None
  | None => Some (snd (m w))
  end.

Definition set_task (tid : nat) (t : task) : world → world :=
  set_tasks (<[tid := t]>).

(** The worker after [_execute_single_command] is over: [queue.task_done()],
    under the loop's [except Exception], and back to [queue.get()]. *)
Definition worker_next (tid : nat) (u : Z) (q : nat) (e : entry)
    (o : exec_outcome) (w : world) : world :=
  let w1 := set_log (λ l, l ++ [ExecEnd u e o]) w in
  let w2 := snd (try_except (queue_task_done q)
                   [ (is_Exception,
                      λ ex, emit (Chat (e_status_msg e) (CommandError ex))) ] w1) in
  set_task tid (mk_task u (WGet q (now w2))) w2.

(** The coroutine is entered: [queue = self.command_queues.get(user_id)]. *)
Definition worker_start (tid : nat) (w : world) : option world :=
  match tasks w !! tid with
  | Some (mk_task u WStart) =>
      match command_queues w !! u with
      | None => Some (set_task tid (mk_task u WDone) w)
      | Some q => Some (set_task tid (mk_task u (WGet q (now w))) w)
      end
  | _ => None
  end.

(** [queue.get()] returns an item and [_execute_single_command] runs up to
    its return or to [run_in_executor]. *)
Definition worker_get (tid : nat) (w : world) : option world :=
  match tasks w !! tid with
  | Some (mk_task u (WGet q since)) =>
      match items (queue_of w q) with
      | [] => None
      | e :: rest =>
          let w1 :=
            set_log (λ l, l ++ [ExecBegin u e])
              (set_queue_heap (<[q := mk_queue rest (unfinished (queue_of w q))]>) w) in
          match _execute_single_command_begin (e_command e) (e_status_msg e) u w1 with
          | (Ok (Some (cid, full_command, test)), w2) =>
              let jid := length (jobs w2) in
              let timeout := if test then Some (tc_timeout test_config) else None in
              Some (set_task tid (mk_task u (WRun q e jid (now w2) timeout))
                      (set_log (λ l, l ++ [DockerExec cid full_command jid])
                         (set_jobs (λ js, js ++ [mk_job u tid cid full_command false]) w2)))
          | (Ok None, w2) => Some (worker_next tid u q e Returned w2)
          | (Raise ex, w2) =>
              if is_Exception ex
              then Some (set_task tid (mk_task u (WGet q (now w2)))
                           (set_log (λ l, l ++ [ExecEnd u e Raised;
                                                Chat (e_status_msg e) (CommandError ex)]) w2))
              else Some (set_task tid (mk_task u WDone)
                           (set_log (λ l, l ++ [ExecEnd u e Raised]) w2))
          end
      end
  | _ => None
  end.

(** [asyncio.TimeoutError] from [wait_for(queue.get(), timeout=300.0)]: the
    queue has been empty for the whole window; the worker leaves its loop. *)
Definition worker_idle (tid : nat) (w : world) : option world :=
  match tasks w !! tid with
  | Some (mk_task u (WGet q since)) =>
      if bool_decide (items (queue_of w q) = []) && (since + worker_idle_timeout <=? now w)
      then Some (set_task tid (mk_task u WDone) w)
      else None
  | _ => None
  end.

(** [asyncio.TimeoutError] from the [wait_for] around the pool job of a test
    session: the job itself goes on in its thread. *)
Definition worker_timeout (tid : nat) (w : world) : option world :=
  match tasks w !! tid with
  | Some (mk_task u (WRun q e jid since (Some t))) =>
      if since + t <=? now w
      then Some (worker_next tid u q e TimedOut
                   (snd (_execute_single_command_timeout (e_status_msg e) w)))
      else None
  | _ => None
  end.

Definition finish_job (j : job) : job :=
  mk_job (j_user j) (j_task j) (j_container j) (j_command j) true.

(** A pool thread returns from [_run_command_sync].  The result reaches the
    worker if it still waits for this job and its timeout has not struck. *)
Definition job_done (jid : nat) (reply : result (string * Z)) (w : world) : option world :=
  match jobs w !! jid with
  | Some j =>
      if j_done j then None
      else
        let w1 := set_jobs (<[jid := finish_job j]>) w in
        match tasks w1 !! j_task j with
        | Some (mk_task u (WRun q e jid' since tmo)) =>
            if Nat.eqb jid' jid &&
               match tmo with Some t => now w1 <? since + t | None => true end
            then
              let w2 := snd (_execute_single_command_result (e_status_msg e)
                               (_run_command_sync reply) w1) in
              Some (worker_next (j_task j) u q e Returned w2)
            else Some w1
        | _ => Some w1
        end
  | None => None
  end.

Definition step (ev : event) (w : world) : option world :=
  match ev with
  | EvTick dt => if 0 <=? dt then Some (tick dt w) else None
  | EvCreate user_id image shell ttl_seconds ttl_display config_key network is_test
      urandom run_reply =>
      run_handler (create_user_container user_id image shell ttl_seconds ttl_display
                     config_key network is_test urandom run_reply) w
  | EvStop user_id query_msg => run_handler (stop_session user_id query_msg) w
  | EvCancel user_id msg => run_handler (cancel_command user_id msg) w
  | EvSubmit user_id update command status_msg =>
      run_handler (execute_command user_id update command status_msg) w
  | EvSubmitResume =>
      match handler w with
      | Some p => Some (snd (execute_command_resumed p w))
      | None => None
      end
  | EvWorkerStart tid => worker_start tid w
  | EvWorkerGet tid => worker_get tid w
  | EvWorkerIdle tid => worker_idle tid w
  | EvWorkerTimeout tid => worker_timeout tid w
  | EvJobDone jid reply => job_done jid reply w
  end.

Fixpoint run (evs : list event) (w : world) : option world :=
  match evs with
  | [] => Some w
  | ev :: evs' =>
      match step ev w with
      | Some w' => run evs' w'
      | None => None
      end
  end.

(** The bot as [TerminalBot()] leaves it: nothing queued, no task, no job. *)
Definition fresh_bot (t : Z) (r : gmap string rentry) (d : gmap string container) : world :=
  mk_world t r d ∅ ∅ ∅ [] [] [] None [].

(** ** What a trace says about one user's commands *)

Definition puts (u : Z) (l : list effect) : list entry :=
  omap (λ x, match x with
             | QueuePut u' e => if decide (u' = u) then Some e else None
             | _ => None
             end) l.

(** The entries that left the user's queue: taken by the worker or dropped. *)
Definition taken (u : Z) (l : list effect) : list entry :=
  omap (λ x, match x with
             | ExecBegin u' e | QueueDrop u' e => if decide (u' = u) then Some e else None
             | _ => None
             end) l.

Definition begun (u : Z) (l : list effect) : list entry :=
  omap (λ x, match x with
             | ExecBegin u' e => if decide (u' = u) then Some e else None
             | _ => None
             end) l.

Definition ended (u : Z) (l : list effect) : list entry :=
  omap (λ x, match x with
             | ExecEnd u' e _ => if decide (u' = u) then Some e else None
             | _ => None
             end) l.

(** [_execute_single_command] gave up waiting for a job of [u] that may
    still be running: a timeout or a cancellation. *)
Definition gave_up (u : Z) (x : effect) : bool :=
  match x with
  | ExecEnd u' _ TimedOut | ExecEnd u' _ Cancelled => bool_decide (u' = u)
  | _ => false
  end.

(** The pool jobs of [u] that have not returned, and those among them that
    have a thread: the pool has ten, served in the order of submission. *)
Definition in_flight (u : Z) (w : world) : list job :=
  filter (λ j, j_user j = u ∧ j_done j = false) (jobs w).

Definition pool_size : nat := 10.

Definition running (u : Z) (w : world) : list job :=
  filter (λ j, j_user j = u)
    (take pool_size (filter (λ j, j_done j = false) (jobs w))).

(** ** The vocabulary of the statements *)

Definition trusted (w : world) (u : Z) : Prop := fst (is_confirmed_user u w) = Ok true.
Definition untrusted (w : world) (u : Z) : Prop := fst (is_confirmed_user u w) = Ok false.
Definition balance_is (w : world) (u : Z) (b : Z) : Prop := fst (get_user_tokens u w) = Ok b.

Definition write_tokens (u : Z) (n : Z) (w : world) : world :=
  set_log (λ l, l ++ [RedisSet (token_key u)])
    (set_redis (insert (token_key u) (mk_rentry (VStr (SInt n)) None)) w).

(** The session stored for a user, when the key holds one. *)
Definition session_of (w : world) (u : Z) : option session :=
  match redis w !! session_key u with
  | Some (mk_rentry (VStr (SJson s)) _) => Some s
  | _ => None
  end.

Definition full_command_of (s : session) (command : string) : string :=
  shell s +:+ " -c " +:+ dquote +:+ command +:+ dquote.

(** ** Example worlds *)

Definition example_session (cid : string) (test : bool) : session :=
  mk_session cid "alpine:latest" "sh" None "always" "Базовая" true 0 false test.

Definition example_container (name : string) : container :=
  mk_container name "alpine:latest" "tail -f /dev/null" "bridge" "64m" 100000 30000 20
    "running".

(** User 8 is confirmed, user 7 is not and has 480 tokens, user 9 is neither
    and runs a test session; each has a session with a running container. *)
Definition example_redis : gmap string rentry :=
  list_to_map [
    ("confirmed_users", mk_rentry (VSet {["8"]}) None);
    ("tokens:7", mk_rentry (VStr (SInt 480)) None);
    ("session:7", mk_rentry (VStr (SJson (example_session "c7" false))) None);
    ("session:8", mk_rentry (VStr (SJson (example_session "c8" false))) None);
    ("session:9", mk_rentry (VStr (SJson (example_session "c9" true))) (Some 1200))
  ].

Definition example_docker : gmap string container :=
  list_to_map [
    ("c7", example_container "terminal_bot_7_0a0b0c0d");
    ("c8", example_container "terminal_bot_8_01020304");
    ("c9", example_container "terminal_bot_9_0e0f0a0b")
  ].

Definition example_world : world := fresh_bot 0 example_redis example_docker.

(** The record under [key] names a container that the daemon does not know
    or that is not running. *)
Definition stale (w : world) (key : string) : bool :=
  match redis w !! key with
  | Some (mk_rentry (VStr (SJson s)) _) =>
      truthy (container_id s) &&
      match docker w !! container_id s with
      | Some c => negb (String.eqb (c_status c) "running")
      | None => true
      end
  | _ => false
  end.

(** The world after the stale records among [keys] are deleted, one
    [DELETE] each in the order of [keys]. *)
Fixpoint delete_stale (keys : list string) (w : world) : world :=
  match keys with
  | [] => w
  | key :: keys' =>
      delete_stale keys'
        (if stale w key
         then set_log (λ l, l ++ [RedisDelete key]) (set_redis (base.delete key) w)
         else w)
  end.

(** The resource limits [create_user_container] starts from. *)
Definition resolve_config (is_test : bool) (config_key : string) : option resource_config :=
  if is_test then Some test_resource_config else resource_configs !! config_key.

(** The keyword arguments of [containers.run] for a user. *)
Definition container_kwargs_of (user_id : Z) (image : string) (network : bool)
    (limited : bool) (config : resource_config) (urandom : string) : container :=
  mk_container
    ("terminal_bot_" +:+ pretty user_id +:+ "_" +:+ urandom)
    image
    "tail -f /dev/null"
    (if network then "bridge" else "none")
    (if limited then "64m" else rc_mem_limit config)
    (rc_cpu_period config)
    (rc_cpu_quota config)
    (if limited then 20 else rc_pids_limit config)
    "".

(** A time to live the caller may pass: none, or a number of seconds that is
    not negative. *)
Definition valid_ttl (ttl : option Z) : Prop :=
  match ttl with
  | Some t => 0 ≤ t
  | None => True
  end.

(** The world once the daemon has started container [cid]. *)
Definition started (cid : string) (kwargs : container) (w : world) : world :=
  set_docker (insert cid (Docker.with_status "running" kwargs))
    (set_log (λ l, l ++ [DockerRun cid]) w).

(** The world once the session record of [u] is written. *)
Definition persisted (u : Z) (ttl : option Z) (s : session) (w : world) : world :=
  match ttl with
  | Some t =>
      if t =? 0
      then set_log (λ l, l ++ [RedisSet (session_key u)])
             (set_redis (insert (session_key u) (mk_rentry (VStr (SJson s)) None)) w)
      else set_log (λ l, l ++ [RedisSetex (session_key u) t])
             (set_redis (insert (session_key u)
                           (mk_rentry (VStr (SJson s)) (Some (now w + t)))) w)
  | None =>
      set_log (λ l, l ++ [RedisSet (session_key u)])
        (set_redis (insert (session_key u) (mk_rentry (VStr (SJson s)) None)) w)
  end.

(** The write that [persisted] logs. *)
Definition persist_effect (u : Z) (ttl : option Z) : effect :=
  match ttl with
  | Some t => if t =? 0 then RedisSet (session_key u) else RedisSetex (session_key u) t
  | None => RedisSet (session_key u)
  end.

(** The world once container [cid] is stopped and removed. *)
Definition torn_down (cid : string) (w : world) : world :=
  set_docker (base.delete cid)
    (set_log (λ l, l ++ [DockerStop cid; DockerRemove cid]) w).

(** The records the store holds for a user. *)
Definition records_of (w : world) (u : Z) : list rentry :=
  (filter (λ kv, fst kv = session_key u) (map_to_list (redis w))).*2.

(** A first and a second call of [create_user_container] for one user, as a
    user with no container makes them. *)
Definition create_first : M string :=
  create_user_container 7 "alpine:latest" "bash" (Some 3600) "1h" "minimal" true false
    "0a0b0c0d" (Ok "c1").
Definition create_second : M string :=
  create_user_container 7 "debian:latest" "sh" None "always" "medium" false false
    "01020304" (Ok "c2").

Definition minimal_config : resource_config :=
  default test_resource_config (resource_configs !! "minimal").
Definition medium_config : resource_config :=
  default test_resource_config (resource_configs !! "medium").

(** A store with a record whose container is gone (user 5), one whose
    container has exited (user 6), and the records of [example_redis]. *)
Definition stale_world : world :=
  fresh_bot 0
    (<["session:5" := mk_rentry (VStr (SJson (example_session "c5" false))) None]>
       (<["session:6" := mk_rentry (VStr (SJson (example_session "c6" false))) None]>
          example_redis))
    (<["c6" := Docker.with_status "exited" (example_container "terminal_bot_6_0c0d0e0f")]>
       example_docker).

(** A call to the Docker daemon that creates, stops or removes a container. *)
Definition is_docker_call (x : effect) : bool :=
  match x with
  | DockerRun _ | DockerStop _ | DockerRemove _ => true
  | _ => false
  end.

(** From [w] to [w'] only queues and tasks changed, and the trace grew by
    effects that are no Docker call. *)
Definition only_queues_changed (w w' : world) : Prop :=
  now w' = now w ∧ redis w' = redis w ∧ docker w' = docker w ∧
  jobs w' = jobs w ∧ handler w' = handler w ∧
  ∃ l, log w' = log w ++ l ∧ Forall (λ x, is_docker_call x = false) l.

(** What a call of [stop_session] adds to the trace when it finds no
    session: the [DELETE] of the key and the chat message. *)
Definition stop_trace (u : Z) (m : nat) : list effect :=
  [RedisDelete (session_key u); Chat m SessionStopped].

(** A chat message that reports an exception. *)
Definition is_error_chat (x : effect) : bool :=
  match x with
  | Chat _ (CommandError _) => true
  | _ => false
  end.

(** The timeout [_execute_single_command] puts on the pool job. *)
Definition timeout_of (s : session) : option Z :=
  if is_test s then Some (tc_timeout test_config) else None.

(** The final text [_execute_single_command] puts in the status message for
    what [exec_run] answered. *)
Definition rendered (answer : result (string * Z)) : reply :=
  let '(output, exit_code) := _run_command_sync answer in
  let output :=
    if negb (exit_code =? 0) && negb (truthy output)
    then "Команда завершилась с кодом ошибки: " +:+ pretty exit_code
    else if negb (truthy output)
    then "Команда выполнена успешно (нет вывода)"
    else output in
  CommandOutput
    (if Nat.ltb 4000 (String.length output)
     then String.substring 0 4000 output +:+ nl +:+ "... (вывод обрезан)"
     else output)
    exit_code.

(** A user's commands: submitted, waited on a timeout, overtaken. *)
Definition waiting_events : list event :=
  [ EvSubmit 9 1 "sleep 100" 101; EvWorkerStart 0; EvSubmitResume;
    EvSubmit 9 2 "ls" 102; EvSubmitResume;
    EvWorkerGet 0; EvTick 80 ].

(** User 9, in a test session, has sent [sleep 100] and then [ls]; the worker
    has been waiting for the first for 80 seconds. *)
Definition waiting_world : world :=
  default example_world (run waiting_events example_world).

Definition first_entry : entry := mk_entry 1 "sleep 100" 101.

(** ** The view of the queues that the invariants are about *)

(** The effects that tell what happened to the commands. *)
Definition relevant (x : effect) : bool :=
  match x with
  | QueuePut _ _ | QueueDrop _ _ | ExecBegin _ _ | ExecEnd _ _ _ => true
  | _ => false
  end.

Definition commands_trace (w : world) : list effect :=
  filter (λ x, relevant x = true) (log w).

(** [w'] has the queues, workers, tasks and jobs of [w] and tells the same
    about the commands. *)
Definition same_view (w w' : world) : Prop :=
  command_queues w' = command_queues w ∧
  command_workers w' = command_workers w ∧
  queue_heap w' = queue_heap w ∧
  tasks w' = tasks w ∧
  jobs w' = jobs w ∧
  commands_trace w' = commands_trace w.

(** A method that leaves the view as it is. *)
Definition neutral {A} (m : M A) : Prop := ∀ w, same_view w (snd (m w)).

(** The items waiting in the user's registered queue. *)
Definition current_queue (u : Z) (w : world) : list entry :=
  match command_queues w !! u with
  | Some q => items (queue_of w q)
  | None => []
  end.

(** The command the user's registered worker is executing, if any. *)
Definition current_entry (u : Z) (w : world) : list entry :=
  match command_workers w !! u with
  | Some tid =>
      match tasks w !! tid with
      | Some (mk_task _ (WRun _ e _ _ _)) => [e]
      | _ => []
      end
  | None => []
  end.

Definition live_pc (pc : worker_pc) : bool :=
  match pc with
  | WDone => false
  | _ => true
  end.

Definition pc_queue (pc : worker_pc) : option nat :=
  match pc with
  | WGet q _ | WRun q _ _ _ _ => Some q
  | _ => None
  end.

(** The invariant of the event loop. *)
Record inv (w : world) : Prop := mk_inv {
  (* the registered queues exist and no two users share one *)
  inv_queue_valid : ∀ u q,
    command_queues w !! u = Some q → (q < length (queue_heap w))%nat;
  inv_queue_inj : ∀ u1 u2 q,
    command_queues w !! u1 = Some q → command_queues w !! u2 = Some q → u1 = u2;
  (* a registered worker is a task of that user *)
  inv_worker_valid : ∀ u tid,
    command_workers w !! u = Some tid → ∃ pc, tasks w !! tid = Some (mk_task u pc);
  (* a task that has not returned is the registered worker of its user,
     and the queue it reads is the registered queue of its user *)
  inv_live_registered : ∀ tid u pc,
    tasks w !! tid = Some (mk_task u pc) → live_pc pc = true →
    command_workers w !! u = Some tid;
  inv_live_queue : ∀ tid u pc q,
    tasks w !! tid = Some (mk_task u pc) → pc_queue pc = Some q →
    command_queues w !! u = Some q;
  (* [task_done] is never called too often *)
  inv_unfinished : ∀ q,
    (length (items (queue_of w q)) ≤ unfinished (queue_of w q))%nat;
  inv_running_unfinished : ∀ tid u q e j s t,
    tasks w !! tid = Some (mk_task u (WRun q e j s t)) →
    (length (items (queue_of w q)) < unfinished (queue_of w q))%nat;
  (* what was put is what was taken, then what waits *)
  inv_fifo : ∀ u, puts u (log w) = taken u (log w) ++ current_queue u w;
  (* what was begun is what was ended, then what is being executed *)
  inv_bracket : ∀ u, begun u (log w) = ended u (log w) ++ current_entry u w;
  (* a pool job that has not returned is awaited by the worker that
     submitted it, unless that worker gave up on a job *)
  inv_jobs : ∀ jid j,
    jobs w !! jid = Some j → j_done j = false →
    (∃ q e s t,
       tasks w !! j_task j = Some (mk_task (j_user j) (WRun q e jid s t))) ∨
    existsb (gave_up (j_user j)) (log w) = true
}.
(** The trace of a cancelled worker: the end of the command it executed. *)
Definition cancel_trace (u : Z) (pc : worker_pc) : list effect :=
  match pc with
  | WRun _ e _ _ _ => [ExecEnd u e Cancelled]
  | _ => []
  end.

(** A method that keeps the invariant. *)
Definition keeps_inv {A} (m : M A) : Prop := ∀ w, inv w → inv (snd (m w)).

(** The entries that were thrown away by a cancellation. *)
Definition dropped (u : Z) (l : list effect) : list entry :=
  omap (λ x, match x with
             | QueueDrop u' e => if decide (u' = u) then Some e else None
             | _ => None
             end) l.

(** The worker of user 9 gives up on [sleep 100] and takes [ls]. *)
Definition overtaking_events : list event :=
  waiting_events ++ [EvWorkerTimeout 0; EvWorkerGet 0].

(** The user's registered worker has left its loop. *)
Definition retired (u : Z) (tid : nat) (w : world) : Prop :=
  command_workers w !! u = Some tid ∧ tasks w !! tid = Some (mk_task u WDone).

(** [/stop], the stop button and [/cancel] of the user: the calls of
    [cancel_user_commands]. *)
Definition wakes (u : Z) (ev : event) : bool :=
  match ev with
  | EvStop u' _ | EvCancel u' _ => bool_decide (u' = u)
  | _ => false
  end.

(** Between [w] and [w'] the register keeps the worker of [u], the tasks of
    [u] that have returned stay so, and no entry of [u] leaves its queue. *)
Definition undisturbed (u : Z) (w w' : world) : Prop :=
  command_workers w' !! u = command_workers w !! u ∧
  (∀ tid, tasks w !! tid = Some (mk_task u WDone) →
          tasks w' !! tid = Some (mk_task u WDone)) ∧
  taken u (log w') = taken u (log w) ∧
  begun u (log w') = begun u (log w).

Definition spares (u : Z) {A} (m : M A) : Prop :=
  ∀ w, inv w → inv (snd (m w)) ∧ undisturbed u w (snd (m w)).

(** A command is executed, the worker idles out, another is submitted. *)
Definition idle_events : list event :=
  [ EvSubmit 7 1 "ls" 101; EvWorkerStart 0; EvSubmitResume; EvWorkerGet 0;
    EvJobDone 0 (Ok ("bin", 0)); EvTick 300 ].

Definition late_events : list event :=
  [ EvSubmit 7 2 "pwd" 102; EvSubmitResume; EvTick 3600 ].

(** User 7 has had [ls] executed and five minutes have passed; the worker
    leaves its loop; [pwd] is submitted and an hour passes. *)
Definition idle_world : world :=
  default example_world (run idle_events example_world).

Definition retired_world : world :=
  default idle_world (worker_idle 0 idle_world).

Definition late_world : world :=
  default retired_world (run late_events retired_world).

(** ** Startup *)

(** A container that carries the bot's name: what the name filter of
    [cleanup_old_containers] selects. *)
Definition bot_container (c : container) : bool := contains "terminal_bot_" (c_name c).

(** The calls that stop and remove the containers [cids], in that order. *)
Definition teardown_trace (cids : list string) : list effect :=
  cids ≫= λ cid, [DockerStop cid; DockerRemove cid].

(** The containers that the startup removes, in the order it lists them. *)
Definition bot_containers (w : world) : list string :=
  (filter (λ kc, bot_container (snd kc) = true) (map_to_list (docker w))).*1.

(** ** Cancellation *)

(** Where the user's registered worker is. *)
Definition worker_pc_of (u : Z) (w : world) : worker_pc :=
  match command_workers w !! u with
  | Some tid =>
      match tasks w !! tid with
      | Some t => t_pc t
      | None => WDone
      end
  | None => WDone
  end.

(** [/cancel], then a command: the handler up to its [put], the new worker's
    first step, the [put], and the worker's [get]. *)
Definition cancel_and_submit (u : Z) (m update : nat) (command : string)
    (status_msg tid : nat) : list event :=
  [ EvCancel u m; EvSubmit u update command status_msg; EvWorkerStart tid;
    EvSubmitResume; EvWorkerGet tid ].

(** ** Handlers outside the command queue

    What a handler shows is its result here: the messages it sends or edits,
    by what they say, in the order it sends them.  Keyboards are left out. *)

(** [self.available_images] *)
Definition available_images : list (string * string) :=
  [ ("alpine:latest", "Alpine Linux"); ("ubuntu:latest", "Ubuntu");
    ("debian:latest", "Debian"); ("kalilinux/kali-rolling", "Kali Linux");
    ("opensuse/leap:latest", "openSUSE"); ("fedora:latest", "Fedora");
    ("archlinux:latest", "Arch Linux") ].

(** [d.get(key)] and [key in d] on a dict given by its items. *)
Fixpoint dict_get {A} (d : list (string * A)) (key : string) : option A :=
  match d with
  | [] => None
  | (k, v) :: d' => if String.eqb k key then Some v else dict_get d' key
  end.

(** [self.available_images.get(image_key, image_key)] *)
Definition image_name_of (image_key : string) : string :=
  default image_key (dict_get available_images image_key).

(** What [inline_query] answers: the title of the one article. *)
Inductive inline_answer :=
| InlineNoContainer              (* "Нет активного контейнера" *)
| InlineNotRunning               (* "Контейнер не запущен" *)
| InlineNotFound                 (* "Контейнер не найден" *)
| InlineCheckFailed              (* "Ошибка проверки контейнера" *)
| InlineShows (s : session).     (* the article that describes the session *)

(** Truth value of what [json.loads] returns. *)
Definition pyobj_truthy (o : pyobj) : bool :=
  match o with
  | PDict _ => true
  | PInt n => negb (n =? 0)
  end.

(** [inline_query]: the session of the user who asks is checked against
    Docker, and dropped when its container is not there or not running. *)
Definition inline_query (user_id : Z) : M inline_answer :=
  let* session_info := get_session_info user_id in
  match session_info with
  | None => ret InlineNoContainer
  | Some o =>
      if negb (pyobj_truthy o) then ret InlineNoContainer
      else
        let* session := as_dict o in
        if negb (truthy (container_id session)) then
          Redis.delete (session_key user_id);;
          ret InlineNoContainer
        else
          let* early :=
            try_except
              (let* container := Docker.containers_get (container_id session) in
               if negb (String.eqb (c_status container) "running") then
                 Redis.delete (session_key user_id);;
                 ret (Some InlineNotRunning)
               else ret None)
              [ (is_NotFound, λ _, Redis.delete (session_key user_id);;
                                   ret (Some InlineNotFound));
                (is_Exception, λ _, ret (Some InlineCheckFailed)) ] in
          match early with
          | Some answer => ret answer
          | None => ret (InlineShows session)
          end
  end.

(** What [nohup_command] replies, or the task it creates: the background
    command for [_execute_nohup_command] to run in [container], and the log
    file it names. *)
Inductive nohup_outcome :=
| NohupNoSession
| NohupTestRefused
| NohupUsage
| NohupForbidden
| NohupIdMissing
| NohupContainerNotFound
| NohupStarted (container background_command log_file : string).

(** [' '.join(args)] *)
Fixpoint join_args (args : list string) : string :=
  match args with
  | [] => ""
  | [a] => a
  | a :: rest => a +:+ " " +:+ join_args rest
  end.

(** [nohup_command]; [args] is [context.args] and [time] is
    [int(time.time())]. *)
Definition nohup_command (user_id : Z) (args : list string) (time : Z) : M nohup_outcome :=
  let* active := has_active_session user_id in
  if negb active then ret NohupNoSession
  else
    let* session_info := get_session_info user_id in
    let* session :=
      match session_info with
      | Some o => as_dict o
      | None => raise (AttributeError "get")
      end in
    if is_test session then ret NohupTestRefused
    else
      match args with
      | [] => ret NohupUsage
      | _ =>
          let command := join_args args in
          let* confirmed := is_confirmed_user user_id in
          if negb confirmed && is_command_dangerous command then ret NohupForbidden
          else
            let* session_info := get_session_info user_id in
            let* session :=
              match session_info with
              | Some o => as_dict o
              | None => raise (AttributeError "get")
              end in
            if negb (truthy (container_id session)) then ret NohupIdMissing
            else
              let* found :=
                try_except
                  (Docker.containers_get (container_id session);; ret true)
                  [ (λ _, true, λ _, ret false) ] in
              if negb found then
                Redis.delete (session_key user_id);;
                ret NohupContainerNotFound
              else
                let log_file :=
                  "/tmp/nohup_" +:+ pretty user_id +:+ "_" +:+ pretty time +:+ ".log" in
                let background_command :=
                  "nohup " +:+ shell session +:+ " -c " +:+ dquote +:+ command +:+ dquote
                  +:+ " > " +:+ log_file +:+ " 2>&1 & echo $! > /tmp/last_pid_"
                  +:+ pretty user_id +:+ ".txt" in
                ret (NohupStarted (container_id session) background_command log_file)
      end.

(** [context.user_data], as far as the launch menus use it. *)
Record user_data := mk_user_data {
  selected_image : option string;
  selected_shell : option string;
  selected_config : option string;
  ud_network : option bool
}.

(** The messages of [select_ttl] and [select_image]. *)
Inductive launch_message :=
| UnknownTtl                     (* "Ошибка: неизвестное время жизни" *)
| Creating                       (* "Создаю контейнер..." *)
| CreatingTest                   (* "Создаю тестовый контейнер..." *)
| ContainerStarted (image_name shell config_name : string) (network : bool)
    (ttl_display : string)       (* "Контейнер запущен!" *)
| TestContainerStarted           (* "Тестовый контейнер запущен!" *)
| CreationFailed (e : exn)       (* "Ошибка при создании контейнера: ..." *)
| TestCreationFailed (e : exn)   (* "Ошибка при создании тестового контейнера: ..." *)
| TokensExhausted                (* the alert "Токены закончились!" *)
| ChooseShell (image_name : string).  (* "Выбран образ: ..." *)

(** [select_config]: the names on the buttons of the keyboard of times to
    live, row by row, without the last row that leads back. *)
Fixpoint ttl_rows (is_confirmed is_admin : bool) (options : list (string * option Z))
    (row : list string) : list (list string) :=
  match options with
  | [] => match row with [] => [] | _ => [row] end
  | (ttl_name, ttl_seconds) :: rest =>
      if negb is_confirmed &&
         match ttl_seconds with Some t => negb (t =? 0) && (86400 <? t) | None => false end
      then ttl_rows is_confirmed is_admin rest row
      else if String.eqb ttl_name "always" && negb is_admin
      then ttl_rows is_confirmed is_admin rest row
      else
        let row := row ++ [ttl_name] in
        if Nat.eqb (length row) 2
        then row :: ttl_rows is_confirmed is_admin rest []
        else ttl_rows is_confirmed is_admin rest row
  end.

(** [select_config]: the new [user_data] and the keyboard, or [None] for the
    message that the configuration is unknown. *)
Definition select_config (user_id : Z) (config_key : string) (ud : user_data)
    : M (user_data * option (list (list string))) :=
  match resource_configs !! config_key with
  | None => ret (ud, None)
  | Some _ =>
      let ud := mk_user_data (selected_image ud) (selected_shell ud) (Some config_key)
                  (ud_network ud) in
      let* is_confirmed := is_confirmed_user user_id in
      ret (ud, Some (ttl_rows is_confirmed (is_admin user_id) ttl_options []))
  end.

(** [select_ttl]; [urandom] and [run_reply] as for [create_user_container]. *)
Definition select_ttl (user_id : Z) (ttl_name : string) (ud : user_data)
    (urandom : string) (run_reply : result string) : M (list launch_message) :=
  match dict_get ttl_options ttl_name with
  | None => ret [UnknownTtl]
  | Some ttl_seconds =>
      let shell := default "bash" (selected_shell ud) in
      let image_key := default "alpine:latest" (selected_image ud) in
      let config_key := default "minimal" (selected_config ud) in
      let network := default true (ud_network ud) in
      try_except
        (create_user_container user_id image_key shell ttl_seconds ttl_name
           config_key network false urandom run_reply;;
         let image_name := image_name_of image_key in
         let ttl_display := if String.eqb ttl_name "always" then "всегда" else ttl_name in
         let* config :=
           match resource_configs !! config_key with
           | Some c => ret c
           | None => raise (KeyError config_key)
           end in
         ret [Creating; ContainerStarted image_name shell (rc_name config) network
                          ttl_display])
        [ (is_Exception, λ e, ret [Creating; CreationFailed e]) ]
  end.

(** [select_image]: the new [user_data] and the messages. *)
Definition select_image (user_id : Z) (image_key : string) (ud : user_data)
    (urandom : string) (run_reply : result string) : M (user_data * list launch_message) :=
  let* confirmed := is_confirmed_user user_id in
  let* exhausted :=
    if negb confirmed && negb (String.eqb image_key "test") then
      let* user_tokens := get_user_tokens user_id in
      ret (user_tokens <=? 0)
    else ret false in
  if exhausted then ret (ud, [TokensExhausted])
  else if String.eqb image_key "test" then
    try_except
      (create_user_container user_id (tc_image test_config) (tc_shell test_config)
         (Some (tc_max_session_time test_config)) "20m" "test" true true
         urandom run_reply;;
       ret (ud, [CreatingTest; TestContainerStarted]))
      [ (is_Exception, λ e, ret (ud, [CreatingTest; TestCreationFailed e])) ]
  else
    ret (mk_user_data (Some image_key) (selected_shell ud) (selected_config ud)
           (ud_network ud),
         [ChooseShell (image_name_of image_key)]).

(** The command line [nohup_command] builds for [command] in session [s]. *)
Definition background_command_of (u : Z) (s : session) (command : string) (time : Z)
    : string :=
  "nohup " +:+ shell s +:+ " -c " +:+ dquote +:+ command +:+ dquote
  +:+ " > " +:+ ("/tmp/nohup_" +:+ pretty u +:+ "_" +:+ pretty time +:+ ".log")
  +:+ " 2>&1 & echo $! > /tmp/last_pid_" +:+ pretty u +:+ ".txt".

Definition log_file_of (u : Z) (time : Z) : string :=
  "/tmp/nohup_" +:+ pretty u +:+ "_" +:+ pretty time +:+ ".log".

(** A time to live that [select_config] puts on a button for a user. *)
Definition ttl_allowed (is_confirmed is_admin : bool) (option : string * option Z) : bool :=
  negb (negb is_confirmed &&
        match snd option with Some t => negb (t =? 0) && (86400 <? t) | None => false end)
  && negb (String.eqb (fst option) "always" && negb is_admin).


(** * Properties *)

Global Arguments truthy : simpl never.
Global Arguments is_command_dangerous : simpl never.
Global Arguments full_command_of : simpl never.
Global Arguments session_key : simpl never.
Global Arguments token_key : simpl never.
Global Arguments pretty : simpl never.

Ltac munfold :=
  unfold try_except, dispatch, swallow_Exception, swallow_all, emit, modify, gets,
    raise, ret, bind, mbind, M_bind in *.

Lemma bind_ok {A B} (m : M A) (k : A → M B) w a w' :
  m w = (Ok a, w') → bind m k w = k a w'.
Proof. unfold bind. by intros ->. Qed.

Lemma bind_raise {A B} (m : M A) (k : A → M B) w e w' :
  m w = (Raise e, w') → bind m k w = (Raise e, w').
Proof. unfold bind. by intros ->. Qed.

Lemma token_key_not_confirmed u : token_key u ≠ confirmed_users_key.
Proof. unfold token_key, confirmed_users_key. cbv [String.append]. discriminate. Qed.

Lemma session_key_not_confirmed u : session_key u ≠ confirmed_users_key.
Proof. unfold session_key, confirmed_users_key. cbv [String.append]. discriminate. Qed.

Lemma session_key_not_token u v : session_key u ≠ token_key v.
Proof. unfold session_key, token_key. cbv [String.append]. discriminate. Qed.

Lemma is_confirmed_user_pure u w : snd (is_confirmed_user u w) = w.
Proof.
  unfold is_confirmed_user, Redis.sismember. munfold. simpl.
  destruct (redis w !! confirmed_users_key) as [[[|] ?]|]; reflexivity.
Qed.

Lemma get_user_tokens_pure u w : snd (get_user_tokens u w) = w.
Proof.
  unfold get_user_tokens, Redis.get, py_int. munfold. simpl.
  destruct (redis w !! token_key u) as [[[[]|] ?]|]; reflexivity.
Qed.

Lemma run_is_confirmed_user u w : is_confirmed_user u w = (fst (is_confirmed_user u w), w).
Proof. rewrite <- (is_confirmed_user_pure u w) at 3. by destruct (is_confirmed_user u w). Qed.

Lemma run_get_user_tokens u w : get_user_tokens u w = (fst (get_user_tokens u w), w).
Proof. rewrite <- (get_user_tokens_pure u w) at 3. by destruct (get_user_tokens u w). Qed.

Lemma is_confirmed_user_frame u w w' :
  redis w' !! confirmed_users_key = redis w !! confirmed_users_key →
  fst (is_confirmed_user u w') = fst (is_confirmed_user u w).
Proof.
  intros H. unfold is_confirmed_user, Redis.sismember. munfold. simpl. rewrite H.
  destruct (redis w !! confirmed_users_key) as [[[|] ?]|]; reflexivity.
Qed.

Lemma write_tokens_confirmed u v n w :
  fst (is_confirmed_user v (write_tokens u n w)) = fst (is_confirmed_user v w).
Proof.
  apply is_confirmed_user_frame. simpl.
  apply lookup_insert_ne, token_key_not_confirmed.
Qed.

Lemma write_tokens_balance u n w : balance_is (write_tokens u n w) u n.
Proof.
  unfold balance_is, get_user_tokens, Redis.get. munfold. simpl.
  by rewrite lookup_insert_eq.
Qed.

Lemma consume_tokens_trusted u amount w :
  trusted w u → consume_tokens u amount w = (Ok true, w).
Proof.
  unfold trusted, consume_tokens. intros H. unfold bind at 1.
  rewrite run_is_confirmed_user, H. reflexivity.
Qed.

Lemma consume_tokens_empty u amount w b :
  untrusted w u → balance_is w u b → b ≤ 0 → consume_tokens u amount w = (Ok false, w).
Proof.
  unfold untrusted, balance_is, consume_tokens. intros H Hb Hle. unfold bind at 1.
  rewrite run_is_confirmed_user, H. unfold bind at 1.
  rewrite run_get_user_tokens, Hb.
  destruct (Z.leb_spec b 0); [reflexivity | lia].
Qed.

Lemma consume_tokens_pays u amount w b :
  untrusted w u → balance_is w u b → 0 < b →
  consume_tokens u amount w = (Ok true, write_tokens u (Z.max 0 (b - amount)) w).
Proof.
  unfold untrusted, balance_is, consume_tokens. intros H Hb Hlt. unfold bind at 1.
  rewrite run_is_confirmed_user, H. unfold bind at 1.
  rewrite run_get_user_tokens, Hb.
  destruct (Z.leb_spec b 0); [lia | reflexivity].
Qed.

Lemma consume_repeatedly_pays u n : ∀ w b,
  untrusted w u → balance_is w u b → Z.of_nat n ≤ b →
  ∃ w', consume_repeatedly n u w = (Ok (replicate n true), w')
        ∧ untrusted w' u ∧ balance_is w' u (b - Z.of_nat n).
Proof.
  induction n as [|n IH]; intros w b Hu Hb Hle.
  - exists w. repeat split; [done|]. simpl. by rewrite Z.sub_0_r.
  - assert (0 < b) as Hpos by lia.
    destruct (IH (write_tokens u (Z.max 0 (b - 1)) w) (Z.max 0 (b - 1)))
      as (w' & Hrun & Hu' & Hb').
    + unfold untrusted. by rewrite write_tokens_confirmed.
    + apply write_tokens_balance.
    + lia.
    + exists w'. split_and!; [|done|].
      * simpl. unfold bind at 1. rewrite (consume_tokens_pays u 1 w b) by done.
        unfold bind at 1. rewrite Hrun. reflexivity.
      * by replace (b - Z.of_nat (S n)) with (Z.max 0 (b - 1) - Z.of_nat n) by lia.
Qed.

Lemma init_user_tokens_new u w :
  redis w !! token_key u = None →
  init_user_tokens u w = (Ok tt, write_tokens u initial_tokens w).
Proof.
  intros H. unfold init_user_tokens, Redis.exists_, Redis.set. munfold. simpl.
  rewrite H. reflexivity.
Qed.

Theorem consume_tokens_ledger (w : world) (u amount b : Z) :
  (trusted w u → consume_tokens u amount w = (Ok true, w)) ∧
  (untrusted w u → balance_is w u b → b ≤ 0 →
     consume_tokens u amount w = (Ok false, w)) ∧
  (untrusted w u → balance_is w u b → 0 < b →
     ∃ w', consume_tokens u amount w = (Ok true, w')
           ∧ redis w' = <[token_key u := mk_rentry (VStr (SInt (Z.max 0 (b - amount)))) None]> (redis w)
           ∧ balance_is w' u (Z.max 0 (b - amount))) ∧
  (untrusted w u → redis w !! token_key u = None →
     ∃ w1 w2, init_user_tokens u w = (Ok tt, w1)
              ∧ balance_is w1 u 480
              ∧ consume_repeatedly 480 u w1 = (Ok (replicate 480 true), w2)
              ∧ balance_is w2 u 0
              ∧ consume_tokens u 1 w2 = (Ok false, w2)).
Proof.
  split_and!.
  - apply consume_tokens_trusted.
  - apply consume_tokens_empty.
  - intros Hu Hb Hpos. eexists. split; [by apply consume_tokens_pays|].
    split; [reflexivity | apply write_tokens_balance].
  - intros Hu Hnone.
    destruct (consume_repeatedly_pays u 480 (write_tokens u initial_tokens w) initial_tokens)
      as (w2 & Hrun & Hu2 & Hb2).
    + unfold untrusted. by rewrite write_tokens_confirmed.
    + apply write_tokens_balance.
    + unfold initial_tokens. lia.
    + exists (write_tokens u initial_tokens w), w2. split_and!.
      * by apply init_user_tokens_new.
      * apply write_tokens_balance.
      * exact Hrun.
      * exact Hb2.
      * by apply (consume_tokens_empty u 1 w2 (initial_tokens - Z.of_nat 480)).
Qed.

(** C10.  A user with no stored token balance has balance 0: [get_user_tokens]
    answers 0 and leaves the store as it is, so [consume_tokens(U, 1)] for
    such a user, when untrusted, answers [False] and creates no record. *)
Theorem missing_balance_reads_zero (w : world) (u : Z) :
  redis w !! token_key u = None →
  get_user_tokens u w = (Ok 0, w) ∧
  (untrusted w u →
     consume_tokens u 1 w = (Ok false, w) ∧
     redis (snd (consume_tokens u 1 w)) !! token_key u = None).
Proof.
  intros Hnone.
  assert (get_user_tokens u w = (Ok 0, w)) as Hget.
  { unfold get_user_tokens, Redis.get. munfold. simpl. by rewrite Hnone. }
  split; [exact Hget|]. intros Hu.
  assert (consume_tokens u 1 w = (Ok false, w)) as ->.
  { apply (consume_tokens_empty u 1 w 0); [done| |lia].
    unfold balance_is. by rewrite Hget. }
  done.
Qed.

(** ** The deny-list *)

Lemma append_nil_l s : "" +:+ s = s.
Proof. reflexivity. Qed.

Lemma append_cons a s1 s2 : String a s1 +:+ s2 = String a (s1 +:+ s2).
Proof. reflexivity. Qed.

Lemma prefix_append p : ∀ s, String.prefix p s = true ↔ ∃ b, s = p +:+ b.
Proof.
  induction p as [|a p IH]; intros s.
  - split; [intros _; exists s; reflexivity|]. by destruct s.
  - destruct s as [|c s]; simpl.
    + split; [discriminate|]. intros [b Hb]. rewrite append_cons in Hb. discriminate.
    + destruct (ascii_dec a c) as [->|Hne].
      * rewrite IH. split; intros [b Hb]; exists b.
        -- rewrite append_cons. by f_equal.
        -- rewrite append_cons in Hb. by injection Hb.
      * split; [discriminate|]. intros [b Hb]. rewrite append_cons in Hb.
        injection Hb as Hac _. congruence.
Qed.

Lemma contains_nil p : contains p "" = String.prefix p "" || false.
Proof. reflexivity. Qed.

Lemma contains_cons p c s :
  contains p (String c s) = String.prefix p (String c s) || contains p s.
Proof. reflexivity. Qed.

Lemma contains_spec p : ∀ s, contains p s = true ↔ ∃ a b, s = a +:+ p +:+ b.
Proof.
  induction s as [|c s IH];
    rewrite ?contains_nil, ?contains_cons, orb_true_iff, prefix_append.
  - split.
    + intros [[b Hb]|?]; [|discriminate]. by exists "", b.
    + intros (a & b & Hab). left. destruct a as [|??]; [|discriminate].
      by exists b.
  - rewrite IH. split.
    + intros [[b Hb]|(a & b & Hab)].
      * by exists "", b.
      * exists (String c a), b. rewrite append_cons. by f_equal.
    + intros (a & b & Hab). destruct a as [|c' a].
      * left. by exists b.
      * right. rewrite append_cons in Hab. injection Hab as _ Hs. by exists a, b.
Qed.

Lemma is_command_dangerous_spec command :
  is_command_dangerous command = true ↔
  ∃ pattern a b, pattern ∈ dangerous_patterns ∧ lower command = a +:+ pattern +:+ b.
Proof.
  unfold is_command_dangerous. rewrite existsb_exists. split.
  - intros (p & Hin & Hc). apply contains_spec in Hc as (a & b & Hab).
    exists p, a, b. split; [by apply list_elem_of_In | done].
  - intros (p & a & b & Hin & Hab). exists p. split; [by apply list_elem_of_In|].
    apply contains_spec. eauto.
Qed.

Ltac mrun :=
  cbv [bind ret raise gets modify emit try_except dispatch mbind M_bind
       swallow_Exception swallow_all for_each
       Redis.get Redis.set Redis.setex Redis.delete Redis.exists_ Redis.sadd
       Docker.containers_get Docker.stop Docker.remove Docker.containers_run
       as_dict json_loads py_int];
  simpl.

Lemma begin_reads_session command m u w s c :
  session_of w u = Some s →
  truthy (container_id s) = true →
  docker w !! container_id s = Some c →
  _execute_single_command_begin command m u w =
    match fst (is_confirmed_user u w) with
    | Ok confirmed =>
        if negb confirmed && is_command_dangerous command
        then (Ok None, set_log (λ l, l ++ [Chat m CommandForbidden]) w)
        else (Ok (Some (container_id s, full_command_of s command, is_test s)), w)
    | Raise e =>
        if is_Exception e
        then (Ok None, set_log (λ l, l ++ [Chat m (CommandError e)]) w)
        else (Raise e, w)
    end.
Proof.
  unfold session_of. intros Hs Ht Hc.
  unfold _execute_single_command_begin. mrun.
  destruct (redis w !! session_key u) as [[[[|s']|] ?]|]; try discriminate.
  injection Hs as ->. rewrite Ht. simpl. rewrite Hc. simpl.
  rewrite run_is_confirmed_user.
  destruct (fst (is_confirmed_user u w)) as [confirmed|e]; simpl.
  - destruct (negb confirmed && is_command_dangerous command); reflexivity.
  - destruct (is_Exception e); reflexivity.
Qed.

Lemma begin_forbidden_returns command m u w :
  untrusted w u → is_command_dangerous command = true →
  fst (_execute_single_command_begin command m u w) = Ok None.
Proof.
  intros Hu Hd.
  unfold _execute_single_command_begin. mrun.
  destruct (redis w !! session_key u) as [[[[n|s]|] ?]|]; simpl; try reflexivity.
  destruct (truthy (container_id s)); simpl; [|reflexivity].
  destruct (docker w !! container_id s); simpl; [|reflexivity].
  rewrite run_is_confirmed_user, Hu. simpl. rewrite Hd. reflexivity.
Qed.

Lemma begin_keeps_jobs command m u w :
  jobs (snd (_execute_single_command_begin command m u w)) = jobs w.
Proof.
  unfold _execute_single_command_begin. mrun.
  destruct (redis w !! session_key u) as [[[[n|s]|] ?]|]; simpl; try reflexivity.
  destruct (truthy (container_id s)); simpl; [|reflexivity].
  destruct (docker w !! container_id s); simpl; [|reflexivity].
  rewrite run_is_confirmed_user.
  destruct (fst (is_confirmed_user u w)) as [confirmed|e]; simpl.
  - destruct (negb confirmed && is_command_dangerous command); reflexivity.
  - destruct e; reflexivity.
Qed.

Lemma worker_next_keeps_jobs tid u q e o w :
  jobs (worker_next tid u q e o w) = jobs w.
Proof.
  unfold worker_next, queue_task_done, set_task. mrun.
  destruct (unfinished (queue_of _ q)); reflexivity.
Qed.



(** ** Reconciliation at startup *)

Lemma cleanup_sessions_loop_cons key keys w :
  cleanup_sessions_loop (key :: keys) w =
    cleanup_sessions_loop keys
      (if stale w key
       then set_log (λ l, l ++ [RedisDelete key]) (set_redis (base.delete key) w)
       else w).
Proof.
  unfold cleanup_sessions_loop, stale. mrun.
  destruct (redis w !! key) as [[[[n|s]|] ?]|]; simpl; try reflexivity.
  destruct (truthy (container_id s)); simpl; [|reflexivity].
  destruct (docker w !! container_id s) as [c|]; simpl; [|reflexivity].
  destruct (String.eqb (c_status c) "running"); reflexivity.
Qed.

Lemma cleanup_sessions_loop_run keys : ∀ w,
  cleanup_sessions_loop keys w = (Ok tt, delete_stale keys w).
Proof.
  induction keys as [|key keys IH]; intros w; [reflexivity|].
  rewrite cleanup_sessions_loop_cons. apply IH.
Qed.

Lemma stale_ext w w' key :
  redis w' !! key = redis w !! key → docker w' = docker w → stale w' key = stale w key.
Proof. unfold stale. by intros -> ->. Qed.

Lemma delete_stale_docker keys : ∀ w, docker (delete_stale keys w) = docker w.
Proof.
  induction keys as [|key keys IH]; intros w; [reflexivity|]. simpl.
  rewrite IH. by destruct (stale w key).
Qed.

Lemma delete_stale_lookup keys : ∀ w k,
  redis (delete_stale keys w) !! k =
    if bool_decide (k ∈ keys) && stale w k then None else redis w !! k.
Proof.
  induction keys as [|key keys IH]; intros w k; [reflexivity|]. simpl.
  rewrite IH. destruct (decide (k = key)) as [->|Hne].
  - rewrite (bool_decide_eq_true_2 (key ∈ key :: keys)) by left. simpl.
    destruct (stale w key) eqn:Hst; simpl.
    + unfold stale at 1. simpl. rewrite lookup_delete_eq.
      by rewrite andb_false_r.
    + rewrite Hst, andb_false_r. reflexivity.
  - assert (bool_decide (k ∈ key :: keys) = bool_decide (k ∈ keys)) as ->.
    { apply bool_decide_ext. rewrite elem_of_cons.
      split; [intros [?|?]; [congruence|done] | by right]. }
    destruct (stale w key); simpl; [|reflexivity].
    set (w1 := set_log _ _).
    rewrite (stale_ext w w1 k); [|by apply lookup_delete_ne|done].
    subst w1. simpl. by rewrite lookup_delete_ne.
Qed.

Lemma stale_is_some w k : stale w k = true → is_Some (redis w !! k).
Proof. unfold stale. destruct (redis w !! k); [eauto|discriminate]. Qed.

Lemma session_key_prefix u : String.prefix "session:" (session_key u) = true.
Proof. apply prefix_append. by exists (pretty u). Qed.

Lemma token_key_no_prefix u : String.prefix "session:" (token_key u) = false.
Proof. reflexivity. Qed.


(** ** Session creation *)

Lemma run_redis_get key w : Redis.get key w = (fst (Redis.get key w), w).
Proof.
  unfold Redis.get. mrun. by destruct (redis w !! key) as [[[|] ?]|].
Qed.

Lemma remove_session_container_total text w :
  ∃ w', remove_session_container text w = (Ok tt, w')
        ∧ redis w' = redis w ∧ now w' = now w
        ∧ command_queues w' = command_queues w ∧ command_workers w' = command_workers w
        ∧ active_commands w' = active_commands w ∧ queue_heap w' = queue_heap w
        ∧ tasks w' = tasks w ∧ jobs w' = jobs w ∧ handler w' = handler w.
Proof.
  unfold remove_session_container. mrun.
  destruct text as [n|s]; simpl; [by eexists|].
  destruct (truthy (container_id s)); simpl; [|by eexists].
  destruct (docker w !! container_id s) as [c|] eqn:Hd; simpl; [|by eexists].
  rewrite Hd. simpl. rewrite lookup_insert_eq. simpl. by eexists.
Qed.

Lemma remove_session_container_live s w c :
  truthy (container_id s) = true →
  docker w !! container_id s = Some c →
  remove_session_container (SJson s) w = (Ok tt, torn_down (container_id s) w).
Proof.
  intros Ht Hc. unfold remove_session_container, torn_down. mrun.
  rewrite Ht. simpl. rewrite Hc. simpl. rewrite Hc. simpl.
  rewrite lookup_insert_eq. simpl.
  unfold set_log, set_docker. simpl.
  by rewrite delete_insert_eq, <- app_assoc.
Qed.

Lemma create_user_container_run u image shell ttl ttl_display config_key network
    is_test urandom cid w old c config :
  fst (Redis.get (session_key u) w) = Ok old →
  fst (is_confirmed_user u w) = Ok c →
  resolve_config is_test config_key = Some config →
  valid_ttl ttl →
  let w_a := match old with
             | Some text => snd (remove_session_container text w)
             | None => w
             end in
  create_user_container u image shell ttl ttl_display config_key network is_test
      urandom (Ok cid) w =
    (if negb is_test && negb c
     then Raise (AttributeError "start_token_consumption") else Ok cid,
     persisted u ttl
       (mk_session cid image shell ttl ttl_display (rc_name config) network (now w) c is_test)
       (started cid
          (container_kwargs_of u image network (negb c && negb is_test) config urandom)
          w_a)).
Proof.
  intros Hget Hc Hcfg Httl w_a.
  assert (∃ w', (match old with
                 | Some text => remove_session_container text
                 | None => ret tt
                 end) w = (Ok tt, w') ∧ w' = w_a
                ∧ redis w' = redis w ∧ now w' = now w) as (w' & Hrm & -> & Hredis & Hnow).
  { subst w_a. destruct old as [text|].
    - destruct (remove_session_container_total text w) as (w' & -> & ? & ? & _).
      by exists w'.
    - by exists w. }
  unfold create_user_container.
  unfold bind at 1. rewrite run_redis_get, Hget.
  unfold mbind, M_bind. unfold bind at 1. rewrite Hrm.
  assert (∀ w'', redis w'' !! confirmed_users_key = redis w !! confirmed_users_key →
                 is_confirmed_user u w'' = (Ok c, w'')) as Hconf.
  { intros w'' Heq. rewrite run_is_confirmed_user.
    by rewrite (is_confirmed_user_frame u w w''), Hc. }
  unfold resolve_config in Hcfg.
  unfold bind at 1.
  assert ((if is_test then ret test_resource_config
           else match resource_configs !! config_key with
                | Some c0 => ret c0
                | None => raise (KeyError config_key)
                end) w_a = (Ok config, w_a)) as ->.
  { destruct is_test; [by injection Hcfg as <-|]. by rewrite Hcfg. }
  unfold bind at 1. rewrite Hconf by (by rewrite Hredis).
  unfold Docker.containers_run. fold (container_kwargs_of u image network
    (negb c && negb is_test) config urandom).
  set (kwargs := container_kwargs_of _ _ _ _ _ _).
  unfold bind at 1. mrun. fold (started cid kwargs w_a).
  set (w_s := started cid kwargs w_a).
  assert (redis w_s = redis w) as Hredis_s by (by subst w_s).
  rewrite Hconf by (by rewrite Hredis_s). simpl.
  assert (now w_a = now w) as -> by done.
  set (s := mk_session _ _ _ _ _ _ _ _ _ _).
  assert (∀ w'', redis w'' !! confirmed_users_key = redis w !! confirmed_users_key →
                 (if is_test then ret tt
                  else bind (is_confirmed_user u)
                         (λ confirmed, if confirmed then ret tt
                                       else self_getattr "start_token_consumption")) w'' =
                 (if negb is_test && negb c
                  then Raise (AttributeError "start_token_consumption") else Ok tt, w''))
    as Hbill.
  { intros w'' Heq. destruct is_test; [reflexivity|]. unfold bind.
    rewrite Hconf by done. by destruct c. }
  assert (∀ w'', redis w'' = redis w →
            redis (persisted u ttl s w'') !! confirmed_users_key
            = redis w !! confirmed_users_key) as Hpers.
  { intros w'' Heq. unfold persisted.
    destruct ttl as [t|]; [destruct (t =? 0)|]; simpl; rewrite lookup_insert_ne;
      first [by rewrite Heq | apply session_key_not_confirmed]. }
  specialize (Hpers w_s Hredis_s).
  unfold persisted in *.
  destruct ttl as [t|]; simpl in Httl.
  - destruct (Z.eqb_spec t 0).
    + simpl. rewrite Hbill by done. by destruct (negb is_test && negb c).
    + destruct (Z.leb_spec t 0); [lia|]. simpl.
      rewrite Hbill by done. by destruct (negb is_test && negb c).
  - simpl. rewrite Hbill by done. by destruct (negb is_test && negb c).
Qed.

Lemma persisted_redis u ttl s w :
  ∃ expiry, redis (persisted u ttl s w)
            = <[session_key u := mk_rentry (VStr (SJson s)) expiry]> (redis w).
Proof.
  unfold persisted. destruct ttl as [t|]; [destruct (t =? 0)|]; by eexists.
Qed.

Lemma persisted_docker u ttl s w : docker (persisted u ttl s w) = docker w.
Proof. unfold persisted. by destruct ttl as [t|]; [destruct (t =? 0)|]. Qed.

Lemma persisted_log u ttl s w :
  log (persisted u ttl s w) = log w ++ [persist_effect u ttl].
Proof.
  unfold persisted, persist_effect. by destruct ttl as [t|]; [destruct (t =? 0)|].
Qed.

Lemma persisted_session u ttl s w : session_of (persisted u ttl s w) u = Some s.
Proof.
  unfold session_of. destruct (persisted_redis u ttl s w) as [expiry ->].
  by rewrite lookup_insert_eq.
Qed.

Lemma persisted_get u ttl s w :
  fst (Redis.get (session_key u) (persisted u ttl s w)) = Ok (Some (SJson s)).
Proof.
  unfold Redis.get. mrun. destruct (persisted_redis u ttl s w) as [expiry ->].
  by rewrite lookup_insert_eq.
Qed.

Lemma persisted_confirmed u v ttl s w :
  fst (is_confirmed_user v (persisted u ttl s w)) = fst (is_confirmed_user v w).
Proof.
  apply is_confirmed_user_frame. destruct (persisted_redis u ttl s w) as [expiry ->].
  apply lookup_insert_ne, session_key_not_confirmed.
Qed.

Lemma count_records (m : gmap string rentry) (k : string) :
  length (filter (λ kv, fst kv = k) (map_to_list m)) =
    match m !! k with Some _ => 1%nat | None => 0%nat end.
Proof.
  induction m as [|i x m Hi Hfirst IH] using map_first_key_ind.
  - rewrite map_to_list_empty, lookup_empty. reflexivity.
  - rewrite map_to_list_insert_first_key by done.
    rewrite filter_cons. simpl. destruct (decide (i = k)) as [->|Hne].
    + rewrite lookup_insert_eq. simpl. rewrite IH, Hi. reflexivity.
    + rewrite lookup_insert_ne by done. exact IH.
Qed.

Lemma at_most_one_record w u : (length (records_of w u) ≤ 1)%nat.
Proof.
  unfold records_of. rewrite length_fmap, count_records.
  destruct (redis w !! session_key u); lia.
Qed.

Lemma one_record w u s : session_of w u = Some s → length (records_of w u) = 1%nat.
Proof.
  unfold records_of, session_of. rewrite length_fmap, count_records.
  by destruct (redis w !! session_key u).
Qed.



(** C1 (the code departs from the claim).  For an untrusted user and a session
    that is not a test one, [create_user_container] starts the container and
    writes the record, then fails on [self.start_token_consumption]: the
    class binds no such name.  No task is started, and the only coroutine
    that consumes tokens by the minute is a local function of [add_tokens]. *)
Theorem create_starts_no_billing_task :
  ("start_token_consumption" ∉ TerminalBot_attributes) ∧
  ("_token_consumption_worker" ∉ TerminalBot_attributes) ∧
  fst (create_first (fresh_bot 0 ∅ ∅)) = Raise (AttributeError "start_token_consumption") ∧
  tasks (snd (create_first (fresh_bot 0 ∅ ∅))) = [] ∧
  (∃ s, session_of (snd (create_first (fresh_bot 0 ∅ ∅))) 7 = Some s
        ∧ is_test s = false ∧ is_confirmed s = false) ∧
  log (snd (create_first (fresh_bot 0 ∅ ∅))) = [DockerRun "c1"; RedisSetex (session_key 7) 3600].
Proof.
  split_and!.
  - intros Hin. pose proof (bool_decide_eq_true_2 _ Hin) as Hb.
    vm_compute in Hb. discriminate.
  - intros Hin. pose proof (bool_decide_eq_true_2 _ Hin) as Hb.
    vm_compute in Hb. discriminate.
  - vm_compute. reflexivity.
  - vm_compute. reflexivity.
  - eexists. split_and!; vm_compute; reflexivity.
  - vm_compute. reflexivity.
Qed.

(** The same for every untrusted user and every session that is not a test
    one: the call raises [AttributeError] and starts no task. *)
Lemma create_raises_for_untrusted u image shell ttl ttl_display config_key network
    urandom cid w old config :
  fst (Redis.get (session_key u) w) = Ok old →
  untrusted w u →
  resolve_config false config_key = Some config →
  valid_ttl ttl →
  fst (create_user_container u image shell ttl ttl_display config_key network false
         urandom (Ok cid) w) = Raise (AttributeError "start_token_consumption") ∧
  tasks (snd (create_user_container u image shell ttl ttl_display config_key network
                false urandom (Ok cid) w)) = tasks w.
Proof.
  intros Hget Hu Hcfg Httl.
  rewrite (create_user_container_run u image shell ttl ttl_display config_key network
             false urandom cid w old false config) by done.
  simpl. split; [done|].
  assert (∀ u' ttl' s w', tasks (persisted u' ttl' s w') = tasks w') as Hp.
  { intros. unfold persisted. by destruct ttl' as [t|]; [destruct (t =? 0)|]. }
  rewrite Hp. simpl. destruct old as [text|]; [|done].
  by destruct (remove_session_container_total text w)
    as (w' & -> & _ & _ & _ & _ & _ & _ & ? & _).
Qed.

Lemma consume_tokens_ledger_witness :
  consume_tokens 8 1 example_world = (Ok true, example_world) ∧
  (∃ w', consume_tokens 7 1 example_world = (Ok true, w') ∧ balance_is w' 7 479).
Proof.
  destruct (consume_tokens_ledger example_world 8 1 0) as (Htrusted & _).
  destruct (consume_tokens_ledger example_world 7 1 480) as (_ & _ & Hpays & _).
  split.
  - apply Htrusted. reflexivity.
  - destruct Hpays as (w' & Hrun & _ & Hbal); [reflexivity|reflexivity|lia|].
    exists w'. split; [exact Hrun|exact Hbal].
Defined.

Lemma missing_balance_reads_zero_witness :
  get_user_tokens 9 example_world = (Ok 0, example_world) ∧
  consume_tokens 9 1 example_world = (Ok false, example_world).
Proof.
  destruct (missing_balance_reads_zero example_world 9) as [Hget Hconsume].
  - reflexivity.
  - split; [exact Hget|]. apply Hconsume. reflexivity.
Defined.


(** ** Stopping a session *)

Lemma only_queues_changed_refl w : only_queues_changed w w.
Proof.
  unfold only_queues_changed. split_and!; try done.
  exists []. by rewrite app_nil_r.
Qed.

Lemma only_queues_changed_trans w1 w2 w3 :
  only_queues_changed w1 w2 → only_queues_changed w2 w3 → only_queues_changed w1 w3.
Proof.
  intros (? & ? & ? & ? & ? & l1 & Hl1 & HF1) (? & ? & ? & ? & ? & l2 & Hl2 & HF2).
  unfold only_queues_changed. split_and!; try congruence.
  exists (l1 ++ l2). split; [|by apply Forall_app].
  by rewrite Hl2, Hl1, <- app_assoc.
Qed.

Lemma only_queues_changed_log w f l :
  (∀ l0, f l0 = l0 ++ l) → Forall (λ x, is_docker_call x = false) l →
  only_queues_changed w (set_log f w).
Proof.
  intros Hf HF. unfold only_queues_changed. split_and!; try done.
  exists l. split; [apply Hf | done].
Qed.

Lemma task_cancel_run tid w :
  ∃ w', task_cancel tid w = (Ok tt, w') ∧ only_queues_changed w w'
        ∧ command_workers w' = command_workers w
        ∧ command_queues w' = command_queues w
        ∧ active_commands w' = active_commands w
        ∧ queue_heap w' = queue_heap w.
Proof.
  unfold task_cancel. mrun.
  destruct (tasks w !! tid) as [[u pc]|]; [|eexists; split_and!; try done;
                                             apply only_queues_changed_refl].
  destruct pc; eexists; (split; [reflexivity|]); split_and!; try done;
    try (unfold only_queues_changed; split_and!; try done; exists [];
         by rewrite app_nil_r).
  unfold only_queues_changed; split_and!; try done.
  eexists. split; [reflexivity|]. by repeat constructor.
Qed.

Lemma drain_queue_run fuel u q : ∀ w,
  ∃ w', drain_queue fuel u q w = (Ok tt, w') ∧ only_queues_changed w w'
        ∧ command_workers w' = command_workers w
        ∧ command_queues w' = command_queues w
        ∧ active_commands w' = active_commands w
        ∧ tasks w' = tasks w.
Proof.
  induction fuel as [|fuel IH]; intros w.
  { exists w. split_and!; try done. apply only_queues_changed_refl. }
  simpl. unfold bind at 1. unfold gets at 1. unfold id.
  destruct (items (queue_of w q)) as [|e rest].
  { exists w. split_and!; try done. apply only_queues_changed_refl. }
  unfold queue_task_done. mrun. unfold id.
  set (w1 := set_log _ _).
  assert (only_queues_changed w w1) as H1.
  { unfold only_queues_changed. split_and!; try done.
    eexists. split; [reflexivity|]. by repeat constructor. }
  destruct (unfinished (queue_of w1 q)) as [|n]; simpl.
  - exists w1. by split_and!.
  - set (w2 := set_queue_heap _ w1).
    destruct (IH w2) as (w' & Hrun & Hq & Hw & Hc & Ha & Ht).
    exists w'. split; [exact Hrun|].
    split_and!; [|by rewrite Hw|by rewrite Hc|by rewrite Ha|by rewrite Ht].
    eapply only_queues_changed_trans; [exact H1|].
    eapply only_queues_changed_trans; [|exact Hq].
    unfold only_queues_changed. split_and!; try done.
    exists []. by rewrite app_nil_r.
Qed.

Lemma cancel_user_commands_run u w :
  ∃ w', cancel_user_commands u w = (Ok tt, w') ∧ only_queues_changed w w'
        ∧ command_workers w' = base.delete u (command_workers w)
        ∧ command_queues w' = base.delete u (command_queues w)
        ∧ active_commands w' = base.delete u (active_commands w).
Proof.
  unfold cancel_user_commands.
  assert (∃ wa, (let* workers := gets command_workers in
                 match workers !! u with
                 | Some tid => task_cancel tid;;
                               modify (set_command_workers (base.delete u))
                 | None => ret tt
                 end) w = (Ok tt, wa) ∧ only_queues_changed w wa
                ∧ command_workers wa = base.delete u (command_workers w)
                ∧ command_queues wa = command_queues w
                ∧ active_commands wa = active_commands w)
    as (wa & Ha & Hqa & Hwa & Hca & Haa).
  { unfold bind at 1, gets at 1.
    destruct (command_workers w !! u) as [tid|] eqn:Hw.
    - destruct (task_cancel_run tid w) as (w' & Hrun & Hq & Hw' & Hc' & Ha' & _).
      unfold mbind, M_bind, bind. rewrite Hrun. eexists. split; [reflexivity|].
      split_and!; simpl; try congruence.
      destruct Hq as (? & ? & ? & ? & ? & l & ? & ?).
      unfold only_queues_changed. split_and!; try done. by exists l.
    - exists w. split_and!; try done; [apply only_queues_changed_refl|].
      by rewrite delete_id. }
  assert (∃ wb, (let* queues := gets command_queues in
                 match queues !! u with
                 | Some q => let* n := queue_qsize q in
                             drain_queue n u q;;
                             modify (set_command_queues (base.delete u))
                 | None => ret tt
                 end) wa = (Ok tt, wb) ∧ only_queues_changed wa wb
                ∧ command_workers wb = command_workers wa
                ∧ command_queues wb = base.delete u (command_queues wa)
                ∧ active_commands wb = active_commands wa)
    as (wb & Hb & Hqb & Hwb & Hcb & Hab).
  { unfold bind at 1, gets at 1.
    destruct (command_queues wa !! u) as [q|] eqn:Hq.
    - unfold queue_qsize. mrun. unfold id.
      destruct (drain_queue_run (length (items (queue_of wa q))) u q wa)
        as (w' & Hrun & Hqc & Hw' & Hc' & Ha' & _).
      rewrite Hrun. eexists. split; [reflexivity|].
      split_and!; simpl; try congruence.
      destruct Hqc as (? & ? & ? & ? & ? & l & ? & ?).
      unfold only_queues_changed. split_and!; try done. by exists l.
    - exists wa. split_and!; try done; [apply only_queues_changed_refl|].
      by rewrite delete_id. }
  unfold mbind, M_bind in Ha, Hb |- *.
  rewrite (bind_ok _ _ _ _ _ Ha), (bind_ok _ _ _ _ _ Hb).
  unfold bind, gets.
  destruct (active_commands wb !! u) eqn:Hact.
  - eexists. split; [reflexivity|]. split_and!; simpl; try congruence.
    eapply only_queues_changed_trans; [exact Hqa|].
    destruct Hqb as (? & ? & ? & ? & ? & l & ? & ?).
    unfold only_queues_changed. split_and!; try done. by exists l.
  - exists wb. split; [reflexivity|]. split_and!; try congruence.
    + by eapply only_queues_changed_trans.
    + rewrite delete_id; congruence.
Qed.

Lemma cancel_user_commands_noop u w :
  command_workers w !! u = None → command_queues w !! u = None →
  active_commands w !! u = None →
  cancel_user_commands u w = (Ok tt, w).
Proof.
  intros Hw Hq Ha. unfold cancel_user_commands. mrun. by rewrite Hw, Hq, Ha.
Qed.

Lemma set_redis_id f w : f (redis w) = redis w → set_redis f w = w.
Proof. destruct w. unfold set_redis. simpl. by intros ->. Qed.

Lemma set_log_set_log f g w : set_log g (set_log f w) = set_log (λ l, g (f l)) w.
Proof. reflexivity. Qed.

Lemma set_log_ext f g w : (∀ l, f l = g l) → set_log f w = set_log g w.
Proof. intros H. unfold set_log. by rewrite H. Qed.

Lemma redis_get_frame key w w' :
  redis w' = redis w → fst (Redis.get key w') = fst (Redis.get key w).
Proof.
  intros Hr. unfold Redis.get. mrun. rewrite Hr.
  by destruct (redis w !! key) as [[[|] ?]|].
Qed.

(** [stop_session] from the lookup of the record on. *)
Lemma stop_session_run u m w old :
  fst (Redis.get (session_key u) w) = Ok old →
  ∃ wc, cancel_user_commands u w = (Ok tt, wc) ∧
        stop_session u m w =
          (Ok tt,
           set_log (λ l, l ++ stop_trace u m)
             (set_redis (base.delete (session_key u))
                match old with
                | Some text => snd (remove_session_container text wc)
                | None => wc
                end)).
Proof.
  intros Hget.
  destruct (cancel_user_commands_run u w) as (wc & Hc & Hq & _).
  exists wc. split; [exact Hc|].
  unfold stop_session, mbind, M_bind. rewrite (bind_ok _ _ _ _ _ Hc).
  assert (Redis.get (session_key u) wc = (Ok old, wc)) as Hget'.
  { rewrite run_redis_get. f_equal. rewrite <- Hget.
    destruct Hq as (_ & Hr & _). by apply redis_get_frame. }
  rewrite (bind_ok _ _ _ _ _ Hget').
  destruct old as [text|].
  - destruct (remove_session_container_total text wc) as (w' & Hrm & _).
    rewrite (bind_ok _ _ _ _ _ Hrm). rewrite Hrm. simpl. mrun.
    unfold stop_trace. f_equal. unfold set_log, set_redis. simpl.
    by rewrite <- app_assoc.
  - mrun. unfold stop_trace. f_equal. unfold set_log, set_redis. simpl.
    by rewrite <- app_assoc.
Qed.

Lemma stop_session_raises u m w e :
  fst (Redis.get (session_key u) w) = Raise e →
  fst (stop_session u m w) = Raise e.
Proof.
  intros Hget.
  destruct (cancel_user_commands_run u w) as (wc & Hc & Hq & _).
  unfold stop_session, mbind, M_bind. rewrite (bind_ok _ _ _ _ _ Hc).
  assert (Redis.get (session_key u) wc = (Raise e, wc)) as Hget'.
  { rewrite run_redis_get. f_equal. rewrite <- Hget.
    destruct Hq as (_ & Hr & _). by apply redis_get_frame. }
  by rewrite (bind_raise _ _ _ _ _ Hget').
Qed.

(** C8.  [stop_session] is idempotent.  For a user with no session record it
    returns without an error, leaves the store and the daemon as they are and
    makes no Docker call; with nothing queued either, only the trace changes,
    by the [DELETE] of the absent key and the chat message.  Where the record
    names a container the daemon knows, the call stops and removes it and
    deletes the record.  And whenever a first call has returned, a second
    call right after it returns too and changes nothing but the trace, which
    gains the [DELETE] and the chat message and no Docker call. *)
Theorem stop_session_idempotent (w : world) (u : Z) (m1 m2 : nat) :
  (redis w !! session_key u = None →
     ∃ w', stop_session u m1 w = (Ok tt, w') ∧
           redis w' = redis w ∧ docker w' = docker w ∧
           ∃ l, log w' = log w ++ l ∧ Forall (λ x, is_docker_call x = false) l) ∧
  (redis w !! session_key u = None →
   command_workers w !! u = None → command_queues w !! u = None →
   active_commands w !! u = None →
     stop_session u m1 w = (Ok tt, set_log (λ l, l ++ stop_trace u m1) w)) ∧
  (∀ s c, session_of w u = Some s → truthy (container_id s) = true →
          docker w !! container_id s = Some c →
     ∃ w1 l, stop_session u m1 w = (Ok tt, w1) ∧
             redis w1 = base.delete (session_key u) (redis w) ∧
             docker w1 = base.delete (container_id s) (docker w) ∧
             Forall (λ x, is_docker_call x = false) l ∧
             log w1 = log w ++ l ++ [DockerStop (container_id s);
                                     DockerRemove (container_id s)] ++ stop_trace u m1) ∧
  (∀ w1, stop_session u m1 w = (Ok tt, w1) →
     stop_session u m2 w1 = (Ok tt, set_log (λ l, l ++ stop_trace u m2) w1)).
Proof.
  assert (∀ w0 m, redis w0 !! session_key u = None →
            command_workers w0 !! u = None → command_queues w0 !! u = None →
            active_commands w0 !! u = None →
            stop_session u m w0 = (Ok tt, set_log (λ l, l ++ stop_trace u m) w0)) as Hnoop.
  { intros w0 m Hr Hw Hq Ha.
    destruct (stop_session_run u m w0 None) as (wc & Hc & ->).
    { unfold Redis.get. mrun. by rewrite Hr. }
    rewrite cancel_user_commands_noop in Hc by done. injection Hc as <-.
    by rewrite set_redis_id by (by apply delete_id). }
  split_and!.
  - intros Hr.
    destruct (stop_session_run u m1 w None) as (wc & Hc & ->).
    { unfold Redis.get. mrun. by rewrite Hr. }
    destruct (cancel_user_commands_run u w) as (wc' & Hc' & Hq & _).
    rewrite Hc in Hc'. injection Hc' as <-.
    destruct Hq as (_ & Hredis & Hdocker & _ & _ & l & Hl & HF).
    eexists. split; [reflexivity|]. simpl. split_and!.
    + rewrite Hredis. by apply delete_id.
    + done.
    + exists (l ++ stop_trace u m1). split; [by rewrite Hl, <- app_assoc|].
      apply Forall_app. split; [done|]. by repeat constructor.
  - apply Hnoop.
  - intros s c Hs Ht Hd.
    assert (fst (Redis.get (session_key u) w) = Ok (Some (SJson s))) as Hget.
    { unfold session_of in Hs. unfold Redis.get. mrun.
      by destruct (redis w !! session_key u) as [[[[|]|] ?]|]; simplify_eq. }
    destruct (stop_session_run u m1 w _ Hget) as (wc & Hc & ->).
    destruct (cancel_user_commands_run u w) as (wc' & Hc' & Hq & _).
    rewrite Hc in Hc'. injection Hc' as <-.
    destruct Hq as (_ & Hredis & Hdocker & _ & _ & l & Hl & HF).
    rewrite (remove_session_container_live s wc c) by (by rewrite ?Hdocker).
    eexists _, l. split; [reflexivity|]. simpl. split_and!.
    + by rewrite Hredis.
    + by rewrite Hdocker.
    + done.
    + rewrite Hl. by rewrite <- !app_assoc.
  - intros w1 Hfirst.
    destruct (fst (Redis.get (session_key u) w)) as [old|e] eqn:Hget.
    2: { pose proof (stop_session_raises u m1 w e Hget) as Hr.
         rewrite Hfirst in Hr. discriminate. }
    destruct (stop_session_run u m1 w old Hget) as (wc & Hc & Hrun).
    rewrite Hfirst in Hrun. injection Hrun as ->.
    destruct (cancel_user_commands_run u w) as (wc' & Hc' & _ & Hw & Hq & Ha).
    rewrite Hc in Hc'. injection Hc' as <-.
    assert (∃ wa, wa = match old with
                       | Some text => snd (remove_session_container text wc)
                       | None => wc
                       end
                  ∧ command_workers wa = command_workers wc
                  ∧ command_queues wa = command_queues wc
                  ∧ active_commands wa = active_commands wc)
      as (wa & <- & Hwa & Hqa & Haa).
    { eexists. split; [reflexivity|]. destruct old as [text|]; [|done].
      by destruct (remove_session_container_total text wc)
        as (w' & -> & _ & _ & ? & ? & ? & _). }
    apply Hnoop; simpl.
    + apply lookup_delete_eq.
    + rewrite Hwa, Hw. apply lookup_delete_eq.
    + rewrite Hqa, Hq. apply lookup_delete_eq.
    + rewrite Haa, Ha. apply lookup_delete_eq.
Qed.

Lemma stop_session_idempotent_witness :
  stop_session 42 1 example_world
    = (Ok tt, set_log (λ l, l ++ stop_trace 42 1) example_world) ∧
  ∃ w1, stop_session 7 1 example_world = (Ok tt, w1) ∧
        docker w1 !! "c7" = None ∧
        stop_session 7 2 w1 = (Ok tt, set_log (λ l, l ++ stop_trace 7 2) w1).
Proof.
  destruct (stop_session_idempotent example_world 42 1 1) as (_ & Hnoop & _ & _).
  destruct (stop_session_idempotent example_world 7 1 2) as (_ & _ & Hfirst & Hsecond).
  split.
  - apply Hnoop; reflexivity.
  - destruct (Hfirst (example_session "c7" false)
                (example_container "terminal_bot_7_0a0b0c0d"))
      as (w1 & l & Hrun & _ & Hd & _); [reflexivity..|].
    exists w1. split; [exact Hrun|]. split.
    + rewrite Hd. reflexivity.
    + apply Hsecond. exact Hrun.
Defined.

(** ** The worker and the pool *)

Lemma worker_next_log tid u q e o w :
  ∃ l, log (worker_next tid u q e o w) = log w ++ ExecEnd u e o :: l
       ∧ Forall (λ x, is_error_chat x = true) l.
Proof.
  unfold worker_next, queue_task_done, set_task. mrun. unfold id.
  destruct (unfinished (queue_of _ q)); simpl.
  - exists [Chat (e_status_msg e) (CommandError ValueError)].
    split; [by rewrite <- app_assoc|]. by repeat constructor.
  - by exists [].
Qed.

Lemma worker_next_task tid u q e o w :
  (tid < length (tasks w))%nat →
  tasks (worker_next tid u q e o w) !! tid = Some (mk_task u (WGet q (now w))).
Proof.
  intros Hlt. unfold worker_next, queue_task_done, set_task. mrun. unfold id.
  destruct (unfinished (queue_of _ q)); simpl; by rewrite list_lookup_insert_eq.
Qed.

Lemma result_log m reply w :
  _execute_single_command_result m (_run_command_sync reply) w =
    (Ok tt, set_log (λ l, l ++ [Chat m (rendered reply)]) w).
Proof.
  unfold _execute_single_command_result, send_smart_output, rendered. mrun.
  by destruct (_run_command_sync reply) as [output exit_code].
Qed.

Lemma worker_get_runs tid u q since0 e rest s c confirmed w :
  tasks w !! tid = Some (mk_task u (WGet q since0)) →
  items (queue_of w q) = e :: rest →
  session_of w u = Some s → truthy (container_id s) = true →
  docker w !! container_id s = Some c →
  fst (is_confirmed_user u w) = Ok confirmed →
  negb confirmed && is_command_dangerous (e_command e) = false →
  ∃ w', worker_get tid w = Some w' ∧
        tasks w' !! tid =
          Some (mk_task u (WRun q e (length (jobs w)) (now w) (timeout_of s))) ∧
        jobs w' = jobs w ++ [mk_job u tid (container_id s)
                               (full_command_of s (e_command e)) false] ∧
        log w' = log w ++ [ExecBegin u e;
                           DockerExec (container_id s) (full_command_of s (e_command e))
                             (length (jobs w))].
Proof.
  intros Htask Hitems Hs Ht Hd Hc Hallowed.
  unfold worker_get. rewrite Htask, Hitems.
  set (w1 := set_log _ _).
  rewrite (begin_reads_session (e_command e) (e_status_msg e) u w1 s c) by done.
  rewrite (is_confirmed_user_frame u w w1) by done. rewrite Hc, Hallowed.
  eexists. split; [reflexivity|]. unfold set_task. simpl. split_and!.
  - rewrite list_lookup_insert_eq by (by eapply lookup_lt_Some).
    unfold timeout_of. by destruct (is_test s).
  - done.
  - by rewrite <- app_assoc.
Qed.



(** ** Views *)

Lemma omap_relevant {B} (f : effect → option B) (l : list effect) :
  (∀ x, relevant x = false → f x = None) →
  omap f (filter (λ x, relevant x = true) l) = omap f l.
Proof.
  intros Hf. induction l as [|x l IH]; [done|].
  rewrite filter_cons. destruct (relevant x) eqn:Hx.
  - rewrite decide_True by done. csimpl. by rewrite IH.
  - rewrite decide_False by done. csimpl. by rewrite IH, (Hf x Hx).
Qed.

Lemma existsb_relevant (g : effect → bool) (l : list effect) :
  (∀ x, relevant x = false → g x = false) →
  existsb g (filter (λ x, relevant x = true) l) = existsb g l.
Proof.
  intros Hg. induction l as [|x l IH]; [done|].
  rewrite filter_cons. destruct (relevant x) eqn:Hx.
  - rewrite decide_True by done. cbn [existsb]. by rewrite IH.
  - rewrite decide_False by done. cbn [existsb]. by rewrite IH, (Hg x Hx).
Qed.

Lemma puts_trace u w : puts u (commands_trace w) = puts u (log w).
Proof. apply omap_relevant. by intros []. Qed.
Lemma taken_trace u w : taken u (commands_trace w) = taken u (log w).
Proof. apply omap_relevant. by intros []. Qed.
Lemma begun_trace u w : begun u (commands_trace w) = begun u (log w).
Proof. apply omap_relevant. by intros []. Qed.
Lemma ended_trace u w : ended u (commands_trace w) = ended u (log w).
Proof. apply omap_relevant. by intros []. Qed.
Lemma gave_up_trace u w :
  existsb (gave_up u) (commands_trace w) = existsb (gave_up u) (log w).
Proof. apply existsb_relevant. by intros []. Qed.

Lemma same_view_refl w : same_view w w.
Proof. by unfold same_view. Qed.

Lemma same_view_trans w1 w2 w3 : same_view w1 w2 → same_view w2 w3 → same_view w1 w3.
Proof.
  intros (? & ? & ? & ? & ? & ?) (? & ? & ? & ? & ? & ?).
  unfold same_view. split_and!; congruence.
Qed.

Lemma same_view_queue_of w w' q : same_view w w' → queue_of w' q = queue_of w q.
Proof. intros (_ & _ & Hh & _). unfold queue_of. by rewrite Hh. Qed.

Lemma inv_same_view w w' : inv w → same_view w w' → inv w'.
Proof.
  intros [H1 H2 H3 H4 H5 H6 H7 H8 H9 H10] Hv.
  assert (∀ q, queue_of w' q = queue_of w q) as Hq
    by (intros q; by apply same_view_queue_of).
  destruct Hv as (Hcq & Hcw & Hh & Ht & Hj & Hl).
  constructor.
  - intros u q. rewrite Hcq, Hh. apply H1.
  - intros u1 u2 q. rewrite Hcq. apply H2.
  - intros u tid. rewrite Hcw, Ht. apply H3.
  - intros tid u pc. rewrite Hcw, Ht. apply H4.
  - intros tid u pc q. rewrite Hcq, Ht. apply H5.
  - intros q. rewrite Hq. apply H6.
  - intros tid u q e j s t. rewrite Ht, Hq. apply H7.
  - intros u. rewrite <- puts_trace, <- taken_trace, Hl, puts_trace, taken_trace.
    unfold current_queue. rewrite Hcq.
    destruct (command_queues w !! u) as [q|] eqn:E.
    + rewrite Hq. specialize (H8 u). unfold current_queue in H8. by rewrite E in H8.
    + specialize (H8 u). unfold current_queue in H8. by rewrite E in H8.
  - intros u. rewrite <- begun_trace, <- ended_trace, Hl, begun_trace, ended_trace.
    unfold current_entry. rewrite Hcw, Ht. apply H9.
  - intros jid j. rewrite Hj, Ht, <- gave_up_trace, Hl, gave_up_trace. apply H10.
Qed.

(** ** Methods that leave the view alone *)

Lemma neutral_ret {A} (a : A) : neutral (ret a).
Proof. intros w. apply same_view_refl. Qed.

Lemma neutral_raise {A} (e : exn) : neutral (raise e : M A).
Proof. intros w. apply same_view_refl. Qed.

Lemma neutral_gets {A} (f : world → A) : neutral (gets f).
Proof. intros w. apply same_view_refl. Qed.

Lemma neutral_bind {A B} (m : M A) (k : A → M B) :
  neutral m → (∀ a, neutral (k a)) → neutral (bind m k).
Proof.
  intros Hm Hk w. unfold bind. specialize (Hm w).
  destruct (m w) as [[a|e] w1]; simpl in *; [|done].
  eapply same_view_trans; [exact Hm | apply Hk].
Qed.

Lemma neutral_dispatch {A} (clauses : list ((exn → bool) * (exn → M A))) e :
  Forall (λ c, ∀ e, neutral (snd c e)) clauses → neutral (dispatch clauses e).
Proof.
  induction 1 as [|[catches h] rest Hh _ IH]; simpl; [apply neutral_raise|].
  destruct (catches e); [apply Hh | apply IH].
Qed.

Lemma neutral_try_except {A} (m : M A) clauses :
  neutral m → Forall (λ c, ∀ e, neutral (snd c e)) clauses →
  neutral (try_except m clauses).
Proof.
  intros Hm Hc w. unfold try_except. specialize (Hm w).
  destruct (m w) as [[a|e] w1]; simpl in *; [done|].
  eapply same_view_trans; [exact Hm | by apply neutral_dispatch].
Qed.

Lemma neutral_modify (f : world → world) :
  (∀ w, same_view w (f w)) → neutral (modify f).
Proof. intros Hf w. apply Hf. Qed.

Lemma neutral_emit x : relevant x = false → neutral (emit x).
Proof.
  intros Hx w. unfold emit, modify, same_view, commands_trace. simpl.
  split_and!; try done.
  rewrite filter_app, filter_cons, decide_False by (by rewrite Hx).
  by rewrite filter_nil, app_nil_r.
Qed.

Ltac neutral_clauses :=
  unfold swallow_Exception, swallow_all;
  repeat match goal with
         | |- Forall _ (_ :: _) => constructor; [simpl; intros ?|]
         | |- Forall _ [] => constructor
         end.

Ltac neutral_step :=
  first
    [ apply neutral_ret
    | apply neutral_raise
    | apply neutral_gets
    | apply neutral_emit; reflexivity
    | apply neutral_modify; intros ?; by unfold same_view
    | apply neutral_bind; [|intros ?]
    | apply neutral_try_except; [|neutral_clauses]
    | match goal with
      | |- neutral (match ?x with _ => _ end) => destruct x
      | |- neutral (if ?b then _ else _) => destruct b
      end ].

Ltac neutral_tac := unfold mbind, M_bind; repeat neutral_step.

Lemma neutral_redis_get key : neutral (Redis.get key).
Proof. unfold Redis.get. neutral_tac. Qed.
Lemma neutral_redis_set key v : neutral (Redis.set key v).
Proof. unfold Redis.set. neutral_tac. Qed.
Lemma neutral_redis_setex key ttl v : neutral (Redis.setex key ttl v).
Proof. unfold Redis.setex. neutral_tac. Qed.
Lemma neutral_redis_delete key : neutral (Redis.delete key).
Proof. unfold Redis.delete. neutral_tac. Qed.
Lemma neutral_redis_exists key : neutral (Redis.exists_ key).
Proof. unfold Redis.exists_. neutral_tac. Qed.
Lemma neutral_is_confirmed_user u : neutral (is_confirmed_user u).
Proof. unfold is_confirmed_user, Redis.sismember. neutral_tac. Qed.
Lemma neutral_containers_get cid : neutral (Docker.containers_get cid).
Proof. unfold Docker.containers_get. neutral_tac. Qed.
Lemma neutral_docker_stop cid : neutral (Docker.stop cid).
Proof. unfold Docker.stop. neutral_tac. Qed.
Lemma neutral_docker_remove cid : neutral (Docker.remove cid).
Proof. unfold Docker.remove. neutral_tac. Qed.
Lemma neutral_containers_run kwargs answer : neutral (Docker.containers_run kwargs answer).
Proof. unfold Docker.containers_run. neutral_tac. Qed.
Lemma neutral_as_dict o : neutral (as_dict o).
Proof. unfold as_dict. neutral_tac. Qed.
Lemma neutral_self_getattr name : neutral (self_getattr name).
Proof. unfold self_getattr. neutral_tac. Qed.

Ltac neutral_calls :=
  unfold mbind, M_bind;
  repeat first
    [ apply neutral_redis_get | apply neutral_redis_set | apply neutral_redis_setex
    | apply neutral_redis_delete | apply neutral_redis_exists
    | apply neutral_is_confirmed_user | apply neutral_containers_get
    | apply neutral_docker_stop | apply neutral_docker_remove
    | apply neutral_containers_run | apply neutral_as_dict
    | apply neutral_self_getattr
    | neutral_step ].

Lemma neutral_remove_session_container text : neutral (remove_session_container text).
Proof. unfold remove_session_container. neutral_calls. Qed.

Lemma neutral_create_user_container u image shell ttl ttl_display config_key network
    is_test urandom answer :
  neutral (create_user_container u image shell ttl ttl_display config_key network
             is_test urandom answer).
Proof.
  unfold create_user_container. neutral_calls;
    apply neutral_remove_session_container.
Qed.

Lemma neutral_begin command m u : neutral (_execute_single_command_begin command m u).
Proof. unfold _execute_single_command_begin. neutral_calls. Qed.

Lemma neutral_result m r : neutral (_execute_single_command_result m r).
Proof.
  unfold _execute_single_command_result, send_smart_output.
  destruct r as [output exit_code]. neutral_calls.
Qed.

Lemma neutral_timeout m : neutral (_execute_single_command_timeout m).
Proof. unfold _execute_single_command_timeout. neutral_calls. Qed.

Lemma neutral_has_active_session u : neutral (has_active_session u).
Proof. unfold has_active_session. neutral_calls. Qed.

(** ** What a step adds to the trace of the commands *)

Section trace.
Context (u : Z) (w w' : world) (l : list effect).
Hypothesis Htrace : commands_trace w' = commands_trace w ++ l.

Lemma trace_puts : puts u (log w') = puts u (log w) ++ puts u l.
Proof.
  rewrite <- (puts_trace u w'), Htrace. unfold puts at 1.
  by rewrite omap_app, <- (puts_trace u w).
Qed.

Lemma trace_taken : taken u (log w') = taken u (log w) ++ taken u l.
Proof.
  rewrite <- (taken_trace u w'), Htrace. unfold taken at 1.
  by rewrite omap_app, <- (taken_trace u w).
Qed.

Lemma trace_begun : begun u (log w') = begun u (log w) ++ begun u l.
Proof.
  rewrite <- (begun_trace u w'), Htrace. unfold begun at 1.
  by rewrite omap_app, <- (begun_trace u w).
Qed.

Lemma trace_ended : ended u (log w') = ended u (log w) ++ ended u l.
Proof.
  rewrite <- (ended_trace u w'), Htrace. unfold ended at 1.
  by rewrite omap_app, <- (ended_trace u w).
Qed.

Lemma trace_gave_up :
  existsb (gave_up u) (log w') = existsb (gave_up u) (log w) || existsb (gave_up u) l.
Proof.
  rewrite <- (gave_up_trace u w'), Htrace, existsb_app.
  by rewrite gave_up_trace.
Qed.

Lemma trace_gave_up_mono :
  existsb (gave_up u) (log w) = true → existsb (gave_up u) (log w') = true.
Proof. rewrite trace_gave_up. by intros ->. Qed.
End trace.

Lemma queue_of_insert w w' q x :
  queue_heap w' = <[q := x]> (queue_heap w) →
  (q < length (queue_heap w))%nat →
  ∀ q', queue_of w' q' = if decide (q' = q) then x else queue_of w q'.
Proof.
  intros Hh Hlt q'. unfold queue_of. rewrite Hh. destruct (decide (q' = q)) as [->|Hne].
  - by rewrite list_lookup_insert_eq.
  - by rewrite list_lookup_insert_ne.
Qed.

Lemma queue_of_app w w' :
  queue_heap w' = queue_heap w ++ [empty_queue] →
  ∀ q, queue_of w' q = queue_of w q.
Proof.
  intros Hh q. unfold queue_of. rewrite Hh.
  destruct (decide (q < length (queue_heap w))%nat) as [Hlt|Hge].
  - by rewrite lookup_app_l.
  - rewrite lookup_app_r by lia. rewrite (lookup_ge_None_2 (queue_heap w)) by lia.
    destruct (q - length (queue_heap w))%nat as [|n]; [done|].
    by rewrite lookup_cons, lookup_nil.
Qed.

Lemma current_queue_eq u w w' :
  command_queues w' = command_queues w →
  (∀ q, command_queues w !! u = Some q → queue_of w' q = queue_of w q) →
  current_queue u w' = current_queue u w.
Proof.
  intros Hc Hq. unfold current_queue. rewrite Hc.
  destruct (command_queues w !! u) as [q|]; [|done]. by rewrite Hq.
Qed.

Lemma current_entry_eq u w w' :
  command_workers w' = command_workers w →
  (∀ tid, command_workers w !! u = Some tid → tasks w' !! tid = tasks w !! tid) →
  current_entry u w' = current_entry u w.
Proof.
  intros Hc Ht. unfold current_entry. rewrite Hc.
  destruct (command_workers w !! u) as [tid|]; [|done]. by rewrite Ht.
Qed.

(** ** The invariant, step by step *)

(** A worker task is created and registered (the user had none). *)
Lemma inv_add_worker w w' u :
  inv w →
  command_workers w !! u = None →
  command_queues w' = command_queues w →
  command_workers w' = <[u := length (tasks w)]> (command_workers w) →
  queue_heap w' = queue_heap w →
  tasks w' = tasks w ++ [mk_task u WStart] →
  jobs w' = jobs w →
  commands_trace w' = commands_trace w →
  inv w'.
Proof.
  intros Hinv Hnone Hcq Hcw Hh Ht Hj Hl.
  assert (commands_trace w' = commands_trace w ++ []) as Hl'
    by (by rewrite app_nil_r).
  assert (∀ q, queue_of w' q = queue_of w q) as Hq
    by (intros q; unfold queue_of; by rewrite Hh).
  assert (∀ tid t, tasks w !! tid = Some t → tasks w' !! tid = Some t) as Hold.
  { intros tid t Hs. rewrite Ht. by apply lookup_app_l_Some. }
  assert (∀ tid u' pc, tasks w' !! tid = Some (mk_task u' pc) →
            tasks w !! tid = Some (mk_task u' pc)
            ∨ (tid = length (tasks w) ∧ u' = u ∧ pc = WStart)) as Hnew.
  { intros tid u' pc. rewrite Ht. intros Hs.
    apply lookup_app_Some in Hs as [Hs|[Hge Hs]]; [by left|right].
    destruct (tid - length (tasks w))%nat as [|n] eqn:E; simpl in Hs; [|done].
    injection Hs as <- <-. split; [lia|done]. }
  destruct Hinv as [H1 H2 H3 H4 H5 H6 H7 H8 H9 H10]. constructor.
  - intros u0 q. rewrite Hcq, Hh. apply H1.
  - intros u1 u2 q. rewrite Hcq. apply H2.
  - intros u0 tid. rewrite Hcw. destruct (decide (u0 = u)) as [->|Hne].
    + rewrite lookup_insert_eq. intros [= <-]. exists WStart.
      rewrite Ht. by rewrite lookup_app_r, Nat.sub_diag by lia.
    + rewrite lookup_insert_ne by done. intros Hs.
      destruct (H3 u0 tid Hs) as [pc Hpc]. exists pc. by apply Hold.
  - intros tid u0 pc Hs Hlive. rewrite Hcw.
    destruct (Hnew tid u0 pc Hs) as [Hs'|(-> & -> & ->)].
    + pose proof (H4 tid u0 pc Hs' Hlive) as Hreg.
      rewrite lookup_insert_ne; [done|]. intros <-. congruence.
    + apply lookup_insert_eq.
  - intros tid u0 pc q Hs Hpq. rewrite Hcq.
    destruct (Hnew tid u0 pc Hs) as [Hs'|(-> & -> & ->)]; [by eapply H5|done].
  - intros q. rewrite Hq. apply H6.
  - intros tid u0 q e j s t Hs. rewrite Hq.
    destruct (Hnew tid u0 _ Hs) as [Hs'|(-> & -> & ?)]; [by eapply H7|done].
  - intros u0. rewrite (trace_puts u0 w w' [] Hl'), (trace_taken u0 w w' [] Hl').
    rewrite (current_queue_eq u0 w w') by done. simpl. rewrite !app_nil_r. apply H8.
  - intros u0. rewrite (trace_begun u0 w w' [] Hl'), (trace_ended u0 w w' [] Hl').
    simpl. rewrite !app_nil_r. rewrite H9. f_equal.
    unfold current_entry. rewrite Hcw. destruct (decide (u0 = u)) as [->|Hne].
    + rewrite lookup_insert_eq, Hnone, Ht.
      by rewrite lookup_app_r, Nat.sub_diag by lia.
    + rewrite lookup_insert_ne by done.
      destruct (command_workers w !! u0) as [tid|] eqn:E; [|done].
      destruct (H3 u0 tid E) as [pc Hpc]. by rewrite (Hold _ _ Hpc), Hpc.
  - intros jid j. rewrite Hj. intros Hjs Hd.
    destruct (H10 jid j Hjs Hd) as [(q & e & s & t & Hs)|Hg].
    + left. exists q, e, s, t. by apply Hold.
    + right. by apply (trace_gave_up_mono _ w w' [] Hl').
Qed.

(** A queue is created and registered (the user had none). *)
Lemma inv_add_queue w w' u :
  inv w →
  command_queues w !! u = None →
  command_queues w' = <[u := length (queue_heap w)]> (command_queues w) →
  command_workers w' = command_workers w →
  queue_heap w' = queue_heap w ++ [empty_queue] →
  tasks w' = tasks w →
  jobs w' = jobs w →
  commands_trace w' = commands_trace w →
  inv w'.
Proof.
  intros Hinv Hnone Hcq Hcw Hh Ht Hj Hl.
  assert (commands_trace w' = commands_trace w ++ []) as Hl'
    by (by rewrite app_nil_r).
  pose proof (queue_of_app w w' Hh) as Hq.
  destruct Hinv as [H1 H2 H3 H4 H5 H6 H7 H8 H9 H10]. constructor.
  - intros u0 q. rewrite Hcq, Hh, length_app. simpl.
    destruct (decide (u0 = u)) as [->|Hne].
    + rewrite lookup_insert_eq. intros [= <-]. lia.
    + rewrite lookup_insert_ne by done. intros Hs. specialize (H1 u0 q Hs). lia.
  - intros u1 u2 q. rewrite Hcq.
    destruct (decide (u1 = u)) as [->|Hne1]; destruct (decide (u2 = u)) as [->|Hne2];
      rewrite ?lookup_insert_eq, ?lookup_insert_ne by done; try done.
    + intros [= <-] Hs. specialize (H1 u2 _ Hs). lia.
    + intros Hs [= <-]. specialize (H1 u1 _ Hs). lia.
    + apply H2.
  - intros u0 tid. rewrite Hcw, Ht. apply H3.
  - intros tid u0 pc. rewrite Hcw, Ht. apply H4.
  - intros tid u0 pc q. rewrite Ht, Hcq. intros Hs Hpq.
    pose proof (H5 tid u0 pc q Hs Hpq) as Hreg.
    rewrite lookup_insert_ne; [done|]. intros <-. congruence.
  - intros q. rewrite Hq. apply H6.
  - intros tid u0 q e j s t. rewrite Ht, Hq. apply H7.
  - intros u0. rewrite (trace_puts u0 w w' [] Hl'), (trace_taken u0 w w' [] Hl').
    simpl. rewrite !app_nil_r, H8. f_equal.
    unfold current_queue. rewrite Hcq. destruct (decide (u0 = u)) as [->|Hne].
    + rewrite lookup_insert_eq, Hnone, Hq. unfold queue_of.
      by rewrite lookup_ge_None_2 by lia.
    + rewrite lookup_insert_ne by done.
      destruct (command_queues w !! u0); [by rewrite Hq|done].
  - intros u0. rewrite (trace_begun u0 w w' [] Hl'), (trace_ended u0 w w' [] Hl').
    simpl. rewrite !app_nil_r, H9. f_equal.
    apply current_entry_eq; [done|]. intros. by rewrite Ht.
  - intros jid j. rewrite Hj, Ht. intros Hjs Hd.
    destruct (H10 jid j Hjs Hd) as [?|Hg]; [by left|right].
    by apply (trace_gave_up_mono _ w w' [] Hl').
Qed.

(** An entry is put in the user's registered queue. *)
Lemma inv_put w w' u q e :
  inv w →
  command_queues w !! u = Some q →
  command_queues w' = command_queues w →
  command_workers w' = command_workers w →
  queue_heap w' = <[q := mk_queue (items (queue_of w q) ++ [e])
                            (S (unfinished (queue_of w q)))]> (queue_heap w) →
  tasks w' = tasks w →
  jobs w' = jobs w →
  commands_trace w' = commands_trace w ++ [QueuePut u e] →
  inv w'.
Proof.
  intros Hinv Hsome Hcq Hcw Hh Ht Hj Hl.
  destruct Hinv as [H1 H2 H3 H4 H5 H6 H7 H8 H9 H10].
  pose proof (queue_of_insert w w' q _ Hh (H1 u q Hsome)) as Hq.
  constructor.
  - intros u0 q0. rewrite Hcq, Hh, length_insert. apply H1.
  - intros u1 u2 q0. rewrite Hcq. apply H2.
  - intros u0 tid. rewrite Hcw, Ht. apply H3.
  - intros tid u0 pc. rewrite Hcw, Ht. apply H4.
  - intros tid u0 pc q0. rewrite Ht, Hcq. apply H5.
  - intros q0. rewrite Hq. destruct (decide (q0 = q)) as [->|Hne]; [|apply H6].
    simpl. rewrite length_app. simpl. specialize (H6 q). lia.
  - intros tid u0 q0 e0 j s t. rewrite Ht, Hq. intros Hs.
    specialize (H7 tid u0 q0 e0 j s t Hs).
    destruct (decide (q0 = q)) as [->|Hne]; [|done].
    simpl. rewrite length_app. simpl. lia.
  - intros u0. rewrite (trace_puts u0 w w' _ Hl), (trace_taken u0 w w' _ Hl).
    simpl. rewrite app_nil_r, H8, <- app_assoc. f_equal.
    unfold current_queue. rewrite Hcq. destruct (decide (u0 = u)) as [->|Hne].
    + rewrite Hsome, Hq. by rewrite !decide_True by done.
    + rewrite decide_False by done. rewrite app_nil_r.
      destruct (command_queues w !! u0) as [q0|] eqn:E; [|done].
      rewrite Hq. rewrite decide_False; [done|]. intros ->. apply Hne. by eapply H2.
  - intros u0. rewrite (trace_begun u0 w w' _ Hl), (trace_ended u0 w w' _ Hl).
    simpl. rewrite !app_nil_r, H9. f_equal.
    apply current_entry_eq; [done|]. intros. by rewrite Ht.
  - intros jid j. rewrite Hj, Ht. intros Hjs Hd.
    destruct (H10 jid j Hjs Hd) as [?|Hg]; [by left|right].
    by apply (trace_gave_up_mono _ w w' _ Hl).
Qed.

Lemma tasks_insert_lookup (ts ts' : list task) tid t0 t :
  ts' = <[tid := t]> ts → ts !! tid = Some t0 →
  ∀ tid', ts' !! tid' = if decide (tid' = tid) then Some t else ts !! tid'.
Proof.
  intros -> Hs tid'. destruct (decide (tid' = tid)) as [->|Hne].
  - apply list_lookup_insert_eq. by eapply lookup_lt_Some.
  - by apply list_lookup_insert_ne.
Qed.

(** A worker moves between program points outside [_execute_single_command]:
    it is entered, or it leaves its loop on the idle timeout. *)
Lemma inv_pc_change w w' tid u pc pc' :
  inv w →
  tasks w !! tid = Some (mk_task u pc) →
  live_pc pc = true →
  (∀ q e j s t, pc ≠ WRun q e j s t) → (∀ q e j s t, pc' ≠ WRun q e j s t) →
  (∀ q, pc_queue pc' = Some q → command_queues w !! u = Some q) →
  command_queues w' = command_queues w →
  command_workers w' = command_workers w →
  queue_heap w' = queue_heap w →
  tasks w' = <[tid := mk_task u pc']> (tasks w) →
  jobs w' = jobs w →
  commands_trace w' = commands_trace w →
  inv w'.
Proof.
  intros Hinv Htask Hlive Hpc Hpc' Hpq Hcq Hcw Hh Ht Hj Hl.
  assert (commands_trace w' = commands_trace w ++ []) as Hl'
    by (by rewrite app_nil_r).
  assert (∀ q, queue_of w' q = queue_of w q) as Hq
    by (intros q; unfold queue_of; by rewrite Hh).
  pose proof (tasks_insert_lookup _ _ tid _ _ Ht Htask) as Hlook.
  destruct Hinv as [H1 H2 H3 H4 H5 H6 H7 H8 H9 H10]. constructor.
  - intros u0 q. rewrite Hcq, Hh. apply H1.
  - intros u1 u2 q. rewrite Hcq. apply H2.
  - intros u0 tid0. rewrite Hcw, Hlook. intros Hs.
    destruct (H3 u0 tid0 Hs) as [pc0 Hpc0].
    destruct (decide (tid0 = tid)) as [->|Hne]; [|by exists pc0].
    exists pc'. rewrite Htask in Hpc0. by injection Hpc0 as <- _.
  - intros tid0 u0 pc0. rewrite Hcw, Hlook.
    destruct (decide (tid0 = tid)) as [->|Hne]; [|apply H4].
    intros [= <- <-] _. by apply (H4 tid u pc).
  - intros tid0 u0 pc0 q. rewrite Hcq, Hlook.
    destruct (decide (tid0 = tid)) as [->|Hne]; [|apply H5].
    intros [= <- <-]. apply Hpq.
  - intros q. rewrite Hq. apply H6.
  - intros tid0 u0 q e j s t. rewrite Hq, Hlook.
    destruct (decide (tid0 = tid)) as [->|Hne]; [|apply H7].
    intros [= _ Hbad]. by destruct (Hpc' q e j s t).
  - intros u0. rewrite (trace_puts u0 w w' [] Hl'), (trace_taken u0 w w' [] Hl').
    rewrite (current_queue_eq u0 w w') by done. simpl. rewrite !app_nil_r. apply H8.
  - intros u0. rewrite (trace_begun u0 w w' [] Hl'), (trace_ended u0 w w' [] Hl').
    simpl. rewrite !app_nil_r, H9. f_equal.
    unfold current_entry. rewrite Hcw.
    destruct (command_workers w !! u0) as [tid0|]; [|done]. rewrite Hlook.
    destruct (decide (tid0 = tid)) as [->|Hne]; [|done]. rewrite Htask.
    destruct pc; try done; destruct pc'; try done;
      first [by edestruct Hpc | by edestruct Hpc'].
  - intros jid j. rewrite Hj. intros Hjs Hd.
    destruct (H10 jid j Hjs Hd) as [(q & e & s & t & Hs)|Hg].
    + left. exists q, e, s, t. rewrite Hlook.
      destruct (decide (j_task j = tid)) as [Heq|Hne]; [|done].
      rewrite Heq, Htask in Hs. injection Hs as _ Hbad. by edestruct Hpc.
    + right. by apply (trace_gave_up_mono _ w w' [] Hl').
Qed.

(** The facts about queue [q] and task [tid] when [tid] is a worker that
    waits on [q]. *)
Lemma inv_worker_facts w tid u pc q :
  inv w → tasks w !! tid = Some (mk_task u pc) → pc_queue pc = Some q →
  command_workers w !! u = Some tid ∧ command_queues w !! u = Some q ∧
  (q < length (queue_heap w))%nat ∧
  (∀ u0 q0, command_queues w !! u0 = Some q0 → u0 ≠ u → q0 ≠ q) ∧
  (∀ tid0 u0 pc0, tasks w !! tid0 = Some (mk_task u0 pc0) → pc_queue pc0 = Some q →
                  tid0 = tid).
Proof.
  intros Hinv Htask Hpq.
  assert (live_pc pc = true) as Hlive by (by destruct pc).
  pose proof (inv_live_registered w Hinv tid u pc Htask Hlive) as Hreg.
  pose proof (inv_live_queue w Hinv tid u pc q Htask Hpq) as Hqueue.
  split_and!; try done.
  - by eapply inv_queue_valid.
  - intros u0 q0 Hs Hne ->. apply Hne. by eapply inv_queue_inj.
  - intros tid0 u0 pc0 Htask0 Hpq0.
    assert (live_pc pc0 = true) as Hlive0 by (by destruct pc0).
    pose proof (inv_live_registered w Hinv tid0 u0 pc0 Htask0 Hlive0) as Hreg0.
    pose proof (inv_live_queue w Hinv tid0 u0 pc0 q Htask0 Hpq0) as Hqueue0.
    assert (u0 = u) as -> by (by eapply inv_queue_inj). congruence.
Qed.

(** A worker takes an entry and hands its command to the pool. *)
Lemma inv_pop_job w w' tid u q since0 e rest s t cid cmd :
  inv w →
  tasks w !! tid = Some (mk_task u (WGet q since0)) →
  items (queue_of w q) = e :: rest →
  command_queues w' = command_queues w →
  command_workers w' = command_workers w →
  queue_heap w' = <[q := mk_queue rest (unfinished (queue_of w q))]> (queue_heap w) →
  tasks w' = <[tid := mk_task u (WRun q e (length (jobs w)) s t)]> (tasks w) →
  jobs w' = jobs w ++ [mk_job u tid cid cmd false] →
  commands_trace w' = commands_trace w ++ [ExecBegin u e] →
  inv w'.
Proof.
  intros Hinv Htask Hitems Hcq Hcw Hh Ht Hj Hl.
  destruct (inv_worker_facts w tid u _ q Hinv Htask eq_refl)
    as (Hreg & Hqueue & Hvalid & Hother & Hsole).
  pose proof (queue_of_insert w w' q _ Hh Hvalid) as Hq.
  pose proof (tasks_insert_lookup _ _ tid _ _ Ht Htask) as Hlook.
  destruct Hinv as [H1 H2 H3 H4 H5 H6 H7 H8 H9 H10]. constructor.
  - intros u0 q0. rewrite Hcq, Hh, length_insert. apply H1.
  - intros u1 u2 q0. rewrite Hcq. apply H2.
  - intros u0 tid0. rewrite Hcw, Hlook. intros Hs.
    destruct (H3 u0 tid0 Hs) as [pc0 Hpc0].
    destruct (decide (tid0 = tid)) as [->|Hne]; [|by exists pc0].
    eexists. rewrite Htask in Hpc0. by injection Hpc0 as <- _.
  - intros tid0 u0 pc0. rewrite Hcw, Hlook.
    destruct (decide (tid0 = tid)) as [->|Hne]; [|apply H4].
    by intros [= <- <-] _.
  - intros tid0 u0 pc0 q0. rewrite Hcq, Hlook.
    destruct (decide (tid0 = tid)) as [->|Hne]; [|apply H5].
    by intros [= <- <-] [= <-].
  - intros q0. rewrite Hq. destruct (decide (q0 = q)) as [->|Hne]; [|apply H6].
    simpl. specialize (H6 q). rewrite Hitems in H6. simpl in H6. lia.
  - intros tid0 u0 q0 e0 j0 s0 t0. rewrite Hlook, Hq.
    destruct (decide (tid0 = tid)) as [->|Hne].
    + intros [= <- <- <- <- <- <-]. rewrite decide_True by done. simpl.
      specialize (H6 q). rewrite Hitems in H6. simpl in H6. lia.
    + intros Hs. destruct (decide (q0 = q)) as [->|Hneq]; [|by eapply H7].
      destruct Hne. by eapply (Hsole tid0 u0 _ Hs).
  - intros u0. rewrite (trace_puts u0 w w' _ Hl), (trace_taken u0 w w' _ Hl).
    simpl. rewrite app_nil_r, H8. unfold current_queue. rewrite Hcq.
    destruct (decide (u0 = u)) as [->|Hne].
    + rewrite Hqueue, Hq, Hitems. rewrite !decide_True by done. simpl.
      by rewrite <- app_assoc.
    + rewrite decide_False by done. rewrite app_nil_r. f_equal.
      destruct (command_queues w !! u0) as [q0|] eqn:E; [|done].
      rewrite Hq. rewrite decide_False; [done|]. by eapply Hother.
  - intros u0. rewrite (trace_begun u0 w w' _ Hl), (trace_ended u0 w w' _ Hl).
    simpl. rewrite app_nil_r, H9. unfold current_entry. rewrite Hcw.
    destruct (decide (u0 = u)) as [->|Hne].
    + rewrite Hreg, Hlook, Htask. rewrite !decide_True by done. simpl.
      by rewrite app_nil_r.
    + rewrite decide_False by done. rewrite app_nil_r. f_equal.
      destruct (command_workers w !! u0) as [tid0|] eqn:E; [|done].
      rewrite Hlook. rewrite decide_False; [done|]. intros ->.
      destruct (H3 u0 tid E) as [pc0 Hpc0]. congruence.
  - intros jid j. rewrite Hj. intros Hjs Hd.
    apply lookup_app_Some in Hjs as [Hjs|[Hge Hjs]].
    + destruct (H10 jid j Hjs Hd) as [(q0 & e0 & s0 & t0 & Hs)|Hg].
      * left. exists q0, e0, s0, t0. rewrite Hlook.
        rewrite decide_False; [done|]. intros Heq. rewrite Heq, Htask in Hs. done.
      * right. by apply (trace_gave_up_mono _ w w' _ Hl).
    + left. destruct (jid - length (jobs w))%nat as [|n] eqn:E; simpl in Hjs; [|done].
      injection Hjs as <-. simpl. exists q, e, s, t. rewrite Hlook.
      rewrite decide_True by done. do 3 f_equal. lia.
Qed.

(** A worker takes an entry and [_execute_single_command] returns at once. *)
Lemma inv_pop_return w w' tid u q since0 e rest s o :
  inv w →
  tasks w !! tid = Some (mk_task u (WGet q since0)) →
  items (queue_of w q) = e :: rest →
  command_queues w' = command_queues w →
  command_workers w' = command_workers w →
  queue_heap w' = <[q := mk_queue rest (unfinished (queue_of w q) - 1)]> (queue_heap w) →
  tasks w' = <[tid := mk_task u (WGet q s)]> (tasks w) →
  jobs w' = jobs w →
  commands_trace w' = commands_trace w ++ [ExecBegin u e; ExecEnd u e o] →
  inv w'.
Proof.
  intros Hinv Htask Hitems Hcq Hcw Hh Ht Hj Hl.
  destruct (inv_worker_facts w tid u _ q Hinv Htask eq_refl)
    as (Hreg & Hqueue & Hvalid & Hother & Hsole).
  pose proof (queue_of_insert w w' q _ Hh Hvalid) as Hq.
  pose proof (tasks_insert_lookup _ _ tid _ _ Ht Htask) as Hlook.
  destruct Hinv as [H1 H2 H3 H4 H5 H6 H7 H8 H9 H10]. constructor.
  - intros u0 q0. rewrite Hcq, Hh, length_insert. apply H1.
  - intros u1 u2 q0. rewrite Hcq. apply H2.
  - intros u0 tid0. rewrite Hcw, Hlook. intros Hs.
    destruct (H3 u0 tid0 Hs) as [pc0 Hpc0].
    destruct (decide (tid0 = tid)) as [->|Hne]; [|by exists pc0].
    eexists. rewrite Htask in Hpc0. by injection Hpc0 as <- _.
  - intros tid0 u0 pc0. rewrite Hcw, Hlook.
    destruct (decide (tid0 = tid)) as [->|Hne]; [|apply H4].
    by intros [= <- <-] _.
  - intros tid0 u0 pc0 q0. rewrite Hcq, Hlook.
    destruct (decide (tid0 = tid)) as [->|Hne]; [|apply H5].
    by intros [= <- <-] [= <-].
  - intros q0. rewrite Hq. destruct (decide (q0 = q)) as [->|Hne]; [|apply H6].
    simpl. specialize (H6 q). rewrite Hitems in H6. simpl in H6. lia.
  - intros tid0 u0 q0 e0 j0 s0 t0. rewrite Hlook, Hq.
    destruct (decide (tid0 = tid)) as [->|Hne]; [done|].
    intros Hs. destruct (decide (q0 = q)) as [->|Hneq]; [|by eapply H7].
    destruct Hne. by eapply (Hsole tid0 u0 _ Hs).
  - intros u0. rewrite (trace_puts u0 w w' _ Hl), (trace_taken u0 w w' _ Hl).
    simpl. rewrite app_nil_r, H8. unfold current_queue. rewrite Hcq.
    destruct (decide (u0 = u)) as [->|Hne].
    + rewrite Hqueue, Hq, Hitems. rewrite !decide_True by done. simpl.
      by rewrite <- app_assoc.
    + rewrite decide_False by done. rewrite app_nil_r. f_equal.
      destruct (command_queues w !! u0) as [q0|] eqn:E; [|done].
      rewrite Hq. rewrite decide_False; [done|]. by eapply Hother.
  - intros u0. rewrite (trace_begun u0 w w' _ Hl), (trace_ended u0 w w' _ Hl).
    simpl. rewrite H9. unfold current_entry. rewrite Hcw.
    destruct (decide (u0 = u)) as [->|Hne].
    + rewrite Hreg, Hlook, Htask. rewrite !decide_True by done. simpl.
      by rewrite !app_nil_r.
    + rewrite !decide_False by done. rewrite !app_nil_r. f_equal.
      destruct (command_workers w !! u0) as [tid0|] eqn:E; [|done].
      rewrite Hlook. rewrite decide_False; [done|]. intros ->.
      destruct (H3 u0 tid E) as [pc0 Hpc0]. congruence.
  - intros jid j. rewrite Hj. intros Hjs Hd.
    destruct (H10 jid j Hjs Hd) as [(q0 & e0 & s0 & t0 & Hs)|Hg].
    + left. exists q0, e0, s0, t0. rewrite Hlook.
      rewrite decide_False; [done|]. intros Heq. rewrite Heq, Htask in Hs. done.
    + right. by apply (trace_gave_up_mono _ w w' _ Hl).
Qed.

(** [_execute_single_command] is over for a worker that waited for a job:
    the result came, or the timeout struck. *)
Lemma inv_finish w w' tid u q e jid since0 t0 s o :
  inv w →
  tasks w !! tid = Some (mk_task u (WRun q e jid since0 t0)) →
  (gave_up u (ExecEnd u e o) = true ∨ ∀ j, jobs w !! jid = Some j → j_done j = true) →
  command_queues w' = command_queues w →
  command_workers w' = command_workers w →
  queue_heap w' = <[q := mk_queue (items (queue_of w q))
                            (unfinished (queue_of w q) - 1)]> (queue_heap w) →
  tasks w' = <[tid := mk_task u (WGet q s)]> (tasks w) →
  jobs w' = jobs w →
  commands_trace w' = commands_trace w ++ [ExecEnd u e o] →
  inv w'.
Proof.
  intros Hinv Htask Hjob Hcq Hcw Hh Ht Hj Hl.
  destruct (inv_worker_facts w tid u _ q Hinv Htask eq_refl)
    as (Hreg & Hqueue & Hvalid & Hother & Hsole).
  pose proof (queue_of_insert w w' q _ Hh Hvalid) as Hq.
  pose proof (tasks_insert_lookup _ _ tid _ _ Ht Htask) as Hlook.
  destruct Hinv as [H1 H2 H3 H4 H5 H6 H7 H8 H9 H10].
  pose proof (H7 _ _ _ _ _ _ _ Htask) as Hstrict.
  constructor.
  - intros u0 q0. rewrite Hcq, Hh, length_insert. apply H1.
  - intros u1 u2 q0. rewrite Hcq. apply H2.
  - intros u0 tid0. rewrite Hcw, Hlook. intros Hs.
    destruct (H3 u0 tid0 Hs) as [pc0 Hpc0].
    destruct (decide (tid0 = tid)) as [->|Hne]; [|by exists pc0].
    eexists. rewrite Htask in Hpc0. by injection Hpc0 as <- _.
  - intros tid0 u0 pc0. rewrite Hcw, Hlook.
    destruct (decide (tid0 = tid)) as [->|Hne]; [|apply H4].
    by intros [= <- <-] _.
  - intros tid0 u0 pc0 q0. rewrite Hcq, Hlook.
    destruct (decide (tid0 = tid)) as [->|Hne]; [|apply H5].
    by intros [= <- <-] [= <-].
  - intros q0. rewrite Hq. destruct (decide (q0 = q)) as [->|Hne]; [|apply H6].
    simpl. lia.
  - intros tid0 u0 q0 e0 j0 s0 t1. rewrite Hlook, Hq.
    destruct (decide (tid0 = tid)) as [->|Hne]; [done|].
    intros Hs. destruct (decide (q0 = q)) as [->|Hneq]; [|by eapply H7].
    destruct Hne. by eapply (Hsole tid0 u0 _ Hs).
  - intros u0. rewrite (trace_puts u0 w w' _ Hl), (trace_taken u0 w w' _ Hl).
    simpl. rewrite !app_nil_r, H8. f_equal. unfold current_queue. rewrite Hcq.
    destruct (command_queues w !! u0) as [q0|] eqn:E; [|done].
    rewrite Hq. by destruct (decide (q0 = q)) as [->|Hne].
  - intros u0. rewrite (trace_begun u0 w w' _ Hl), (trace_ended u0 w w' _ Hl).
    simpl. rewrite H9. unfold current_entry. rewrite Hcw.
    destruct (decide (u0 = u)) as [->|Hne].
    + rewrite Hreg, Hlook, Htask. rewrite !decide_True by done. simpl.
      by rewrite !app_nil_r.
    + rewrite !decide_False by done. rewrite !app_nil_r. f_equal.
      destruct (command_workers w !! u0) as [tid0|] eqn:E; [|done].
      rewrite Hlook. rewrite decide_False; [done|]. intros ->.
      destruct (H3 u0 tid E) as [pc0 Hpc0]. congruence.
  - intros jid0 j. rewrite Hj. intros Hjs Hd.
    destruct (H10 jid0 j Hjs Hd) as [(q0 & e0 & s0 & t1 & Hs)|Hg].
    + destruct (decide (j_task j = tid)) as [Heq|Hne].
      * rewrite Heq, Htask in Hs. injection Hs as Hu _ _ Hjid _ _. subst jid0.
        destruct Hjob as [Hgave|Hdone].
        -- right. rewrite (trace_gave_up _ w w' _ Hl), <- Hu. cbn [existsb].
           rewrite Hgave. by rewrite orb_true_r.
        -- specialize (Hdone j Hjs). congruence.
      * left. exists q0, e0, s0, t1. rewrite Hlook. by rewrite decide_False.
    + right. by apply (trace_gave_up_mono _ w w' _ Hl).
Qed.


(** A user's registered worker is cancelled and taken off the register. *)
Lemma inv_cancel_worker w w' tid u pc :
  inv w →
  command_workers w !! u = Some tid →
  tasks w !! tid = Some (mk_task u pc) →
  command_queues w' = command_queues w →
  command_workers w' = base.delete u (command_workers w) →
  queue_heap w' = queue_heap w →
  tasks w' = <[tid := mk_task u WDone]> (tasks w) →
  jobs w' = jobs w →
  commands_trace w' = commands_trace w ++ cancel_trace u pc →
  inv w'.
Proof.
  intros Hinv Hreg Htask Hcq Hcw Hh Ht Hj Hl.
  assert (∀ q, queue_of w' q = queue_of w q) as Hq
    by (intros q; unfold queue_of; by rewrite Hh).
  pose proof (tasks_insert_lookup _ _ tid _ _ Ht Htask) as Hlook.
  destruct Hinv as [H1 H2 H3 H4 H5 H6 H7 H8 H9 H10].
  assert (∀ u0 tid0, command_workers w !! u0 = Some tid0 → u0 ≠ u → tid0 ≠ tid)
    as Hother.
  { intros u0 tid0 Hs Hne ->. destruct (H3 u0 tid Hs) as [pc0 Hpc0]. congruence. }
  assert (∀ tid0 pc0, tasks w !! tid0 = Some (mk_task u pc0) → live_pc pc0 = true →
                      tid0 = tid) as Hsole.
  { intros tid0 pc0 Hs Hlive. pose proof (H4 _ _ _ Hs Hlive). congruence. }
  constructor.
  - intros u0 q. rewrite Hcq, Hh. apply H1.
  - intros u1 u2 q. rewrite Hcq. apply H2.
  - intros u0 tid0. rewrite Hcw. destruct (decide (u0 = u)) as [->|Hne].
    + by rewrite lookup_delete_eq.
    + rewrite lookup_delete_ne by done. intros Hs. rewrite Hlook.
      rewrite decide_False by (by eapply Hother). by apply H3.
  - intros tid0 u0 pc0. rewrite Hcw, Hlook.
    destruct (decide (tid0 = tid)) as [->|Hne]; [by intros [= <- <-]|].
    intros Hs Hlive. rewrite lookup_delete_ne; [by eapply H4|].
    intros <-. destruct Hne. by eapply Hsole.
  - intros tid0 u0 pc0 q. rewrite Hcq, Hlook.
    destruct (decide (tid0 = tid)) as [->|Hne]; [by intros [= <- <-]|apply H5].
  - intros q. rewrite Hq. apply H6.
  - intros tid0 u0 q e j s t. rewrite Hlook, Hq.
    destruct (decide (tid0 = tid)) as [->|Hne]; [done|apply H7].
  - intros u0. rewrite (trace_puts u0 w w' _ Hl), (trace_taken u0 w w' _ Hl).
    assert (puts u0 (cancel_trace u pc) = [] ∧ taken u0 (cancel_trace u pc) = [])
      as [-> ->] by (by destruct pc).
    rewrite !app_nil_r, (current_queue_eq u0 w w') by done. apply H8.
  - intros u0. rewrite (trace_begun u0 w w' _ Hl), (trace_ended u0 w w' _ Hl).
    assert (begun u0 (cancel_trace u pc) = []) as -> by (by destruct pc).
    rewrite app_nil_r, H9. unfold current_entry. rewrite Hcw.
    destruct (decide (u0 = u)) as [->|Hne].
    + rewrite lookup_delete_eq, Hreg, Htask, app_nil_r. f_equal.
      destruct pc; simpl; try done. by rewrite decide_True.
    + rewrite lookup_delete_ne by done.
      assert (ended u0 (cancel_trace u pc) = []) as ->.
      { destruct pc; simpl; try done. by rewrite decide_False. }
      rewrite app_nil_r. f_equal.
      destruct (command_workers w !! u0) as [tid0|] eqn:E; [|done].
      rewrite Hlook. by rewrite decide_False by (by eapply Hother).
  - intros jid j. rewrite Hj. intros Hjs Hd.
    destruct (H10 jid j Hjs Hd) as [(q0 & e0 & s0 & t0 & Hs)|Hg].
    + destruct (decide (j_task j = tid)) as [Heq|Hne].
      * right. rewrite Heq, Htask in Hs. injection Hs as Hu Hpc. subst pc.
        rewrite (trace_gave_up _ w w' _ Hl), <- Hu. simpl.
        rewrite bool_decide_eq_true_2 by done. by rewrite orb_true_r.
      * left. exists q0, e0, s0, t0. rewrite Hlook. by rewrite decide_False.
    + right. by apply (trace_gave_up_mono _ w w' _ Hl).
Qed.

(** The queue of a user without a registered worker is emptied and taken
    off the register. *)
Lemma inv_drop_queue w w' u q :
  inv w →
  command_queues w !! u = Some q →
  command_workers w !! u = None →
  command_queues w' = base.delete u (command_queues w) →
  command_workers w' = command_workers w →
  queue_heap w' = <[q := mk_queue [] (unfinished (queue_of w q)
                                      - length (items (queue_of w q)))]> (queue_heap w) →
  tasks w' = tasks w →
  jobs w' = jobs w →
  commands_trace w' = commands_trace w ++ map (QueueDrop u) (items (queue_of w q)) →
  inv w'.
Proof.
  intros Hinv Hqueue Hnone Hcq Hcw Hh Ht Hj Hl.
  destruct Hinv as [H1 H2 H3 H4 H5 H6 H7 H8 H9 H10].
  pose proof (queue_of_insert w w' q _ Hh (H1 u q Hqueue)) as Hq.
  assert (∀ tid pc, tasks w !! tid = Some (mk_task u pc) → live_pc pc = false) as Hdead.
  { intros tid pc Hs. destruct (live_pc pc) eqn:E; [|done].
    pose proof (H4 _ _ _ Hs E). congruence. }
  assert (∀ v l, puts v (map (QueueDrop u) l) = [] ∧ begun v (map (QueueDrop u) l) = []
                 ∧ ended v (map (QueueDrop u) l) = []
                 ∧ taken v (map (QueueDrop u) l) = (if decide (u = v) then l else []))
    as Hproj.
  { intros v l. induction l as [|x l (IH1 & IH2 & IH3 & IH4)]; [by destruct (decide _)|].
    split_and!; try done. simpl. destruct (decide (u = v)); simpl; by rewrite IH4. }
  constructor.
  - intros u0 q0. rewrite Hcq, Hh, length_insert.
    destruct (decide (u0 = u)) as [->|Hne]; [by rewrite lookup_delete_eq|].
    rewrite lookup_delete_ne by done. apply H1.
  - intros u1 u2 q0. rewrite Hcq.
    destruct (decide (u1 = u)) as [->|Hne1]; [by rewrite lookup_delete_eq|].
    destruct (decide (u2 = u)) as [->|Hne2]; [by rewrite lookup_delete_eq|].
    rewrite !lookup_delete_ne by done. apply H2.
  - intros u0 tid. rewrite Hcw, Ht. apply H3.
  - intros tid u0 pc. rewrite Hcw, Ht. apply H4.
  - intros tid u0 pc q0. rewrite Hcq, Ht. intros Hs Hpq.
    destruct (decide (u0 = u)) as [->|Hne].
    + pose proof (Hdead _ _ Hs). by destruct pc.
    + rewrite lookup_delete_ne by done. by eapply H5.
  - intros q0. rewrite Hq. destruct (decide (q0 = q)) as [->|Hne]; [|apply H6].
    simpl. lia.
  - intros tid u0 q0 e j s t. rewrite Ht, Hq. intros Hs.
    destruct (decide (q0 = q)) as [->|Hne]; [|by eapply H7].
    pose proof (H5 _ _ _ q Hs eq_refl) as Hq0.
    assert (u0 = u) as -> by (by eapply H2). by pose proof (Hdead _ _ Hs).
  - intros u0. rewrite (trace_puts u0 w w' _ Hl), (trace_taken u0 w w' _ Hl).
    destruct (Hproj u0 (items (queue_of w q))) as (-> & _ & _ & ->).
    rewrite app_nil_r, H8. unfold current_queue. rewrite Hcq.
    destruct (decide (u = u0)) as [<-|Hne].
    + by rewrite lookup_delete_eq, Hqueue, app_nil_r.
    + rewrite lookup_delete_ne by done. rewrite app_nil_r. f_equal.
      destruct (command_queues w !! u0) as [q0|] eqn:E; [|done].
      rewrite Hq. rewrite decide_False; [done|]. intros ->. apply Hne. by eapply H2.
  - intros u0. rewrite (trace_begun u0 w w' _ Hl), (trace_ended u0 w w' _ Hl).
    destruct (Hproj u0 (items (queue_of w q))) as (_ & -> & -> & _).
    rewrite !app_nil_r, H9. f_equal.
    apply current_entry_eq; [done|]. intros. by rewrite Ht.
  - intros jid j. rewrite Hj, Ht. intros Hjs Hd.
    destruct (H10 jid j Hjs Hd) as [?|Hg]; [by left|right].
    by apply (trace_gave_up_mono _ w w' _ Hl).
Qed.

(** A pool job returns. *)
Lemma inv_job_returns w w' jid j :
  inv w →
  jobs w !! jid = Some j →
  command_queues w' = command_queues w →
  command_workers w' = command_workers w →
  queue_heap w' = queue_heap w →
  tasks w' = tasks w →
  jobs w' = <[jid := finish_job j]> (jobs w) →
  commands_trace w' = commands_trace w →
  inv w'.
Proof.
  intros Hinv Hjob Hcq Hcw Hh Ht Hj Hl.
  assert (same_view w (set_jobs (λ _, jobs w) w')) as Hv.
  { unfold same_view, commands_trace in *. simpl. by split_and!. }
  pose proof (inv_same_view _ _ Hinv Hv) as [H1 H2 H3 H4 H5 H6 H7 H8 H9 H10].
  simpl in *. constructor; try done.
  intros jid0 j0. rewrite Hj. intros Hjs Hd.
  destruct (decide (jid0 = jid)) as [->|Hne].
  - rewrite list_lookup_insert_eq in Hjs by (by eapply lookup_lt_Some).
    injection Hjs as <-. done.
  - rewrite list_lookup_insert_ne in Hjs by done. by apply H10.
Qed.

(** ** The steps keep the invariant *)

Lemma commands_trace_app w w' l :
  log w' = log w ++ l →
  commands_trace w' = commands_trace w ++ filter (λ x, relevant x = true) l.
Proof. unfold commands_trace. intros ->. apply filter_app. Qed.

Lemma filter_relevant_cons x l :
  filter (λ x, relevant x = true) (x :: l) =
    if relevant x then x :: filter (λ x, relevant x = true) l
    else filter (λ x, relevant x = true) l.
Proof.
  rewrite filter_cons. destruct (relevant x) eqn:E.
  - by rewrite decide_True.
  - by rewrite decide_False.
Qed.

Ltac trace_simpl :=
  rewrite ?filter_relevant_cons, ?filter_nil; simpl; rewrite ?app_nil_r.

Ltac trace_solve :=
  unfold commands_trace; simpl; rewrite <- ?app_assoc; simpl;
  rewrite ?filter_app, ?filter_relevant_cons, ?filter_nil; simpl;
  rewrite ?app_nil_r; try done.

Lemma same_view_fields w w' :
  command_queues w' = command_queues w → command_workers w' = command_workers w →
  queue_heap w' = queue_heap w → tasks w' = tasks w → jobs w' = jobs w →
  (∃ l, log w' = log w ++ l ∧ filter (λ x, relevant x = true) l = []) →
  same_view w w'.
Proof.
  intros ? ? ? ? ? (l & Hl & Hf). unfold same_view. split_and!; try done.
  by rewrite (commands_trace_app w w' l Hl), Hf, app_nil_r.
Qed.

Lemma inv_fresh_bot t r d : inv (fresh_bot t r d).
Proof. by constructor. Qed.

Lemma inv_execute_command u update command m w :
  inv w → inv (snd (execute_command u update command m w)).
Proof.
  intros Hinv. unfold execute_command, has_active_session, Redis.exists_,
    start_command_worker, create_task, new_queue. mrun.
  destruct (bool_decide (is_Some (redis w !! session_key u))); simpl.
  2: { eapply inv_same_view; [done|]. apply same_view_fields; try done.
       eexists. split; [reflexivity|]. by trace_simpl. }
  set (wA := set_command_workers (insert u (length (tasks w)))
               (set_tasks (λ ts, ts ++ [mk_task u WStart]) w)).
  assert (command_workers w !! u = None → inv wA) as HA.
  { intros E. by eapply (inv_add_worker w wA u). }
  assert (∀ w0, inv w0 → command_queues w0 !! u = None →
            inv (set_command_queues (insert u (length (queue_heap w0)))
                   (set_queue_heap (λ h, h ++ [empty_queue]) w0))) as HB.
  { intros w0 Hinv0 E. by eapply (inv_add_queue w0 _ u). }
  destruct (command_workers w !! u) eqn:Ew; simpl; rewrite ?Ew; simpl;
    destruct (command_queues w !! u) eqn:Eq; simpl.
  - eapply inv_same_view; [exact Hinv|]. apply same_view_fields; try done.
    eexists. split; [reflexivity|]. by trace_simpl.
  - eapply inv_same_view; [exact (HB w Hinv Eq)|]. apply same_view_fields; try done.
    eexists. split; [reflexivity|]. by trace_simpl.
  - eapply inv_same_view; [exact (HA eq_refl)|]. apply same_view_fields; try done.
    eexists. split; [reflexivity|]. by trace_simpl.
  - eapply inv_same_view; [exact (HB wA (HA eq_refl) Eq)|].
    apply same_view_fields; try done.
    eexists. split; [reflexivity|]. by trace_simpl.
Qed.

Lemma filter_relevant_drops u (l : list entry) :
  filter (λ x, relevant x = true) (map (QueueDrop u) l) = map (QueueDrop u) l.
Proof.
  induction l as [|x l IH]; [done|].
  simpl. rewrite filter_relevant_cons. simpl. by rewrite IH.
Qed.

Lemma inv_execute_command_resumed p w :
  inv w → inv (snd (execute_command_resumed p w)).
Proof.
  intros Hinv. unfold execute_command_resumed, queue_put, queue_qsize. mrun.
  unfold id.
  destruct (command_queues w !! p_user p) as [q|] eqn:E; simpl.
  - eapply (inv_put w _ (p_user p) q (p_entry p)); try done.
    trace_solve.
  - eapply inv_same_view; [exact Hinv|]. apply same_view_fields; try done.
    exists []. by rewrite app_nil_r.
Qed.

Lemma drain_queue_all u q : ∀ n w,
  length (items (queue_of w q)) = n →
  (n ≤ unfinished (queue_of w q))%nat →
  (q < length (queue_heap w))%nat →
  ∃ w', drain_queue n u q w = (Ok tt, w') ∧
        command_queues w' = command_queues w ∧
        command_workers w' = command_workers w ∧
        active_commands w' = active_commands w ∧
        tasks w' = tasks w ∧ jobs w' = jobs w ∧
        queue_heap w' = <[q := mk_queue [] (unfinished (queue_of w q) - n)]> (queue_heap w) ∧
        log w' = log w ++ map (QueueDrop u) (items (queue_of w q)).
Proof.
  induction n as [|n IH]; intros w Hlen Hunf Hvalid.
  - exists w. split_and!; try done.
    + rewrite Nat.sub_0_r. apply nil_length_inv in Hlen.
      unfold queue_of in *. destruct (queue_heap w !! q) as [[its unf]|] eqn:E.
      * simpl in *. subst its. by rewrite list_insert_id.
      * apply lookup_ge_None in E. lia.
    + apply nil_length_inv in Hlen. rewrite Hlen. simpl. by rewrite app_nil_r.
  - simpl. unfold queue_task_done. mrun. unfold id.
    destruct (items (queue_of w q)) as [|e rest] eqn:Hitems; [done|].
    simpl in Hlen. injection Hlen as Hlen. simpl.
    set (w1 := set_log _ _).
    assert (queue_of w1 q = mk_queue rest (unfinished (queue_of w q))) as Hq1.
    { unfold queue_of at 1. subst w1. simpl. by rewrite list_lookup_insert_eq. }
    rewrite Hq1. simpl.
    destruct (unfinished (queue_of w q)) as [|unf] eqn:Hu; [lia|]. simpl.
    set (w2 := set_queue_heap _ w1).
    assert (queue_of w2 q = mk_queue rest unf) as Hq2.
    { unfold queue_of at 1. subst w2 w1. simpl.
      by rewrite list_lookup_insert_eq by (by rewrite length_insert). }
    destruct (IH w2) as (w' & Hrun & ? & ? & ? & ? & ? & Hh & Hl).
    { by rewrite Hq2. }
    { rewrite Hq2. simpl. lia. }
    { subst w2 w1. simpl. by rewrite !length_insert. }
    exists w'. split; [exact Hrun|]. split_and!; try done.
    + rewrite Hh, Hq2. subst w2 w1. simpl. by rewrite !list_insert_insert_eq.
    + rewrite Hl, Hq2. subst w2 w1. simpl. by rewrite <- app_assoc.
Qed.

(** ** What a step leaves of another user's worker *)

Lemma begun_sublist_taken u l : begun u l `sublist_of` taken u l.
Proof.
  induction l as [|x l IH]; [constructor|].
  unfold begun, taken in *. simpl.
  destruct x; simpl; try exact IH.
  - destruct (decide (_ = u)); [by apply sublist_cons|exact IH].
  - destruct (decide (_ = u)); [by apply sublist_skip|exact IH].
Qed.


Lemma undisturbed_refl u w : undisturbed u w w.
Proof. by unfold undisturbed. Qed.

Lemma undisturbed_trans u w1 w2 w3 :
  undisturbed u w1 w2 → undisturbed u w2 w3 → undisturbed u w1 w3.
Proof.
  intros (Ha & Hb & Hc & Hd) (Ha' & Hb' & Hc' & Hd').
  unfold undisturbed. split_and!; [congruence|auto|congruence|congruence].
Qed.

Lemma taken_nil_begun u l : taken u l = [] → begun u l = [].
Proof.
  intros H. pose proof (begun_sublist_taken u l) as Hs. rewrite H in Hs.
  by apply sublist_nil_r.
Qed.

Lemma undisturbed_fields u w w' l :
  command_workers w' !! u = command_workers w !! u →
  (∀ tid, tasks w !! tid = Some (mk_task u WDone) →
          tasks w' !! tid = Some (mk_task u WDone)) →
  commands_trace w' = commands_trace w ++ l →
  taken u l = [] →
  undisturbed u w w'.
Proof.
  intros Hcw Ht Hl Hnil. unfold undisturbed. split_and!; [done|done|..].
  - by rewrite (trace_taken u w w' l Hl), Hnil, app_nil_r.
  - by rewrite (trace_begun u w w' l Hl), (taken_nil_begun u l Hnil), app_nil_r.
Qed.

Lemma undisturbed_same_view u w w' : same_view w w' → undisturbed u w w'.
Proof.
  intros (_ & Hcw & _ & Ht & _ & Hl).
  apply (undisturbed_fields u w w' []); [by rewrite Hcw|by rewrite Ht| |done].
  by rewrite app_nil_r.
Qed.

Lemma done_insert (ts : list task) tid' t0 t u :
  ts !! tid' = Some t0 → (t0 = mk_task u WDone → t = t0) →
  ∀ tid, ts !! tid = Some (mk_task u WDone) →
         <[tid' := t]> ts !! tid = Some (mk_task u WDone).
Proof.
  intros H0 Hsame tid Htid. destruct (decide (tid = tid')) as [->|Hne].
  - rewrite H0 in Htid. injection Htid as Htid.
    rewrite list_lookup_insert_eq by (by eapply lookup_lt_Some).
    specialize (Hsame Htid). congruence.
  - by rewrite list_lookup_insert_ne.
Qed.

Lemma taken_drops u u' (l : list entry) : u ≠ u' → taken u (map (QueueDrop u') l) = [].
Proof.
  intros Hne. induction l as [|x l IH]; [done|].
  unfold taken in *. simpl. by rewrite decide_False.
Qed.

Lemma cancel_user_commands_keeps u w :
  inv w →
  inv (snd (cancel_user_commands u w)) ∧
  ∀ u0, u0 ≠ u → undisturbed u0 w (snd (cancel_user_commands u w)).
Proof.
  intros Hinv.
  (* the worker *)
  assert (∃ wa, (let* workers := gets command_workers in
                 match workers !! u with
                 | Some tid => task_cancel tid;;
                               modify (set_command_workers (base.delete u))
                 | None => ret tt
                 end) w = (Ok tt, wa) ∧ inv wa ∧ command_workers wa !! u = None ∧
                ∀ u0, u0 ≠ u → undisturbed u0 w wa)
    as (wa & Ha & Hinva & Hnone & Hua).
  { unfold task_cancel. mrun.
    destruct (command_workers w !! u) as [tid|] eqn:E;
      [|exists w; split_and!; try done; intros; apply undisturbed_refl].
    destruct (inv_worker_valid w Hinv u tid E) as [pc Hpc]. rewrite Hpc.
    destruct pc; simpl; (eexists; split; [reflexivity|]); (split_and!;
      [eapply (inv_cancel_worker w _ tid u); [exact Hinv|exact E|exact Hpc|..];
         try done; trace_solve
      |simpl; apply lookup_delete_eq
      |intros u0 Hne;
       match type of Hpc with
       | _ = Some (mk_task _ ?pc0) =>
           eapply (undisturbed_fields u0 w _ (cancel_trace u pc0))
       end;
         [simpl; by apply lookup_delete_ne
         |simpl; eapply done_insert; [exact Hpc|congruence]
         |trace_solve
         |done]]). }
  (* the queue *)
  assert (∃ wb, (let* queues := gets command_queues in
                 match queues !! u with
                 | Some q => let* n := queue_qsize q in
                             drain_queue n u q;;
                             modify (set_command_queues (base.delete u))
                 | None => ret tt
                 end) wa = (Ok tt, wb) ∧ inv wb ∧
                ∀ u0, u0 ≠ u → undisturbed u0 wa wb)
    as (wb & Hb & Hinvb & Hub).
  { unfold queue_qsize. mrun. unfold id.
    destruct (command_queues wa !! u) as [q|] eqn:E;
      [|exists wa; split_and!; try done; intros; apply undisturbed_refl].
    destruct (drain_queue_all u q _ wa eq_refl (inv_unfinished wa Hinva q)
                (inv_queue_valid wa Hinva u q E))
      as (w' & -> & Hcq & Hcw & _ & Ht & Hj & Hh & Hl).
    simpl. eexists. split; [reflexivity|]. split.
    - eapply (inv_drop_queue wa _ u q); try done.
      + simpl. by rewrite Hcq.
      + simpl. erewrite commands_trace_app by exact Hl.
        by rewrite filter_relevant_drops.
    - intros u0 Hne.
      eapply (undisturbed_fields u0 wa _ (map (QueueDrop u) _)).
      + simpl. by rewrite Hcw.
      + simpl. by rewrite Ht.
      + simpl. erewrite commands_trace_app by exact Hl.
        by rewrite filter_relevant_drops.
      + by apply taken_drops. }
  unfold cancel_user_commands, mbind, M_bind in *.
  rewrite (bind_ok _ _ _ _ _ Ha), (bind_ok _ _ _ _ _ Hb). mrun.
  assert (∀ wc, same_view wb wc →
            inv wc ∧ ∀ u0, u0 ≠ u → undisturbed u0 w wc) as Hfin.
  { intros wc Hv. split; [by eapply inv_same_view|].
    intros u0 Hne. eapply undisturbed_trans; [by apply Hua|].
    eapply undisturbed_trans; [by apply Hub|]. by apply undisturbed_same_view. }
  destruct (active_commands wb !! u); apply Hfin; [|apply same_view_refl].
  apply same_view_fields; try done. exists []. by rewrite app_nil_r.
Qed.

Lemma inv_cancel_user_commands u w :
  inv w → inv (snd (cancel_user_commands u w)).
Proof. intros Hinv. by apply cancel_user_commands_keeps. Qed.

Lemma keeps_inv_neutral {A} (m : M A) : neutral m → keeps_inv m.
Proof. intros Hm w Hinv. eapply inv_same_view; [exact Hinv | apply Hm]. Qed.

Lemma keeps_inv_bind {A B} (m : M A) (k : A → M B) :
  keeps_inv m → (∀ a, keeps_inv (k a)) → keeps_inv (bind m k).
Proof.
  intros Hm Hk w Hinv. unfold bind. specialize (Hm w Hinv).
  destruct (m w) as [[a|e] w1]; simpl in *; [by apply Hk | done].
Qed.

Lemma keeps_inv_stop_session u m : keeps_inv (stop_session u m).
Proof.
  unfold stop_session, mbind, M_bind.
  apply keeps_inv_bind; [intros w; apply inv_cancel_user_commands|intros _].
  apply keeps_inv_neutral. neutral_calls; apply neutral_remove_session_container.
Qed.

Lemma keeps_inv_cancel_command u m : keeps_inv (cancel_command u m).
Proof.
  unfold cancel_command, mbind, M_bind.
  apply keeps_inv_bind; [intros w; apply inv_cancel_user_commands|intros _].
  apply keeps_inv_neutral. neutral_calls.
Qed.

Lemma inv_tick dt w : inv w → inv (tick dt w).
Proof.
  intros Hinv. eapply inv_same_view; [exact Hinv|]. by unfold same_view.
Qed.

Lemma inv_worker_start tid w w' : inv w → worker_start tid w = Some w' → inv w'.
Proof.
  intros Hinv. unfold worker_start.
  destruct (tasks w !! tid) as [[u pc]|] eqn:Htask; [|done].
  destruct pc; try done.
  destruct (command_queues w !! u) as [q|] eqn:Hq; intros [= <-];
    (eapply (inv_pc_change w _ tid u WStart); [exact Hinv|exact Htask|..]; try done);
    try (intros; discriminate); simpl; try (by intros ? [= <-]).
Qed.

Lemma inv_worker_idle tid w w' : inv w → worker_idle tid w = Some w' → inv w'.
Proof.
  intros Hinv. unfold worker_idle.
  destruct (tasks w !! tid) as [[u pc]|] eqn:Htask; [|done].
  destruct pc as [|q since| |]; try done.
  destruct (_ && _); [|done]. intros [= <-].
  eapply (inv_pc_change w _ tid u (WGet q since)); [exact Hinv|exact Htask|..];
    try done; try (intros; discriminate).
Qed.

(** [worker_next] when [task_done] has a task to finish. *)
Lemma worker_next_fields tid u q e o w :
  (0 < unfinished (queue_of w q))%nat →
  let w' := worker_next tid u q e o w in
  command_queues w' = command_queues w ∧
  command_workers w' = command_workers w ∧
  queue_heap w' = <[q := mk_queue (items (queue_of w q))
                            (unfinished (queue_of w q) - 1)]> (queue_heap w) ∧
  tasks w' = <[tid := mk_task u (WGet q (now w))]> (tasks w) ∧
  jobs w' = jobs w ∧
  commands_trace w' = commands_trace w ++ [ExecEnd u e o].
Proof.
  intros Hpos. unfold worker_next, queue_task_done, set_task. mrun. unfold id.
  assert (∀ f, queue_of (set_log f w) q = queue_of w q) as -> by done.
  destruct (unfinished (queue_of w q)) as [|n]; [lia|]. simpl.
  rewrite Nat.sub_0_r. split_and!; try done. trace_solve.
Qed.

Lemma begin_total command m u w :
  ∃ r, fst (_execute_single_command_begin command m u w) = Ok r.
Proof.
  unfold _execute_single_command_begin. mrun.
  destruct (redis w !! session_key u) as [[[[n|s]|] ?]|]; simpl; try by eexists.
  destruct (truthy (container_id s)); simpl; [|by eexists].
  destruct (docker w !! container_id s); simpl; [|by eexists].
  unfold is_confirmed_user, Redis.sismember. mrun.
  destruct (redis w !! confirmed_users_key) as [[[|members] ?]|]; simpl;
    try by eexists.
  - destruct (negb (bool_decide _) && is_command_dangerous command); by eexists.
  - destruct (is_command_dangerous command); by eexists.
Qed.

Lemma inv_worker_get tid w w' : inv w → worker_get tid w = Some w' → inv w'.
Proof.
  intros Hinv. unfold worker_get.
  destruct (tasks w !! tid) as [[u pc]|] eqn:Htask; [|done].
  destruct pc as [|q since| |]; try done.
  destruct (items (queue_of w q)) as [|e rest] eqn:Hitems; [done|].
  set (w1 := set_log _ _).
  destruct (begin_total (e_command e) (e_status_msg e) u w1) as [r Hr].
  pose proof (neutral_begin (e_command e) (e_status_msg e) u w1)
    as (Hcq & Hcw & Hh & Ht & Hj & Hl).
  destruct (_execute_single_command_begin (e_command e) (e_status_msg e) u w1)
    as [r' w2]. simpl in Hr, Hcq, Hcw, Hh, Ht, Hj, Hl. subst r'.
  destruct (inv_worker_facts w tid u _ q Hinv Htask eq_refl)
    as (_ & _ & Hvalid & _).
  assert (commands_trace w1 = commands_trace w ++ [ExecBegin u e]) as Hl1
    by (subst w1; trace_solve).
  destruct r as [[[cid full_command] test]|]; intros [= <-].
  - eapply (inv_pop_job w _ tid u q since e rest); [exact Hinv|exact Htask|..];
      try done; simpl.
    + by rewrite Ht, Hj.
    + by rewrite Hj.
    + unfold commands_trace in *. simpl. rewrite filter_app. trace_simpl.
      by rewrite Hl, Hl1.
  - assert (queue_of w2 q = mk_queue rest (unfinished (queue_of w q))) as Hq2.
    { unfold queue_of at 1. rewrite Hh. subst w1. simpl.
      by rewrite list_lookup_insert_eq. }
    pose proof (inv_unfinished w Hinv q) as Hunf. rewrite Hitems in Hunf.
    simpl in Hunf.
    destruct (worker_next_fields tid u q e Returned w2)
      as (Hcq' & Hcw' & Hh' & Ht' & Hj' & Hl').
    { rewrite Hq2. simpl. lia. }
    eapply (inv_pop_return w _ tid u q since e rest); [exact Hinv|exact Htask|..];
      try done.
    + by rewrite Hcq'.
    + by rewrite Hcw'.
    + rewrite Hh', Hq2, Hh. subst w1. simpl. by rewrite list_insert_insert_eq.
    + by rewrite Ht', Ht.
    + by rewrite Hj'.
    + rewrite Hl', Hl, Hl1. by rewrite <- app_assoc.
Qed.

Lemma inv_worker_timeout tid w w' : inv w → worker_timeout tid w = Some w' → inv w'.
Proof.
  intros Hinv. unfold worker_timeout.
  destruct (tasks w !! tid) as [[u pc]|] eqn:Htask; [|done].
  destruct pc as [| |q e jid since [t|]|]; try done.
  destruct (since + t <=? now w); [|done]. intros [= <-].
  pose proof (neutral_timeout (e_status_msg e) w) as (Hcq & Hcw & Hh & Ht & Hj & Hl).
  set (w1 := snd (_execute_single_command_timeout (e_status_msg e) w)) in *.
  change (inv (worker_next tid u q e TimedOut w1)).
  pose proof (inv_running_unfinished w Hinv _ _ _ _ _ _ _ Htask) as Hstrict.
  assert (queue_of w1 q = queue_of w q) as Hq1 by (unfold queue_of; by rewrite Hh).
  destruct (worker_next_fields tid u q e TimedOut w1)
    as (Hcq' & Hcw' & Hh' & Ht' & Hj' & Hl').
  { rewrite Hq1. lia. }
  eapply (inv_finish w _ tid u q e jid since (Some t) _ TimedOut);
    [exact Hinv|exact Htask|..].
  - left. simpl. by apply bool_decide_eq_true_2.
  - by rewrite Hcq'.
  - by rewrite Hcw'.
  - by rewrite Hh', Hq1, Hh.
  - by rewrite Ht', Ht.
  - by rewrite Hj'.
  - by rewrite Hl', Hl.
Qed.

Lemma inv_job_done jid answer w w' : inv w → job_done jid answer w = Some w' → inv w'.
Proof.
  intros Hinv. unfold job_done.
  destruct (jobs w !! jid) as [j|] eqn:Hjob; [|done].
  destruct (j_done j) eqn:Hdone; [done|].
  set (w1 := set_jobs _ w).
  assert (inv w1) as Hinv1 by (by eapply (inv_job_returns w w1 jid j)).
  change (tasks w1) with (tasks w).
  destruct (tasks w !! j_task j) as [[u pc]|] eqn:Htask;
    [|intros Heq; replace w' with w1 by congruence; exact Hinv1].
  destruct pc as [| |q e jid' since tmo|]; try (intros Heq; replace w' with w1 by congruence; exact Hinv1).
  destruct (Nat.eqb_spec jid' jid) as [->|Hne]; [|simpl; intros Heq; replace w' with w1 by congruence; exact Hinv1].
  simpl.
  match goal with |- (if ?b then _ else _) = _ → _ => destruct b end;
    [|intros Heq; replace w' with w1 by congruence; exact Hinv1].
  intros Heq.
  replace w' with (worker_next (j_task j) u q e Returned
    (snd (_execute_single_command_result (e_status_msg e) (_run_command_sync answer) w1)))
    by congruence.
  clear Heq.
  pose proof (neutral_result (e_status_msg e) (_run_command_sync answer) w1)
    as (Hcq & Hcw & Hh & Ht & Hj & Hl).
  set (w2 := snd (_execute_single_command_result _ _ w1)) in *.
  change (inv (worker_next (j_task j) u q e Returned w2)).
  assert (tasks w1 !! j_task j = Some (mk_task u (WRun q e jid since tmo))) as Htask1
    by done.
  pose proof (inv_running_unfinished w1 Hinv1 _ _ _ _ _ _ _ Htask1) as Hstrict.
  assert (queue_of w2 q = queue_of w1 q) as Hq2 by (unfold queue_of; by rewrite Hh).
  destruct (worker_next_fields (j_task j) u q e Returned w2)
    as (Hcq' & Hcw' & Hh' & Ht' & Hj' & Hl').
  { rewrite Hq2. lia. }
  eapply (inv_finish w1 _ (j_task j) u q e jid since tmo _ Returned);
    [exact Hinv1|exact Htask1|..].
  - right. intros j0. subst w1. simpl.
    rewrite list_lookup_insert_eq by (by eapply lookup_lt_Some).
    by intros [= <-].
  - by rewrite Hcq'.
  - by rewrite Hcw'.
  - by rewrite Hh', Hq2, Hh.
  - by rewrite Ht', Ht.
  - by rewrite Hj'.
  - by rewrite Hl', Hl.
Qed.

Lemma inv_step ev w w' : inv w → step ev w = Some w' → inv w'.
Proof.
  intros Hinv. destruct ev; simpl.
  - destruct (0 <=? dt); [|done]. intros [= <-]. by apply inv_tick.
  - unfold run_handler. destruct (handler w); [done|]. intros [= <-].
    apply keeps_inv_neutral; [apply neutral_create_user_container | done].
  - unfold run_handler. destruct (handler w); [done|]. intros [= <-].
    by apply keeps_inv_stop_session.
  - unfold run_handler. destruct (handler w); [done|]. intros [= <-].
    by apply keeps_inv_cancel_command.
  - unfold run_handler. destruct (handler w); [done|]. intros [= <-].
    by apply inv_execute_command.
  - destruct (handler w); [|done]. intros [= <-].
    by apply inv_execute_command_resumed.
  - by apply inv_worker_start.
  - by apply inv_worker_get.
  - by apply inv_worker_idle.
  - by apply inv_worker_timeout.
  - by apply inv_job_done.
Qed.

Lemma inv_run evs : ∀ w w', inv w → run evs w = Some w' → inv w'.
Proof.
  induction evs as [|ev evs IH]; intros w w' Hinv; simpl.
  - by intros [= <-].
  - destruct (step ev w) as [w1|] eqn:Hstep; [|done].
    apply IH. by eapply inv_step.
Qed.

(** ** The order of a user's commands *)

Lemma taken_no_drop u l : dropped u l = [] → taken u l = begun u l.
Proof.
  induction l as [|x l IH]; [done|].
  unfold begun, taken, dropped in *. simpl.
  destruct x; simpl; try exact IH.
  - destruct (decide (_ = u)); [done|exact IH].
  - destruct (decide (_ = u)); [|exact IH]. intros H. f_equal. by apply IH.
Qed.

Lemma current_entry_length u w : (length (current_entry u w) ≤ 1)%nat.
Proof.
  unfold current_entry. destruct (command_workers w !! u); [|simpl; lia].
  destruct (tasks w !! _) as [[? []]|]; simpl; lia.
Qed.

Lemma filter_at_most_one {A} (P : A → Prop) `{!∀ x, Decision (P x)} (l : list A) :
  (∀ i j x y, l !! i = Some x → l !! j = Some y → P x → P y → i = j) →
  (length (filter P l) ≤ 1)%nat.
Proof.
  induction l as [|a l IH]; intros Hone; [simpl; lia|].
  rewrite filter_cons. destruct (decide (P a)) as [Ha|Ha].
  - assert (filter P l = []) as ->; [|simpl; lia].
    destruct (filter P l) as [|y k] eqn:Hf; [done|].
    assert (y ∈ filter P l) as Hy by (rewrite Hf; left).
    apply list_elem_of_filter in Hy as [Hp Hy].
    apply list_elem_of_lookup in Hy as [j Hj].
    by specialize (Hone 0%nat (S j) a y eq_refl Hj Ha Hp).
  - apply IH. intros i j x y Hi Hj Hx Hy.
    by specialize (Hone (S i) (S j) x y Hi Hj Hx Hy) as [= ->].
Qed.

Lemma sublist_filter_mono {A} (P : A → Prop) `{!∀ x, Decision (P x)} (l1 l2 : list A) :
  l1 `sublist_of` l2 → filter P l1 `sublist_of` filter P l2.
Proof.
  induction 1 as [|x l1 l2 _ IH|x l1 l2 _ IH]; [constructor| |].
  - rewrite !filter_cons. destruct (decide (P x)); [by apply sublist_skip|done].
  - rewrite filter_cons. destruct (decide (P x)); [by apply sublist_cons|done].
Qed.

Lemma running_sublist_in_flight u w : running u w `sublist_of` in_flight u w.
Proof.
  unfold running, in_flight.
  rewrite <- (list_filter_filter (λ j, j_user j = u) (λ j, j_done j = false)).
  apply sublist_filter_mono, sublist_take.
Qed.

(** Unless a worker gave up on a job, a user has one job in the pool at most. *)
Lemma in_flight_at_most_one u w :
  inv w → existsb (gave_up u) (log w) = false → (length (in_flight u w) ≤ 1)%nat.
Proof.
  intros Hinv Hnone. unfold in_flight.
  apply filter_at_most_one. intros i1 i2 j1 j2 H1 H2 [Hu1 Hd1] [Hu2 Hd2].
  destruct (inv_jobs w Hinv i1 j1 H1 Hd1) as [(q1 & e1 & s1 & t1 & Ht1)|Hg];
    [|rewrite Hu1 in Hg; congruence].
  destruct (inv_jobs w Hinv i2 j2 H2 Hd2) as [(q2 & e2 & s2 & t2 & Ht2)|Hg];
    [|rewrite Hu2 in Hg; congruence].
  rewrite Hu1 in Ht1. rewrite Hu2 in Ht2.
  pose proof (inv_live_registered w Hinv _ _ _ Ht1 eq_refl) as Hr1.
  pose proof (inv_live_registered w Hinv _ _ _ Ht2 eq_refl) as Hr2.
  rewrite Hr1 in Hr2. injection Hr2 as Heq. rewrite Heq in Ht1.
  rewrite Ht1 in Ht2. by injection Ht2.
Qed.




(** ** A worker that has left its loop *)

Lemma spares_neutral u {A} (m : M A) : neutral m → spares u m.
Proof.
  intros Hm w Hinv. split; [by apply keeps_inv_neutral|].
  apply undisturbed_same_view, Hm.
Qed.

Lemma spares_bind u {A B} (m : M A) (k : A → M B) :
  spares u m → (∀ a, spares u (k a)) → spares u (bind m k).
Proof.
  intros Hm Hk w Hinv. unfold bind. destruct (Hm w Hinv) as [Hinv1 Hu1].
  destruct (m w) as [[a|e] w1]; simpl in *; [|done].
  destruct (Hk a w1 Hinv1) as [Hinv2 Hu2]. split; [done|].
  by eapply undisturbed_trans.
Qed.

Lemma spares_cancel_user_commands u0 u : u0 ≠ u → spares u0 (cancel_user_commands u).
Proof.
  intros Hne w Hinv. destruct (cancel_user_commands_keeps u w Hinv) as [H1 H2].
  split; [done|by apply H2].
Qed.

Lemma spares_stop_session u0 u m : u0 ≠ u → spares u0 (stop_session u m).
Proof.
  intros Hne. unfold stop_session, mbind, M_bind.
  apply spares_bind; [by apply spares_cancel_user_commands|intros _].
  apply spares_neutral. neutral_calls; apply neutral_remove_session_container.
Qed.

Lemma spares_cancel_command u0 u m : u0 ≠ u → spares u0 (cancel_command u m).
Proof.
  intros Hne. unfold cancel_command, mbind, M_bind.
  apply spares_bind; [by apply spares_cancel_user_commands|intros _].
  apply spares_neutral. neutral_calls.
Qed.

Lemma undisturbed_execute_command u u' update command m w :
  u' ≠ u ∨ is_Some (command_workers w !! u) →
  undisturbed u w (snd (execute_command u' update command m w)).
Proof.
  intros Hreg. unfold execute_command, has_active_session, Redis.exists_,
    start_command_worker, create_task, new_queue. mrun.
  assert (∀ cw, command_workers w !! u' = None →
            <[u' := cw]> (command_workers w) !! u = command_workers w !! u) as Hcw.
  { intros cw E. destruct Hreg as [Hne|[tid Htid]].
    - by apply lookup_insert_ne.
    - apply lookup_insert_ne. intros ->. congruence. }
  destruct (bool_decide (is_Some (redis w !! session_key u'))); simpl.
  2: { apply (undisturbed_fields u w _ []); try done. trace_solve. }
  destruct (command_workers w !! u') eqn:Ew; simpl; rewrite ?Ew; simpl;
    destruct (command_queues w !! u') eqn:Eq; simpl;
    (apply (undisturbed_fields u w _ []); simpl;
     [by rewrite ?Hcw
     |try done; intros tid Htid; by apply lookup_app_l_Some
     |trace_solve
     |done]).
Qed.

Lemma undisturbed_execute_command_resumed u p w :
  undisturbed u w (snd (execute_command_resumed p w)).
Proof.
  unfold execute_command_resumed, queue_put, queue_qsize. mrun. unfold id.
  destruct (command_queues w !! p_user p) as [q|] eqn:E; simpl.
  - apply (undisturbed_fields u w _ [QueuePut (p_user p) (p_entry p)]);
      try done. trace_solve.
  - apply (undisturbed_fields u w _ []); try done. trace_solve.
Qed.

Lemma worker_next_trace tid u q e o w :
  let w' := worker_next tid u q e o w in
  command_workers w' = command_workers w ∧
  tasks w' = <[tid := mk_task u (WGet q (now w))]> (tasks w) ∧
  commands_trace w' = commands_trace w ++ [ExecEnd u e o].
Proof.
  unfold worker_next, queue_task_done, set_task. mrun. unfold id.
  assert (∀ f, queue_of (set_log f w) q = queue_of w q) as -> by done.
  destruct (unfinished (queue_of w q)) as [|n]; simpl; split_and!; try done;
    trace_solve.
Qed.

Lemma undisturbed_worker_next u tid' u' q e o pc w :
  tasks w !! tid' = Some (mk_task u' pc) → pc ≠ WDone →
  undisturbed u w (worker_next tid' u' q e o w).
Proof.
  intros Htask Hpc.
  destruct (worker_next_trace tid' u' q e o w) as (Hcw & Ht & Hl).
  apply (undisturbed_fields u w _ [ExecEnd u' e o]); try done.
  - by rewrite Hcw.
  - rewrite Ht. eapply done_insert; [exact Htask|congruence].
Qed.

Lemma undisturbed_set_task u tid' u' pc pc' w :
  tasks w !! tid' = Some (mk_task u' pc) → pc ≠ WDone →
  undisturbed u w (set_task tid' (mk_task u' pc') w).
Proof.
  intros Htask Hpc. apply (undisturbed_fields u w _ []); try done.
  - simpl. eapply done_insert; [exact Htask|congruence].
  - by rewrite app_nil_r.
Qed.

Lemma undisturbed_worker_start u tid' w w' :
  worker_start tid' w = Some w' → undisturbed u w w'.
Proof.
  unfold worker_start.
  destruct (tasks w !! tid') as [[u' pc]|] eqn:Htask; [|done].
  destruct pc; try done.
  destruct (command_queues w !! u'); intros [= <-];
    by eapply undisturbed_set_task.
Qed.

Lemma undisturbed_worker_idle u tid' w w' :
  worker_idle tid' w = Some w' → undisturbed u w w'.
Proof.
  unfold worker_idle.
  destruct (tasks w !! tid') as [[u' pc]|] eqn:Htask; [|done].
  destruct pc as [|q since| |]; try done.
  destruct (_ && _); [|done]. intros [= <-].
  by eapply undisturbed_set_task.
Qed.

Lemma undisturbed_worker_timeout u tid' w w' :
  worker_timeout tid' w = Some w' → undisturbed u w w'.
Proof.
  unfold worker_timeout.
  destruct (tasks w !! tid') as [[u' pc]|] eqn:Htask; [|done].
  destruct pc as [| |q e jid since [t|]|]; try done.
  destruct (since + t <=? now w); [|done]. intros [= <-].
  pose proof (neutral_timeout (e_status_msg e) w) as Hv.
  set (w1 := snd (_execute_single_command_timeout (e_status_msg e) w)) in *.
  eapply undisturbed_trans; [apply undisturbed_same_view, Hv|].
  destruct Hv as (_ & _ & _ & Ht & _).
  assert (tasks w1 !! tid' = Some (mk_task u' (WRun q e jid since (Some t))))
    as Htask1 by (rewrite Ht; exact Htask).
  apply (undisturbed_worker_next u tid' u' q e TimedOut (WRun q e jid since (Some t)));
    [exact Htask1|done].
Qed.

Lemma undisturbed_job_done u jid answer w w' :
  job_done jid answer w = Some w' → undisturbed u w w'.
Proof.
  unfold job_done.
  destruct (jobs w !! jid) as [j|] eqn:Hjob; [|done].
  destruct (j_done j) eqn:Hdone; [done|].
  set (w1 := set_jobs _ w).
  assert (undisturbed u w w1) as H1 by done.
  change (tasks w1) with (tasks w).
  destruct (tasks w !! j_task j) as [[u' pc]|] eqn:Htask;
    [|intros Heq; by replace w' with w1 by congruence].
  destruct pc as [| |q e jid' since tmo|];
    try (intros Heq; by replace w' with w1 by congruence).
  match goal with |- (if ?b then _ else _) = _ → _ => destruct b end;
    [|intros Heq; by replace w' with w1 by congruence].
  intros Heq.
  replace w' with (worker_next (j_task j) u' q e Returned
    (snd (_execute_single_command_result (e_status_msg e) (_run_command_sync answer) w1)))
    by congruence.
  clear Heq.
  pose proof (neutral_result (e_status_msg e) (_run_command_sync answer) w1) as Hv.
  set (w2 := snd (_execute_single_command_result _ _ w1)) in *.
  eapply undisturbed_trans; [exact H1|].
  eapply undisturbed_trans; [apply undisturbed_same_view, Hv|].
  destruct Hv as (_ & _ & _ & Ht & _).
  assert (tasks w2 !! j_task j = Some (mk_task u' (WRun q e jid' since tmo)))
    as Htask2 by (rewrite Ht; exact Htask).
  apply (undisturbed_worker_next u (j_task j) u' q e Returned (WRun q e jid' since tmo));
    [exact Htask2|done].
Qed.

Lemma undisturbed_worker_get u tid' u' pc w w' :
  tasks w !! tid' = Some (mk_task u' pc) → u' ≠ u →
  worker_get tid' w = Some w' → undisturbed u w w'.
Proof.
  intros Htask Hne. unfold worker_get. rewrite Htask.
  destruct pc as [|q since| |]; try done.
  destruct (items (queue_of w q)) as [|e rest] eqn:Hitems; [done|].
  set (w1 := set_log _ _).
  assert (undisturbed u w w1) as H1.
  { apply (undisturbed_fields u w w1 [ExecBegin u' e]); try done.
    - subst w1. trace_solve.
    - unfold taken. simpl. by rewrite decide_False. }
  destruct (begin_total (e_command e) (e_status_msg e) u' w1) as [r Hr].
  pose proof (neutral_begin (e_command e) (e_status_msg e) u' w1) as Hv.
  destruct (_execute_single_command_begin (e_command e) (e_status_msg e) u' w1)
    as [r' w2]. simpl in Hr, Hv. subst r'.
  assert (undisturbed u w w2) as H2
    by (eapply undisturbed_trans; [exact H1|by apply undisturbed_same_view]).
  destruct Hv as (_ & _ & _ & Ht & _).
  assert (tasks w2 !! tid' = Some (mk_task u' (WGet q since))) as Htask2
    by (by rewrite Ht).
  destruct r as [[[cid full_command] test]|]; intros [= <-];
    (eapply undisturbed_trans; [exact H2|]).
  - eapply (undisturbed_fields u w2 _ []); simpl; try done.
    + eapply done_insert; [exact Htask2|congruence].
    + trace_solve.
  - by eapply undisturbed_worker_next.
Qed.

Lemma retired_undisturbed u tid w w' :
  retired u tid w → undisturbed u w w' → retired u tid w'.
Proof.
  intros [Hreg Htask] (Hcw & Ht & _). split; [congruence|by apply Ht].
Qed.

(** No step but a stop or a cancellation of the user wakes a worker that
    has left its loop. *)
Lemma retired_step u tid ev w w' :
  inv w → retired u tid w → wakes u ev = false →
  step ev w = Some w' → undisturbed u w w'.
Proof.
  intros Hinv [Hreg Htask] Hwakes. destruct ev; simpl in *.
  - destruct (0 <=? dt); [|done]. intros [= <-].
    by apply undisturbed_same_view.
  - unfold run_handler. destruct (handler w); [done|]. intros [= <-].
    apply undisturbed_same_view, neutral_create_user_container.
  - unfold run_handler. destruct (handler w); [done|]. intros [= <-].
    apply spares_stop_session; [|done].
    intros ->. by rewrite bool_decide_eq_true_2 in Hwakes.
  - unfold run_handler. destruct (handler w); [done|]. intros [= <-].
    apply spares_cancel_command; [|done].
    intros ->. by rewrite bool_decide_eq_true_2 in Hwakes.
  - unfold run_handler. destruct (handler w); [done|]. intros [= <-].
    apply undisturbed_execute_command. right. by eexists.
  - destruct (handler w); [|done]. intros [= <-].
    apply undisturbed_execute_command_resumed.
  - apply undisturbed_worker_start.
  - intros Hget. pose proof Hget as Hget'. unfold worker_get in Hget'.
    destruct (tasks w !! tid0) as [[u' pc]|] eqn:Htask'; [|done].
    destruct pc as [|q since| |]; try done.
    eapply undisturbed_worker_get; [exact Htask'| |exact Hget].
    intros ->.
    pose proof (inv_live_registered w Hinv _ _ _ Htask' eq_refl) as Hreg'.
    congruence.
  - apply undisturbed_worker_idle.
  - apply undisturbed_worker_timeout.
  - apply undisturbed_job_done.
Qed.

Lemma retired_run u tid evs : ∀ w w',
  inv w → retired u tid w → Forall (λ ev, wakes u ev = false) evs →
  run evs w = Some w' → undisturbed u w w'.
Proof.
  induction evs as [|ev evs IH]; intros w w' Hinv Hret Hall; simpl.
  - intros [= <-]. apply undisturbed_refl.
  - destruct (step ev w) as [w1|] eqn:Hstep; [|done]. intros Hrun.
    apply Forall_cons in Hall as [Hev Hall].
    pose proof (retired_step u tid ev w w1 Hinv Hret Hev Hstep) as H1.
    eapply undisturbed_trans; [exact H1|].
    apply IH; [by eapply inv_step|by eapply retired_undisturbed|done|done].
Qed.

(** C2, as the code has it: the worker that idles out stays on the
    register and its queue in the table of queues; from then on, whatever
    the user submits is put in that queue and no command of the user is
    executed, until the user stops the session or cancels. *)
Theorem idle_worker_stays_registered (evs evs' : list event) (t : Z)
    (r : gmap string rentry) (d : gmap string container)
    (w w1 w2 : world) (tid : nat) (u : Z) (q : nat) (since : Z) :
  run evs (fresh_bot t r d) = Some w →
  tasks w !! tid = Some (mk_task u (WGet q since)) →
  worker_idle tid w = Some w1 →
  Forall (λ ev, wakes u ev = false) evs' →
  run evs' w1 = Some w2 →
  (command_workers w1 !! u = Some tid ∧ command_queues w1 !! u = Some q) ∧
  (command_workers w2 !! u = Some tid ∧ tasks w2 !! tid = Some (mk_task u WDone)) ∧
  begun u (log w2) = begun u (log w) ∧
  puts u (log w2) = taken u (log w) ++ current_queue u w2.
Proof.
  intros Hrun Htask Hidle Hall Hrun'.
  assert (inv w) as Hinv by (eapply inv_run; [apply inv_fresh_bot|exact Hrun]).
  assert (inv w1) as Hinv1 by (by eapply inv_worker_idle).
  pose proof (inv_live_registered w Hinv _ _ _ Htask eq_refl) as Hreg.
  pose proof (inv_live_queue w Hinv _ _ _ q Htask eq_refl) as Hq.
  assert (w1 = set_task tid (mk_task u WDone) w) as Hw1.
  { unfold worker_idle in Hidle. rewrite Htask in Hidle.
    destruct (_ && _); [|done]. by injection Hidle. }
  assert (retired u tid w1) as Hret.
  { rewrite Hw1. split; [done|]. simpl.
    apply list_lookup_insert_eq. by eapply lookup_lt_Some. }
  assert (inv w2) as Hinv2 by (by eapply inv_run).
  pose proof (retired_run u tid evs' w1 w2 Hinv1 Hret Hall Hrun') as Hund.
  destruct (retired_undisturbed u tid w1 w2 Hret Hund) as [Hreg2 Htask2].
  destruct Hund as (_ & _ & Htaken & Hbegun).
  split_and!.
  - by rewrite Hw1.
  - by rewrite Hw1.
  - exact Hreg2.
  - exact Htask2.
  - rewrite Hbegun. by rewrite Hw1.
  - rewrite (inv_fifo w2 Hinv2 u), Htaken. by rewrite Hw1.
Qed.

Lemma idle_worker_stays_registered_witness :
  (command_workers retired_world !! 7 = Some 0%nat ∧
   command_queues retired_world !! 7 = Some 0%nat) ∧
  (command_workers late_world !! 7 = Some 0%nat ∧
   tasks late_world !! 0%nat = Some (mk_task 7 WDone)) ∧
  begun 7 (log late_world) = begun 7 (log idle_world) ∧
  puts 7 (log late_world) = taken 7 (log idle_world) ++ current_queue 7 late_world.
Proof.
  apply (idle_worker_stays_registered idle_events late_events 0
           example_redis example_docker idle_world retired_world late_world
           0 7 0 0).
  - vm_compute. reflexivity.
  - vm_compute. reflexivity.
  - vm_compute. reflexivity.
  - unfold late_events. repeat constructor.
  - vm_compute. reflexivity.
Defined.

(** The command submitted after the idle exit: it waits in the queue, an
    hour later no step of the worker is possible, and the only command
    ever executed is the first. *)
Lemma late_command_waits :
  current_queue 7 late_world = [mk_entry 2 "pwd" 102] ∧
  begun 7 (log late_world) = [mk_entry 1 "ls" 101] ∧
  length (tasks late_world) = 1%nat ∧
  worker_start 0 late_world = None ∧
  worker_get 0 late_world = None.
Proof. vm_compute. by split_and!. Qed.

(** * Further properties of the code *)

(** ** Tokens and trust *)

Lemma add_tokens_run u a b w :
  balance_is w u b → add_tokens u a w = (Ok tt, write_tokens u (b + a) w).
Proof.
  unfold balance_is, add_tokens. intros Hb. unfold bind at 1.
  by rewrite run_get_user_tokens, Hb.
Qed.

Lemma is_confirmed_user_pretty (u v : Z) : pretty u = pretty v :> string → u = v.
Proof. apply (inj (pretty : Z → string)). Qed.

(** X1.  [add_tokens] replaces the stored balance by the sum of the balance
    read (0 for a user with no record) and the amount, and changes nothing
    else in the store; two top-ups in a row add up.  The sum is not clamped:
    a top-up that leaves it at or below zero leaves an untrusted user with
    [consume_tokens] answering [False], one that makes it positive makes the
    next [consume_tokens] succeed. *)
Theorem add_tokens_adds (w : world) (u a b : Z) :
  balance_is w u b →
  ∃ w', add_tokens u a w = (Ok tt, w') ∧
        balance_is w' u (b + a) ∧
        redis w' = <[token_key u := mk_rentry (VStr (SInt (b + a))) None]> (redis w) ∧
        docker w' = docker w ∧
        (∀ v, fst (is_confirmed_user v w') = fst (is_confirmed_user v w)) ∧
        (∀ c, redis (snd (add_tokens u c w')) = redis (snd (add_tokens u (a + c) w))) ∧
        (untrusted w u → b + a ≤ 0 → consume_tokens u 1 w' = (Ok false, w')) ∧
        (untrusted w u → 0 < b + a →
           fst (consume_tokens u 1 w') = Ok true ∧
           balance_is (snd (consume_tokens u 1 w')) u (b + a - 1)).
Proof.
  intros Hb. exists (write_tokens u (b + a) w).
  pose proof (write_tokens_balance u (b + a) w) as Hb'.
  split_and!.
  - by apply add_tokens_run.
  - exact Hb'.
  - reflexivity.
  - reflexivity.
  - intros v. apply write_tokens_confirmed.
  - intros c. rewrite (add_tokens_run u c (b + a) _ Hb'),
      (add_tokens_run u (a + c) b w Hb). simpl.
    rewrite insert_insert_eq. by replace (b + a + c) with (b + (a + c)) by lia.
  - intros Hu Hle. apply (consume_tokens_empty u 1 _ (b + a)); [|done|done].
    unfold untrusted. by rewrite write_tokens_confirmed.
  - intros Hu Hpos.
    rewrite (consume_tokens_pays u 1 _ (b + a)); [|..|done|done].
    + split; [done|]. simpl.
      assert (Z.max 0 (b + a - 1) = b + a - 1) as -> by lia.
      apply write_tokens_balance.
    + unfold untrusted. by rewrite write_tokens_confirmed.
Qed.

Lemma add_tokens_adds_witness :
  ∃ w', add_tokens 7 (-500) example_world = (Ok tt, w') ∧
        balance_is w' 7 (-20) ∧ consume_tokens 7 1 w' = (Ok false, w').
Proof.
  destruct (add_tokens_adds example_world 7 (-500) 480)
    as (w' & Hrun & Hb & _ & _ & _ & _ & Hempty & _); [vm_compute; reflexivity|].
  exists w'. split; [exact Hrun|]. split; [exact Hb|].
  apply Hempty; [vm_compute; reflexivity|lia].
Defined.

(** X2.  [init_user_tokens] grants the initial 480 tokens only to a user
    with no token record: when a record exists, whatever it holds (a spent
    balance of 0 too), the call changes nothing.  It never fails, never
    touches another key, and calling it again changes nothing. *)
Theorem init_user_tokens_grants_once (w : world) (u : Z) :
  ∃ w1, init_user_tokens u w = (Ok tt, w1) ∧
        init_user_tokens u w1 = (Ok tt, w1) ∧
        (is_Some (redis w !! token_key u) → w1 = w) ∧
        (redis w !! token_key u = None →
           balance_is w1 u initial_tokens ∧ log w1 = log w ++ [RedisSet (token_key u)]) ∧
        (∀ key, key ≠ token_key u → redis w1 !! key = redis w !! key) ∧
        docker w1 = docker w.
Proof.
  assert (∀ w0, is_Some (redis w0 !! token_key u) → init_user_tokens u w0 = (Ok tt, w0))
    as Hkeep.
  { intros w0 Hsome. unfold init_user_tokens, Redis.exists_. munfold. simpl.
    by rewrite bool_decide_eq_true_2. }
  destruct (redis w !! token_key u) as [x|] eqn:E.
  - exists w. split_and!; try done.
    + apply Hkeep. by rewrite E.
    + apply Hkeep. by rewrite E.
  - exists (write_tokens u initial_tokens w). split_and!.
    + by apply init_user_tokens_new.
    + apply Hkeep. simpl. rewrite lookup_insert_eq. by eexists.
    + by intros [? ?].
    + intros _. split; [apply write_tokens_balance|done].
    + intros key Hne. simpl. by apply lookup_insert_ne.
    + done.
Qed.

(** X3.  [add_confirmed_user] makes the user trusted and keeps every other
    user's status, and every other key of the store, as it was; a second
    call changes nothing in the store.  From then on [consume_tokens] for
    the user answers [True] and writes nothing.  When the key
    [confirmed_users] holds a string, the call fails and writes nothing. *)
Theorem add_confirmed_user_confirms (w : world) (u : Z) :
  (∀ v t, redis w !! confirmed_users_key ≠ Some (mk_rentry (VStr v) t)) →
  ∃ w', add_confirmed_user u w = (Ok tt, w') ∧
        trusted w' u ∧
        (∀ v, v ≠ u → fst (is_confirmed_user v w') = fst (is_confirmed_user v w)) ∧
        (∀ key, key ≠ confirmed_users_key → redis w' !! key = redis w !! key) ∧
        docker w' = docker w ∧
        redis (snd (add_confirmed_user u w')) = redis w' ∧
        (∀ amount, consume_tokens u amount w' = (Ok true, w')).
Proof.
  intros Hset.
  assert (∃ s t w', add_confirmed_user u w = (Ok tt, w') ∧
            redis w' = <[confirmed_users_key := mk_rentry (VSet ({[pretty u]} ∪ s)) t]> (redis w) ∧
            docker w' = docker w ∧
            (∀ v, fst (is_confirmed_user v w) = Ok (bool_decide (pretty v ∈ s))))
    as (s & t & w' & Hrun & Hredis & Hdocker & Hold).
  { unfold add_confirmed_user, is_confirmed_user, Redis.sadd, Redis.sismember.
    munfold. simpl.
    destruct (redis w !! confirmed_users_key) as [[[v|s] t]|] eqn:E.
    - by destruct (Hset v t).
    - by exists s, t; eexists.
    - exists ∅, None. eexists. split_and!; try done.
      simpl. by rewrite union_empty_r_L. }
  assert (∀ v, fst (is_confirmed_user v w') = Ok (bool_decide (pretty v ∈ {[pretty u]} ∪ s)))
    as Hnew.
  { intros v. unfold is_confirmed_user, Redis.sismember. munfold. simpl.
    by rewrite Hredis, lookup_insert_eq. }
  assert (trusted w' u) as Htrusted.
  { unfold trusted. rewrite Hnew. f_equal. apply bool_decide_eq_true_2. set_solver. }
  exists w'. split_and!; try done.
  - intros v Hne. rewrite Hnew, Hold. f_equal. apply bool_decide_ext.
    split; [|set_solver]. intros [Heq%elem_of_singleton|Hin]%elem_of_union; [|done].
    by apply is_confirmed_user_pretty in Heq.
  - intros key Hne. rewrite Hredis. by apply lookup_insert_ne.
  - unfold add_confirmed_user, Redis.sadd. munfold. simpl.
    rewrite Hredis, lookup_insert_eq. simpl. rewrite Hredis, insert_insert_eq.
    do 3 f_equal. by rewrite (assoc_L (∪)), union_idemp_L.
  - intros amount. by apply consume_tokens_trusted.
Qed.

Lemma add_confirmed_user_confirms_witness :
  ∃ w', add_confirmed_user 7 example_world = (Ok tt, w') ∧ trusted w' 7 ∧
        consume_tokens 7 1 w' = (Ok true, w').
Proof.
  destruct (add_confirmed_user_confirms example_world 7)
    as (w' & Hrun & Ht & _ & _ & _ & _ & Hfree).
  { intros v t. vm_compute. discriminate. }
  exists w'. split; [exact Hrun|]. split; [exact Ht|apply Hfree].
Defined.

(** ** Sessions *)

Lemma has_active_session_run u w :
  has_active_session u w = (Ok (bool_decide (is_Some (redis w !! session_key u))), w).
Proof. reflexivity. Qed.

Lemma tick_lookup dt w key :
  redis (tick dt w) !! key =
    match redis w !! key with
    | Some e => if live (now w + dt) e then Some e else None
    | None => None
    end.
Proof.
  unfold tick. simpl.
  destruct (redis w !! key) as [e|] eqn:E.
  - destruct (live (now w + dt) e) eqn:Hl.
    + by apply map_lookup_filter_Some.
    + apply map_lookup_filter_None. right. intros e' He'. simpl.
      rewrite E in He'. injection He' as <-. by rewrite Hl.
  - apply map_lookup_filter_None. by left.
Qed.

Lemma created_now u image shell ttl ttl_display config_key network is_test urandom
    cid w old c config :
  fst (Redis.get (session_key u) w) = Ok old →
  fst (is_confirmed_user u w) = Ok c →
  resolve_config is_test config_key = Some config →
  valid_ttl ttl →
  let w1 := snd (create_user_container u image shell ttl ttl_display config_key
                   network is_test urandom (Ok cid) w) in
  now w1 = now w ∧
  redis w1 !! session_key u =
    Some (mk_rentry
            (VStr (SJson (mk_session cid image shell ttl ttl_display (rc_name config)
                            network (now w) c is_test)))
            match ttl with
            | Some t => if t =? 0 then None else Some (now w + t)
            | None => None
            end) ∧
  docker w1 !! cid =
    Some (Docker.with_status "running"
            (container_kwargs_of u image network (negb c && negb is_test) config urandom)).
Proof.
  intros Hget Hc Hcfg Httl.
  rewrite (create_user_container_run u image shell ttl ttl_display config_key network
             is_test urandom cid w old c config) by done.
  simpl.
  assert (now (match old with
               | Some text => snd (remove_session_container text w)
               | None => w
               end) = now w) as Hnow.
  { destruct old as [text|]; [|done].
    by destruct (remove_session_container_total text w) as (w' & -> & _ & ? & _). }
  unfold persisted, started.
  destruct ttl as [t|]; [destruct (t =? 0) eqn:Ht|]; simpl;
    rewrite ?Hnow, ?lookup_insert_eq; done.
Qed.



Lemma create_user_container_fails u image shell ttl ttl_display config_key network
    is_test urandom run_reply w old c :
  fst (Redis.get (session_key u) w) = Ok old →
  fst (is_confirmed_user u w) = Ok c →
  let w_a := match old with
             | Some text => snd (remove_session_container text w)
             | None => w
             end in
  (resolve_config is_test config_key = None →
     create_user_container u image shell ttl ttl_display config_key network is_test
       urandom run_reply w = (Raise (KeyError config_key), w_a)) ∧
  (∀ config e, resolve_config is_test config_key = Some config →
     run_reply = Raise e →
     create_user_container u image shell ttl ttl_display config_key network is_test
       urandom run_reply w = (Raise e, w_a)).
Proof.
  intros Hget Hc w_a.
  assert (∃ w', (match old with
                 | Some text => remove_session_container text
                 | None => ret tt
                 end) w = (Ok tt, w') ∧ w' = w_a
                ∧ redis w' = redis w) as (w' & Hrm & -> & Hredis).
  { subst w_a. destruct old as [text|].
    - destruct (remove_session_container_total text w) as (w' & -> & ? & _).
      by exists w'.
    - by exists w. }
  assert (is_confirmed_user u w_a = (Ok c, w_a)) as Hconf.
  { rewrite run_is_confirmed_user.
    by rewrite (is_confirmed_user_frame u w w_a), Hc by (by rewrite Hredis). }
  unfold resolve_config.
  split; [intros Hcfg | intros config e Hcfg ->];
    unfold create_user_container; unfold bind at 1; rewrite run_redis_get, Hget;
    unfold mbind, M_bind; unfold bind at 1; rewrite Hrm; unfold bind at 1.
  - destruct is_test; [done|]. by rewrite Hcfg.
  - assert ((if is_test then ret test_resource_config
             else match resource_configs !! config_key with
                  | Some c0 => ret c0
                  | None => raise (KeyError config_key)
                  end) w_a = (Ok config, w_a)) as ->.
    { destruct is_test; [by injection Hcfg as <-|]. by rewrite Hcfg. }
    unfold bind at 1. rewrite Hconf. reflexivity.
Qed.

(** X5.  When [create_user_container] fails before the record is written,
    because the configuration key is unknown or because Docker refuses to
    run the container, the exception reaches the caller after the user's
    previous container has been stopped and removed: the old record stays
    in the store and names a container that is gone, so the user still
    counts as having an active session. *)
Theorem failed_create_leaves_dangling_record
    (w : world) (u : Z) (image shell ttl_display config_key urandom : string)
    (ttl : option Z) (network is_test : bool) (run_reply : result string)
    (s : session) (k : container) (c : bool) (e : exn) :
  session_of w u = Some s →
  truthy (container_id s) = true →
  docker w !! container_id s = Some k →
  fst (is_confirmed_user u w) = Ok c →
  (resolve_config is_test config_key = None ∧ e = KeyError config_key) ∨
  (is_Some (resolve_config is_test config_key) ∧ run_reply = Raise e) →
  let r := create_user_container u image shell ttl ttl_display config_key network
             is_test urandom run_reply w in
  fst r = Raise e ∧
  redis (snd r) = redis w ∧
  docker (snd r) = base.delete (container_id s) (docker w) ∧
  log (snd r) = log w ++ [DockerStop (container_id s); DockerRemove (container_id s)] ∧
  session_of (snd r) u = Some s ∧
  docker (snd r) !! container_id s = None ∧
  fst (has_active_session u (snd r)) = Ok true.
Proof.
  intros Hs Ht Hk Hc Hfail r.
  assert (redis w !! session_key u = Some (mk_rentry (VStr (SJson s)) (expire_at
            (default (mk_rentry (VStr (SJson s)) None) (redis w !! session_key u)))))
    as Hrec.
  { unfold session_of in Hs.
    destruct (redis w !! session_key u) as [[[[n|s0]|] t]|]; try done.
    by injection Hs as ->. }
  assert (fst (Redis.get (session_key u) w) = Ok (Some (SJson s))) as Hget.
  { unfold Redis.get. munfold. cbn [fst]. by rewrite Hrec. }
  destruct (create_user_container_fails u image shell ttl ttl_display config_key
              network is_test urandom run_reply w (Some (SJson s)) c Hget Hc)
    as [Hkey Hrun].
  rewrite (remove_session_container_live s w k Ht Hk) in Hkey, Hrun.
  assert (r = (Raise e, torn_down (container_id s) w)) as ->.
  { subst r. destruct Hfail as [[Hnone ->]|[[config Hcfg] ->]].
    - by apply Hkey.
    - by apply (Hrun config e). }
  split_and!; try done.
  - simpl. apply lookup_delete_eq.
  - rewrite has_active_session_run. cbn [fst snd]. f_equal.
    apply bool_decide_eq_true_2. simpl. rewrite Hrec. by eexists.
Qed.

Lemma failed_create_leaves_dangling_record_witness :
  fst (create_user_container 7 "debian:latest" "sh" None "always" "medium" false false
         "01020304" (Raise (DockerAPIError "no such image")) example_world)
    = Raise (DockerAPIError "no such image") ∧
  docker (snd (create_user_container 7 "debian:latest" "sh" None "always" "medium" false
                 false "01020304" (Raise (DockerAPIError "no such image")) example_world))
    !! "c7" = None ∧
  fst (has_active_session 7
         (snd (create_user_container 7 "debian:latest" "sh" None "always" "medium" false
                 false "01020304" (Raise (DockerAPIError "no such image")) example_world)))
    = Ok true.
Proof.
  destruct (failed_create_leaves_dangling_record example_world 7 "debian:latest" "sh"
              "always" "medium" "01020304" None false false
              (Raise (DockerAPIError "no such image"))
              (example_session "c7" false) (example_container "terminal_bot_7_0a0b0c0d")
              false (DockerAPIError "no such image"))
    as (Hr & _ & _ & _ & _ & Hgone & Hactive).
  - vm_compute. reflexivity.
  - vm_compute. reflexivity.
  - vm_compute. reflexivity.
  - vm_compute. reflexivity.
  - right. split; [|reflexivity]. vm_compute. by eexists.
  - split; [exact Hr|]. split; [exact Hgone|exact Hactive].
Defined.

Lemma init_user_tokens_grants_once_witness :
  init_user_tokens 7 (snd (consume_repeatedly 480 7 example_world))
    = (Ok tt, snd (consume_repeatedly 480 7 example_world)) ∧
  balance_is (snd (consume_repeatedly 480 7 example_world)) 7 0.
Proof.
  destruct (init_user_tokens_grants_once (snd (consume_repeatedly 480 7 example_world)) 7)
    as (w1 & Hrun & _ & Hkeep & _).
  rewrite Hkeep in Hrun by (vm_compute; by eexists).
  split; [exact Hrun|vm_compute; reflexivity].
Defined.

(** X6.  The container that [create_user_container] starts: it runs under a
    name that begins with [terminal_bot_<user>_], with the network mode
    asked for.  A test session gets the limits of the test configuration
    whatever configuration key is passed; an untrusted user outside a test
    session gets 64m of memory and 20 processes whatever the configuration
    says, but the CPU quota of the configuration chosen; a trusted user
    gets the limits of the configuration. *)
Theorem created_container_limits
    (w : world) (u : Z) (image shell ttl_display config_key urandom cid : string)
    (ttl : option Z) (network is_test : bool) (old : option rstring) (c : bool)
    (config : resource_config) :
  fst (Redis.get (session_key u) w) = Ok old →
  fst (is_confirmed_user u w) = Ok c →
  resolve_config is_test config_key = Some config →
  valid_ttl ttl →
  ∃ k, docker (snd (create_user_container u image shell ttl ttl_display config_key
                      network is_test urandom (Ok cid) w)) !! cid = Some k ∧
       c_status k = "running" ∧ c_image k = image ∧
       c_name k = "terminal_bot_" +:+ pretty u +:+ "_" +:+ urandom ∧
       contains "terminal_bot_" (c_name k) = true ∧
       c_network_mode k = (if network then "bridge" else "none") ∧
       (is_test = true →
          c_mem_limit k = "50m" ∧ c_pids_limit k = 10 ∧
          c_cpu_quota k = 25000 ∧ c_cpu_period k = 100000) ∧
       (is_test = false → c = false →
          c_mem_limit k = "64m" ∧ c_pids_limit k = 20 ∧
          c_cpu_quota k = rc_cpu_quota config ∧ c_cpu_period k = rc_cpu_period config) ∧
       (is_test = false → c = true →
          c_mem_limit k = rc_mem_limit config ∧ c_pids_limit k = rc_pids_limit config ∧
          c_cpu_quota k = rc_cpu_quota config ∧ c_cpu_period k = rc_cpu_period config).
Proof.
  intros Hget Hc Hcfg Httl.
  destruct (created_now u image shell ttl ttl_display config_key network is_test
              urandom cid w old c config Hget Hc Hcfg Httl) as (_ & _ & Hdocker).
  eexists. split; [exact Hdocker|]. split_and!; try done.
  - apply contains_spec. by exists "", (pretty u +:+ "_" +:+ urandom).
  - intros ->. simpl in Hcfg. injection Hcfg as <-. by rewrite andb_false_r.
  - by intros -> ->.
  - by intros -> ->.
Qed.

Lemma created_container_limits_witness :
  ∃ k, docker (snd (create_user_container 7 "debian:latest" "sh" None "always" "maximum"
                      false false "01020304" (Ok "c2") example_world)) !! "c2" = Some k ∧
       c_mem_limit k = "64m" ∧ c_pids_limit k = 20 ∧ c_cpu_quota k = 100000.
Proof.
  destruct (created_container_limits example_world 7 "debian:latest" "sh" "always"
              "maximum" "01020304" "c2" None false false
              (Some (SJson (example_session "c7" false))) false
              (default test_resource_config (resource_configs !! "maximum")))
    as (k & Hk & _ & _ & _ & _ & _ & _ & Hlimited & _).
  - vm_compute. reflexivity.
  - vm_compute. reflexivity.
  - vm_compute. reflexivity.
  - exact I.
  - destruct Hlimited as (Hm & Hp & Hq & _); [reflexivity|reflexivity|].
    exists k. split; [exact Hk|]. split; [exact Hm|]. split; [exact Hp|exact Hq].
Defined.

(** ** Commands *)

(** X7.  [_execute_single_command] hands no command to the thread pool when
    the session is unusable.  With no record it answers that the session was
    not found; with a record that has no container id it answers so and
    keeps the record; with a record whose container Docker does not know it
    answers that the container was not found and deletes the record, so the
    user has no active session any more.  None of the three calls Docker
    to execute, and none raises. *)
Theorem command_without_container_is_refused
    (w : world) (u : Z) (command : string) (m : nat) :
  (redis w !! session_key u = None →
     _execute_single_command_begin command m u w =
       (Ok None, set_log (λ l, l ++ [Chat m SessionNotFound]) w)) ∧
  (∀ s, session_of w u = Some s → truthy (container_id s) = false →
     _execute_single_command_begin command m u w =
       (Ok None, set_log (λ l, l ++ [Chat m ContainerIdMissing]) w)) ∧
  (∀ s, session_of w u = Some s → truthy (container_id s) = true →
        docker w !! container_id s = None →
     ∃ w', _execute_single_command_begin command m u w = (Ok None, w') ∧
           redis w' = base.delete (session_key u) (redis w) ∧
           docker w' = docker w ∧ jobs w' = jobs w ∧
           log w' = log w ++ [Chat m ContainerNotFound; RedisDelete (session_key u)] ∧
           fst (has_active_session u w') = Ok false).
Proof.
  split_and!.
  - intros Hnone. unfold _execute_single_command_begin, Redis.get. mrun.
    by rewrite Hnone.
  - intros s Hs Ht. unfold session_of in Hs.
    unfold _execute_single_command_begin, Redis.get. mrun.
    destruct (redis w !! session_key u) as [[[[n|s0]|] t]|]; try done.
    injection Hs as ->. simpl. by rewrite Ht.
  - intros s Hs Ht Hd. unfold session_of in Hs.
    unfold _execute_single_command_begin, Redis.get, Docker.containers_get,
      Redis.delete. mrun.
    destruct (redis w !! session_key u) as [[[[n|s0]|] t]|] eqn:E; try done.
    injection Hs as ->. simpl. rewrite Ht. simpl. rewrite Hd. simpl.
    eexists. split; [reflexivity|]. split_and!; try done.
    + simpl. by rewrite <- app_assoc.
    + unfold has_active_session, Redis.exists_. mrun.
      by rewrite lookup_delete_eq.
Qed.

Lemma command_without_container_is_refused_witness :
  ∃ w', _execute_single_command_begin "ls" 101 5 stale_world = (Ok None, w') ∧
        fst (has_active_session 5 w') = Ok false.
Proof.
  destruct (command_without_container_is_refused stale_world 5 "ls" 101)
    as (_ & _ & Hgone).
  destruct (Hgone (example_session "c5" false)) as (w' & Hrun & _ & _ & _ & _ & Hoff).
  - vm_compute. reflexivity.
  - vm_compute. reflexivity.
  - vm_compute. reflexivity.
  - exists w'. split; [exact Hrun|exact Hoff].
Defined.

(** ** Startup *)

Lemma remove_each (l : list string) : ∀ w,
  NoDup l → (∀ cid, cid ∈ l → is_Some (docker w !! cid)) →
  ∃ w', for_each l (λ cid,
          try_except (Docker.stop cid;; Docker.remove cid) [ swallow_Exception ]) w
          = (Ok tt, w') ∧
        (∀ i, docker w' !! i = if bool_decide (i ∈ l) then None else docker w !! i) ∧
        redis w' = redis w ∧ now w' = now w ∧ tasks w' = tasks w ∧
        log w' = log w ++ teardown_trace l.
Proof.
  induction l as [|cid l IH]; intros w Hnd Hin.
  - exists w. split_and!; try done. unfold teardown_trace. simpl. by rewrite app_nil_r.
  - apply NoDup_cons in Hnd as [Hnotin Hnd].
    destruct (Hin cid) as [c Hc]; [left|].
    set (w1 := set_docker (base.delete cid)
                 (set_log (λ l, l ++ [DockerStop cid; DockerRemove cid]) w)).
    assert (try_except (Docker.stop cid;; Docker.remove cid) [ swallow_Exception ] w
            = (Ok tt, w1)) as Hbody.
    { unfold Docker.stop, Docker.remove. mrun. rewrite Hc. simpl.
      rewrite lookup_insert_eq. simpl. subst w1. unfold set_docker, set_log. simpl.
      by rewrite delete_insert_eq, <- app_assoc. }
    destruct (IH w1 Hnd) as (w' & Hrun & Hd & Hr & Hn & Ht & Hl).
    { intros i Hi. subst w1. simpl. rewrite lookup_delete_ne; [apply Hin; by right|].
      intros ->. done. }
    exists w'. split_and!; try done.
    + simpl. unfold mbind, M_bind. by rewrite (bind_ok _ _ _ _ _ Hbody).
    + intros i. rewrite Hd. subst w1. simpl.
      destruct (decide (i = cid)) as [->|Hne].
      * rewrite (bool_decide_eq_true_2 (cid ∈ cid :: l)) by left.
        rewrite lookup_delete_eq. by destruct (bool_decide (cid ∈ l)).
      * rewrite lookup_delete_ne by done.
        assert (bool_decide (i ∈ cid :: l) = bool_decide (i ∈ l)) as ->; [|done].
        apply bool_decide_ext. rewrite elem_of_cons.
        split; [intros [?|?]; [congruence|done] | by right].
    + rewrite Hl. subst w1. simpl. unfold teardown_trace. simpl.
      by rewrite <- app_assoc.
Qed.

Lemma elem_of_bot_containers w i :
  i ∈ bot_containers w ↔ ∃ c, docker w !! i = Some c ∧ bot_container c = true.
Proof.
  unfold bot_containers. rewrite list_elem_of_fmap. split.
  - intros ([i' c] & -> & [Hb Hin%elem_of_map_to_list]%list_elem_of_filter).
    by exists c.
  - intros (c & Hc & Hb). exists (i, c). split; [done|].
    apply list_elem_of_filter. split; [done|]. by apply elem_of_map_to_list.
Qed.

Lemma cleanup_old_containers_run w :
  ∃ w', cleanup_old_containers w = (Ok tt, w') ∧
        docker w' = filter (λ kc, bot_container (snd kc) = false) (docker w) ∧
        redis w' = redis w ∧ now w' = now w ∧ tasks w' = tasks w ∧
        log w' = log w ++ teardown_trace (bot_containers w).
Proof.
  destruct (remove_each (bot_containers w) w) as (w' & Hrun & Hd & Hr & Hn & Ht & Hl).
  { unfold bot_containers.
    eapply sublist_NoDup; [apply (NoDup_fst_map_to_list (docker w))|].
    apply fmap_sublist, sublist_filter. }
  { intros cid (c & Hc & _)%elem_of_bot_containers. by eexists. }
  exists w'. split_and!; try done.
  - unfold cleanup_old_containers. unfold try_except at 1. unfold bind at 1.
    unfold Docker.containers_list. unfold bind at 1, gets, ret.
    change (filter _ (map_to_list (docker w))).*1 with (bot_containers w).
    by rewrite Hrun.
  - apply map_eq. intros i. rewrite Hd. symmetry.
    destruct (decide (i ∈ bot_containers w)) as [Hin|Hnot].
    + rewrite bool_decide_eq_true_2 by done.
      apply elem_of_bot_containers in Hin as (c & Hc & Hb).
      apply map_lookup_filter_None. right. intros c' Hc'. simpl.
      rewrite Hc in Hc'. injection Hc' as <-. by rewrite Hb.
    + rewrite bool_decide_eq_false_2 by done.
      destruct (docker w !! i) as [c|] eqn:Hc.
      * apply map_lookup_filter_Some. split; [done|]. simpl.
        destruct (bot_container c) eqn:Hb; [|done].
        destruct Hnot. apply elem_of_bot_containers. by exists c.
      * apply map_lookup_filter_None. by left.
Qed.

(** X8.  [cleanup_old_containers] stops and then removes every container
    whose name contains [terminal_bot_], running or not, and no other; it
    returns without an error and leaves Redis as it is, so the session
    records of the removed containers are still in the store. *)
Theorem cleanup_old_containers_removes_bot_containers (w : world) :
  ∃ w', cleanup_old_containers w = (Ok tt, w') ∧
        (∀ cid k, docker w !! cid = Some k → bot_container k = true →
                  docker w' !! cid = None) ∧
        (∀ cid k, docker w !! cid = Some k → bot_container k = false →
                  docker w' !! cid = Some k) ∧
        (∀ cid k, docker w' !! cid = Some k →
                  docker w !! cid = Some k ∧ bot_container k = false) ∧
        redis w' = redis w ∧
        log w' = log w ++ teardown_trace (bot_containers w).
Proof.
  destruct (cleanup_old_containers_run w) as (w' & Hrun & Hd & Hr & _ & _ & Hl).
  exists w'. split_and!; try done.
  - intros cid k Hk Hb. rewrite Hd. apply map_lookup_filter_None. right.
    intros k' Hk'. simpl. rewrite Hk in Hk'. injection Hk' as <-. by rewrite Hb.
  - intros cid k Hk Hb. rewrite Hd. by apply map_lookup_filter_Some.
  - intros cid k. rewrite Hd. by intros [? ?]%map_lookup_filter_Some.
Qed.

Lemma cleanup_old_containers_removes_bot_containers_witness :
  ∃ w', cleanup_old_containers stale_world = (Ok tt, w') ∧
        docker w' !! "c6" = None ∧ docker w' !! "c7" = None ∧
        redis w' = redis stale_world.
Proof.
  destruct (cleanup_old_containers_removes_bot_containers stale_world)
    as (w' & Hrun & Hgone & _ & _ & Hredis & _).
  exists w'. split; [exact Hrun|]. split_and!.
  - eapply Hgone; vm_compute; reflexivity.
  - eapply Hgone; vm_compute; reflexivity.
  - exact Hredis.
Defined.

Lemma cleanup_old_sessions_run w :
  ∃ w', cleanup_old_sessions w = (Ok tt, w') ∧
        docker w' = docker w ∧
        (∀ key, redis w' !! key =
                  if String.prefix "session:" key && stale w key
                  then None else redis w !! key).
Proof.
  set (keys := filter (λ k, String.prefix "session:" k = true) (map_to_list (redis w)).*1).
  exists (delete_stale keys w). split_and!.
  - unfold cleanup_old_sessions, Redis.keys. mrun.
    fold keys. by rewrite cleanup_sessions_loop_run.
  - apply delete_stale_docker.
  - intros key. rewrite delete_stale_lookup.
    destruct (stale w key) eqn:Hst; [|by rewrite !andb_false_r].
    rewrite !andb_true_r.
    destruct (String.prefix "session:" key) eqn:Hp.
    + rewrite bool_decide_eq_true_2; [done|].
      apply list_elem_of_filter. split; [done|].
      destruct (stale_is_some w key Hst) as [e He].
      apply list_elem_of_fmap. exists (key, e). split; [done|].
      by apply elem_of_map_to_list.
    + rewrite bool_decide_eq_false_2; [done|].
      intros [Hin _]%list_elem_of_filter. congruence.
Qed.

Lemma init_confirmed_users_run w : init_confirmed_users w = (Ok tt, w).
Proof.
  unfold init_confirmed_users, Redis.exists_. mrun.
  by destruct (bool_decide _).
Qed.

(** X9.  What a start of the bot leaves: [__init__] removes every container
    that carries the bot's name and then every session record whose
    container is gone or not running.  So the session of a container the bot
    made does not survive a restart; a record that survives names a running
    container that the bot did not name.  Token balances and the set of
    confirmed users are as before, and no user is added to the set. *)
Theorem startup_drops_bot_sessions (w : world) :
  ∃ w', TerminalBot_init w = (Ok tt, w') ∧
        (∀ cid k, docker w' !! cid = Some k ↔
                  docker w !! cid = Some k ∧ bot_container k = false) ∧
        (∀ u s, session_of w u = Some s → truthy (container_id s) = true →
                (∀ k, docker w !! container_id s = Some k →
                      bot_container k = true ∨ c_status k ≠ "running") →
                redis w' !! session_key u = None) ∧
        (∀ u s, session_of w' u = Some s → truthy (container_id s) = true →
                ∃ k, docker w' !! container_id s = Some k ∧
                     c_status k = "running" ∧ bot_container k = false) ∧
        (∀ u, redis w' !! token_key u = redis w !! token_key u) ∧
        redis w' !! confirmed_users_key = redis w !! confirmed_users_key.
Proof.
  destruct (cleanup_old_containers_run w) as (w1 & Hrun1 & Hd1 & Hr1 & _).
  destruct (cleanup_old_sessions_run w1) as (w2 & Hrun2 & Hd2 & Hr2).
  assert (∀ cid k, docker w2 !! cid = Some k ↔
                   docker w !! cid = Some k ∧ bot_container k = false) as Hdocker.
  { intros cid k. rewrite Hd2, Hd1. apply map_lookup_filter_Some. }
  assert (∀ u s, session_of w u = Some s →
            stale w1 (session_key u) =
              truthy (container_id s) &&
              match docker w1 !! container_id s with
              | Some c => negb (String.eqb (c_status c) "running")
              | None => true
              end) as Hstale.
  { intros u s. unfold session_of, stale. rewrite Hr1.
    destruct (redis w !! session_key u) as [[[[n|s0]|] t]|]; try done.
    by intros [= ->]. }
  exists w2. split_and!.
  - unfold TerminalBot_init, mbind, M_bind.
    rewrite (bind_ok _ _ _ _ _ Hrun1), (bind_ok _ _ _ _ _ Hrun2).
    apply init_confirmed_users_run.
  - exact Hdocker.
  - intros u s Hs Ht Hbot. rewrite Hr2, session_key_prefix, (Hstale u s Hs), Ht.
    simpl. destruct (docker w1 !! container_id s) as [k|] eqn:Hk; [|done].
    rewrite Hd1 in Hk. apply map_lookup_filter_Some in Hk as [Hk Hb]. simpl in Hb.
    destruct (Hbot k Hk) as [Hb'|Hst]; [congruence|].
    destruct (String.eqb_spec (c_status k) "running"); [done|done].
  - intros u s Hs Ht. unfold session_of in Hs. rewrite Hr2, session_key_prefix in Hs.
    simpl in Hs. destruct (stale w1 (session_key u)) eqn:Hst; [done|].
    assert (session_of w u = Some s) as Hs0.
    { unfold session_of. by rewrite <- Hr1. }
    rewrite (Hstale u s Hs0), Ht in Hst. simpl in Hst.
    destruct (docker w1 !! container_id s) as [k|] eqn:Hk; [|done].
    exists k. rewrite Hd2. split; [done|].
    destruct (String.eqb_spec (c_status k) "running"); [|done].
    split; [done|]. rewrite Hd1 in Hk.
    by apply map_lookup_filter_Some in Hk as [_ Hb].
  - intros u. by rewrite Hr2, token_key_no_prefix, Hr1.
  - by rewrite Hr2, Hr1.
Qed.

Lemma startup_drops_bot_sessions_witness :
  ∃ w', TerminalBot_init example_world = (Ok tt, w') ∧
        redis w' !! session_key 7 = None ∧ redis w' !! session_key 8 = None ∧
        redis w' !! token_key 7 = redis example_world !! token_key 7.
Proof.
  destruct (startup_drops_bot_sessions example_world)
    as (w' & Hrun & _ & Hdrop & _ & Htok & _).
  exists w'. split; [exact Hrun|]. split_and!.
  - apply (Hdrop 7 (example_session "c7" false)); [reflexivity|reflexivity|].
    intros k Hk. left. vm_compute in Hk. injection Hk as <-. reflexivity.
  - apply (Hdrop 8 (example_session "c8" false)); [reflexivity|reflexivity|].
    intros k Hk. left. vm_compute in Hk. injection Hk as <-. reflexivity.
  - apply Htok.
Defined.

(** ** Cancellation *)

Lemma cancel_user_commands_trace u w :
  inv w →
  commands_trace (snd (cancel_user_commands u w)) =
    commands_trace w ++ cancel_trace u (worker_pc_of u w)
      ++ map (QueueDrop u) (current_queue u w) ∧
  length (queue_heap (snd (cancel_user_commands u w))) = length (queue_heap w).
Proof.
  intros Hinv.
  assert (∃ wa, (let* workers := gets command_workers in
                 match workers !! u with
                 | Some tid => task_cancel tid;;
                               modify (set_command_workers (base.delete u))
                 | None => ret tt
                 end) w = (Ok tt, wa) ∧
                command_queues wa = command_queues w ∧
                queue_heap wa = queue_heap w ∧
                commands_trace wa = commands_trace w ++ cancel_trace u (worker_pc_of u w))
    as (wa & Ha & Hcqa & Hha & Hla).
  { unfold task_cancel, worker_pc_of. mrun.
    destruct (command_workers w !! u) as [tid|] eqn:E;
      [|exists w; split_and!; try done; by rewrite app_nil_r].
    destruct (inv_worker_valid w Hinv u tid E) as [pc Hpc]. rewrite Hpc.
    destruct pc; simpl; (eexists; split; [reflexivity|]); split_and!; try done;
      trace_solve. }
  assert (∃ wb, (let* queues := gets command_queues in
                 match queues !! u with
                 | Some q => let* n := queue_qsize q in
                             drain_queue n u q;;
                             modify (set_command_queues (base.delete u))
                 | None => ret tt
                 end) wa = (Ok tt, wb) ∧
                commands_trace wb = commands_trace wa ++ map (QueueDrop u) (current_queue u w) ∧
                length (queue_heap wb) = length (queue_heap wa))
    as (wb & Hb & Hlb & Hhb).
  { unfold queue_qsize, current_queue. mrun. unfold id. rewrite Hcqa.
    destruct (command_queues w !! u) as [q|] eqn:E;
      [|exists wa; split_and!; [done|by rewrite app_nil_r|done]].
    assert (queue_of wa q = queue_of w q) as Hq by (unfold queue_of; by rewrite Hha).
    destruct (drain_queue_all u q _ wa eq_refl) as (w' & -> & _ & _ & _ & _ & _ & Hh & Hl).
    { rewrite Hq. apply (inv_unfinished w Hinv). }
    { rewrite Hha. by apply (inv_queue_valid w Hinv u). }
    simpl. eexists. split; [reflexivity|]. split.
    - simpl. erewrite commands_trace_app by exact Hl.
      by rewrite filter_relevant_drops, Hq.
    - simpl. by rewrite Hh, length_insert. }
  unfold cancel_user_commands, mbind, M_bind in *.
  rewrite (bind_ok _ _ _ _ _ Ha), (bind_ok _ _ _ _ _ Hb). mrun.
  assert (commands_trace wb = commands_trace w ++ cancel_trace u (worker_pc_of u w)
            ++ map (QueueDrop u) (current_queue u w)) as Hfin
    by (by rewrite Hlb, Hla, <- app_assoc).
  assert (length (queue_heap wb) = length (queue_heap w)) as Hfin2
    by (by rewrite Hhb, Hha).
  by destruct (active_commands wb !! u).
Qed.

Lemma trace_dropped u w w' l :
  commands_trace w' = commands_trace w ++ l →
  dropped u (log w') = dropped u (log w) ++ dropped u l.
Proof.
  intros Hl.
  assert (∀ w0, dropped u (commands_trace w0) = dropped u (log w0)) as Hd
    by (intros w0; apply omap_relevant; by intros []).
  rewrite <- (Hd w'), Hl. unfold dropped at 1. by rewrite omap_app, <- (Hd w).
Qed.

Lemma dropped_drops u (l : list entry) : dropped u (map (QueueDrop u) l) = l.
Proof.
  induction l as [|x l IH]; [done|].
  unfold dropped in *. simpl. rewrite decide_True by done. simpl. f_equal. exact IH.
Qed.

Lemma drops_silent u u0 (l : list entry) :
  puts u0 (map (QueueDrop u) l) = [] ∧ begun u0 (map (QueueDrop u) l) = [] ∧
  ended u0 (map (QueueDrop u) l) = [].
Proof.
  induction l as [|x l IH]; [done|].
  simpl. unfold puts, begun, ended in *. simpl. exact IH.
Qed.

(** X10.  [cancel_user_commands] in any state the bot can reach: the user's
    worker and queue leave the registers; every command that waited in the
    queue is dropped, in order, and none of them is begun; the command that
    was being executed is left without its result, and its job stays in the
    thread pool.  Another user's worker, queue, waiting commands and running
    command are as before, and so are Redis and Docker. *)
Theorem cancel_clears_own_queue_only (evs : list event) (t : Z)
    (r : gmap string rentry) (d : gmap string container) (w : world) (u : Z) :
  run evs (fresh_bot t r d) = Some w →
  ∃ w', cancel_user_commands u w = (Ok tt, w') ∧
        command_workers w' !! u = None ∧ command_queues w' !! u = None ∧
        dropped u (log w') = dropped u (log w) ++ current_queue u w ∧
        begun u (log w') = begun u (log w) ∧
        ended u (log w') = ended u (log w) ++ current_entry u w ∧
        jobs w' = jobs w ∧ redis w' = redis w ∧ docker w' = docker w ∧
        (∀ u0, u0 ≠ u →
           command_workers w' !! u0 = command_workers w !! u0 ∧
           command_queues w' !! u0 = command_queues w !! u0 ∧
           current_queue u0 w' = current_queue u0 w ∧
           current_entry u0 w' = current_entry u0 w).
Proof.
  intros Hrun.
  assert (inv w) as Hinv by (eapply inv_run; [apply inv_fresh_bot|exact Hrun]).
  destruct (cancel_user_commands_run u w)
    as (w' & Hcancel & (_ & Hredis & Hdocker & Hjobs & _) & Hcw & Hcq & _).
  pose proof (cancel_user_commands_keeps u w Hinv) as [Hinv' Hother].
  pose proof (cancel_user_commands_trace u w Hinv) as [Htrace _].
  rewrite Hcancel in Hinv', Hother, Htrace. simpl in Hinv', Hother, Htrace.
  set (lc := cancel_trace u (worker_pc_of u w)) in *.
  set (ld := map (QueueDrop u) (current_queue u w)) in *.
  assert (∀ u0, puts u0 lc = [] ∧ taken u0 lc = [] ∧ dropped u0 lc = [] ∧
                begun u0 lc = []) as Hlc.
  { intros u0. subst lc. by destruct (worker_pc_of u w). }
  assert (∀ u0, puts u0 ld = [] ∧ begun u0 ld = [] ∧ ended u0 ld = []) as Hld.
  { intros u0. subst ld. apply drops_silent. }
  assert (ended u lc = current_entry u w) as Hended.
  { subst lc. unfold worker_pc_of, current_entry.
    destruct (command_workers w !! u) as [tid|] eqn:E; [|done].
    destruct (inv_worker_valid w Hinv u tid E) as [pc ->]. simpl.
    destruct pc; simpl; try done. unfold ended. simpl. by rewrite decide_True. }
  exists w'. split; [exact Hcancel|]. split_and!; try done.
  - rewrite Hcw. apply lookup_delete_eq.
  - rewrite Hcq. apply lookup_delete_eq.
  - rewrite (trace_dropped u w w' _ Htrace). unfold dropped at 2.
    rewrite omap_app. fold (dropped u lc). fold (dropped u ld).
    destruct (Hlc u) as (_ & _ & -> & _). subst ld. by rewrite dropped_drops.
  - rewrite (trace_begun u w w' _ Htrace). unfold begun at 2.
    rewrite omap_app. fold (begun u lc). fold (begun u ld).
    destruct (Hlc u) as (_ & _ & _ & ->). destruct (Hld u) as (_ & -> & _).
    by rewrite app_nil_r.
  - rewrite (trace_ended u w w' _ Htrace). unfold ended at 2.
    rewrite omap_app. fold (ended u lc). fold (ended u ld).
    destruct (Hld u) as (_ & _ & ->). by rewrite app_nil_r, Hended.
  - intros u0 Hne. destruct (Hother u0 Hne) as (Hw0 & _ & Htaken & Hbegun).
    assert (puts u0 (log w') = puts u0 (log w)) as Hputs.
    { rewrite (trace_puts u0 w w' _ Htrace). unfold puts at 2.
      rewrite omap_app. fold (puts u0 lc). fold (puts u0 ld).
      destruct (Hlc u0) as (-> & _). destruct (Hld u0) as (-> & _).
      by rewrite app_nil_r. }
    assert (ended u0 (log w') = ended u0 (log w)) as Hend.
    { rewrite (trace_ended u0 w w' _ Htrace). unfold ended at 2.
      rewrite omap_app. fold (ended u0 lc). fold (ended u0 ld).
      destruct (Hld u0) as (_ & _ & ->).
      assert (ended u0 lc = []) as ->; [|by rewrite app_nil_r].
      subst lc. destruct (worker_pc_of u w); try done.
      unfold ended. simpl. by rewrite decide_False. }
    split_and!.
    + exact Hw0.
    + rewrite Hcq. by apply lookup_delete_ne.
    + pose proof (inv_fifo w Hinv u0) as H1. pose proof (inv_fifo w' Hinv' u0) as H2.
      rewrite Hputs, Htaken, H1 in H2. by apply app_inv_head in H2.
    + pose proof (inv_bracket w Hinv u0) as H1.
      pose proof (inv_bracket w' Hinv' u0) as H2.
      rewrite Hbegun, Hend, H1 in H2. by apply app_inv_head in H2.
Qed.

Lemma cancel_clears_own_queue_only_witness :
  ∃ w', cancel_user_commands 9 waiting_world = (Ok tt, w') ∧
        command_workers w' !! 9 = None ∧
        dropped 9 (log w') = [mk_entry 2 "ls" 102] ∧
        jobs w' = jobs waiting_world.
Proof.
  destruct (cancel_clears_own_queue_only waiting_events 0 example_redis example_docker
              waiting_world 9)
    as (w' & Hrun & Hcw & _ & Hdrop & _ & _ & Hjobs & _); [vm_compute; reflexivity|].
  exists w'. split; [exact Hrun|]. split; [exact Hcw|]. split; [|exact Hjobs].
  rewrite Hdrop. vm_compute. reflexivity.
Defined.

(** ** The registers of queues and workers *)

(** X11.  In every state the bot can reach, the registers are consistent: a
    user has at most one worker task that has not returned, and it is the
    one registered for the user; the queue such a worker reads is the one
    registered for the user; no two users share a queue; and a registered
    worker is a task that was started for that user. *)
Theorem one_worker_per_user (evs : list event) (t : Z)
    (r : gmap string rentry) (d : gmap string container) (w : world) :
  run evs (fresh_bot t r d) = Some w →
  (∀ tid1 tid2 u pc1 pc2,
     tasks w !! tid1 = Some (mk_task u pc1) → live_pc pc1 = true →
     tasks w !! tid2 = Some (mk_task u pc2) → live_pc pc2 = true →
     tid1 = tid2 ∧ command_workers w !! u = Some tid1) ∧
  (∀ tid u pc q,
     tasks w !! tid = Some (mk_task u pc) → pc_queue pc = Some q →
     command_queues w !! u = Some q ∧ (q < length (queue_heap w))%nat) ∧
  (∀ u1 u2 q,
     command_queues w !! u1 = Some q → command_queues w !! u2 = Some q → u1 = u2) ∧
  (∀ u tid, command_workers w !! u = Some tid →
            ∃ pc, tasks w !! tid = Some (mk_task u pc)).
Proof.
  intros Hrun.
  assert (inv w) as Hinv by (eapply inv_run; [apply inv_fresh_bot|exact Hrun]).
  split_and!.
  - intros tid1 tid2 u pc1 pc2 H1 Hl1 H2 Hl2.
    pose proof (inv_live_registered w Hinv _ _ _ H1 Hl1) as Hr1.
    pose proof (inv_live_registered w Hinv _ _ _ H2 Hl2) as Hr2.
    split; [congruence|done].
  - intros tid u pc q Htask Hq.
    pose proof (inv_live_queue w Hinv _ _ _ _ Htask Hq) as Hreg.
    split; [done|]. by apply (inv_queue_valid w Hinv u).
  - apply (inv_queue_inj w Hinv).
  - apply (inv_worker_valid w Hinv).
Qed.

Lemma one_worker_per_user_witness :
  command_workers waiting_world !! 9 = Some 0%nat ∧
  command_queues waiting_world !! 9 = Some 0%nat.
Proof.
  destruct (one_worker_per_user waiting_events 0 example_redis example_docker
              waiting_world) as (Hone & Hqueue & _); [vm_compute; reflexivity|].
  split.
  - eapply (Hone 0%nat 0%nat 9); vm_compute; reflexivity.
  - eapply (Hqueue 0%nat 9); vm_compute; reflexivity.
Defined.

(** X12.  [queue.task_done()] never raises in a worker: in every state the
    bot can reach, the queue of a worker that is executing a command counts
    more unfinished tasks than it holds items, and every queue counts at
    least as many.  So when the command is over the worker's step adds the
    end of the command to the trace and nothing else, and goes back to
    waiting on the same queue. *)
Theorem task_done_never_fails (evs : list event) (t : Z)
    (r : gmap string rentry) (d : gmap string container) (w : world)
    (tid : nat) (u : Z) (q : nat) (e : entry) (j : nat) (s : Z) (tm : option Z) :
  run evs (fresh_bot t r d) = Some w →
  tasks w !! tid = Some (mk_task u (WRun q e j s tm)) →
  (length (items (queue_of w q)) < unfinished (queue_of w q))%nat ∧
  (∀ q', (length (items (queue_of w q')) ≤ unfinished (queue_of w q'))%nat) ∧
  fst (queue_task_done q w) = Ok tt ∧
  (∀ o, log (worker_next tid u q e o w) = log w ++ [ExecEnd u e o] ∧
        tasks (worker_next tid u q e o w) !! tid = Some (mk_task u (WGet q (now w))) ∧
        items (queue_of (worker_next tid u q e o w) q) = items (queue_of w q)).
Proof.
  intros Hrun Htask.
  assert (inv w) as Hinv by (eapply inv_run; [apply inv_fresh_bot|exact Hrun]).
  pose proof (inv_running_unfinished w Hinv _ _ _ _ _ _ _ Htask) as Hlt.
  pose proof (inv_live_queue w Hinv _ _ _ q Htask eq_refl) as Hreg.
  pose proof (inv_queue_valid w Hinv u q Hreg) as Hvalid.
  split_and!.
  - exact Hlt.
  - apply (inv_unfinished w Hinv).
  - unfold queue_task_done. mrun. unfold id.
    destruct (unfinished (queue_of w q)); [lia|done].
  - intros o. unfold worker_next, queue_task_done, set_task. mrun. unfold id.
    assert (∀ f, queue_of (set_log f w) q = queue_of w q) as -> by done.
    destruct (unfinished (queue_of w q)) as [|n] eqn:Hn; [lia|]. simpl.
    split_and!.
    + done.
    + apply list_lookup_insert_eq. by eapply lookup_lt_Some.
    + unfold queue_of at 1. simpl. by rewrite list_lookup_insert_eq.
Qed.

Lemma task_done_never_fails_witness :
  fst (queue_task_done 0 waiting_world) = Ok tt ∧
  log (worker_next 0 9 0 first_entry TimedOut waiting_world)
    = log waiting_world ++ [ExecEnd 9 first_entry TimedOut].
Proof.
  destruct (task_done_never_fails waiting_events 0 example_redis example_docker
              waiting_world 0 9 0 first_entry 0 0 (Some 80))
    as (_ & _ & Hdone & Hnext); [vm_compute; reflexivity|vm_compute; reflexivity|].
  split; [exact Hdone|]. apply Hnext.
Defined.

Lemma cancel_user_commands_length u w :
  length (tasks (snd (cancel_user_commands u w))) = length (tasks w).
Proof.
  assert (∃ wa, (let* workers := gets command_workers in
                 match workers !! u with
                 | Some tid => task_cancel tid;;
                               modify (set_command_workers (base.delete u))
                 | None => ret tt
                 end) w = (Ok tt, wa) ∧ length (tasks wa) = length (tasks w))
    as (wa & Ha & Hta).
  { unfold task_cancel. mrun.
    destruct (command_workers w !! u) as [tid|]; [|by exists w].
    destruct (tasks w !! tid) as [[u' pc]|]; [|by eexists].
    destruct pc; simpl; (eexists; split; [reflexivity|]); simpl;
      by rewrite length_insert. }
  assert (∃ wb, (let* queues := gets command_queues in
                 match queues !! u with
                 | Some q => let* n := queue_qsize q in
                             drain_queue n u q;;
                             modify (set_command_queues (base.delete u))
                 | None => ret tt
                 end) wa = (Ok tt, wb) ∧ tasks wb = tasks wa)
    as (wb & Hb & Htb).
  { unfold queue_qsize. mrun. unfold id.
    destruct (command_queues wa !! u) as [q|]; [|by exists wa].
    destruct (drain_queue_run (length (items (queue_of wa q))) u q wa)
      as (w' & -> & _ & _ & _ & _ & Ht).
    simpl. by eexists. }
  unfold cancel_user_commands, mbind, M_bind in *.
  rewrite (bind_ok _ _ _ _ _ Ha), (bind_ok _ _ _ _ _ Hb). mrun.
  destruct (active_commands wb !! u); simpl; by rewrite Htb.
Qed.

Lemma worker_get_begins tid u q since e rest w :
  tasks w !! tid = Some (mk_task u (WGet q since)) →
  items (queue_of w q) = e :: rest →
  ∃ w', worker_get tid w = Some w' ∧
        begun u (log w') = begun u (log w) ++ [e] ∧
        puts u (log w') = puts u (log w) ∧
        ∃ pc, tasks w' !! tid = Some (mk_task u pc) ∧ live_pc pc = true ∧
              pc_queue pc = Some q.
Proof.
  intros Htask Hitems. unfold worker_get. rewrite Htask, Hitems.
  set (w1 := set_log _ _).
  assert (commands_trace w1 = commands_trace w ++ [ExecBegin u e]) as Hl1
    by (subst w1; trace_solve).
  destruct (begin_total (e_command e) (e_status_msg e) u w1) as [r Hr].
  pose proof (neutral_begin (e_command e) (e_status_msg e) u w1)
    as (_ & _ & _ & Ht & _ & Hl).
  destruct (_execute_single_command_begin (e_command e) (e_status_msg e) u w1)
    as [r' w2]. simpl in Hr, Ht, Hl. subst r'.
  assert (tid < length (tasks w2))%nat as Hlt.
  { rewrite Ht. subst w1. simpl. by eapply lookup_lt_Some. }
  assert (begun u [ExecBegin u e] = [e]) as Hb
    by (unfold begun; simpl; by rewrite decide_True).
  destruct r as [[[cid full_command] test]|]; eexists; (split; [reflexivity|]).
  - set (w3 := set_task _ _ _).
    assert (commands_trace w3 = commands_trace w ++ [ExecBegin u e]) as Hl3.
    { rewrite <- Hl1, <- Hl. subst w3. unfold commands_trace. simpl.
      rewrite filter_app. trace_simpl. done. }
    split_and!.
    + by rewrite (trace_begun u w w3 _ Hl3), Hb.
    + rewrite (trace_puts u w w3 _ Hl3). unfold puts at 2. simpl. by rewrite app_nil_r.
    + eexists. split; [subst w3; simpl; by apply list_lookup_insert_eq|done].
  - destruct (worker_next_trace tid u q e Returned w2) as (_ & Ht' & Hl').
    set (w3 := worker_next tid u q e Returned w2) in *.
    assert (commands_trace w3 = commands_trace w ++ [ExecBegin u e; ExecEnd u e Returned])
      as Hl3 by (by rewrite Hl', Hl, Hl1, <- app_assoc).
    split_and!.
    + rewrite (trace_begun u w w3 _ Hl3). unfold begun at 2. simpl.
      by rewrite decide_True.
    + rewrite (trace_puts u w w3 _ Hl3). unfold puts at 2. simpl. by rewrite app_nil_r.
    + eexists. split; [rewrite Ht'; by apply list_lookup_insert_eq|done].
Qed.

Lemma run_step ev evs w w1 : step ev w = Some w1 → run (ev :: evs) w = run evs w1.
Proof. intros H. cbn [run]. by rewrite H. Qed.

(** X13.  A cancellation resets the worker: in any state the bot can reach
    in which no handler is suspended and the user has a session record,
    [/cancel] followed by a command makes [execute_command] create a new
    queue and start a new worker task, which takes the command from the new
    queue and begins to execute it.  (After an idle exit of the worker,
    without a cancellation, the same submission is never executed.) *)
Theorem cancel_then_submit_executes (evs : list event) (t : Z)
    (r : gmap string rentry) (d : gmap string container) (w : world)
    (u : Z) (m update : nat) (command : string) (status_msg : nat) :
  run evs (fresh_bot t r d) = Some w →
  handler w = None →
  is_Some (redis w !! session_key u) →
  ∃ w', run (cancel_and_submit u m update command status_msg (length (tasks w))) w
          = Some w' ∧
        begun u (log w') = begun u (log w) ++ [mk_entry update command status_msg] ∧
        command_workers w' !! u = Some (length (tasks w)) ∧
        (∃ pc, tasks w' !! length (tasks w) = Some (mk_task u pc) ∧ live_pc pc = true) ∧
        (∃ q, command_queues w' !! u = Some q ∧ command_queues w !! u ≠ Some q).
Proof.
  intros Hrun Hhandler Hsession.
  assert (inv w) as Hinv by (eapply inv_run; [apply inv_fresh_bot|exact Hrun]).
  set (e := mk_entry update command status_msg).
  (* /cancel *)
  destruct (cancel_user_commands_run u w)
    as (wc & Hcancel & (_ & Hredis & _ & _ & Hh & _) & Hcw & Hcq & _).
  pose proof (cancel_user_commands_length u w) as Hlen.
  pose proof (cancel_user_commands_trace u w Hinv) as [Htrace Hheap].
  pose proof (inv_cancel_user_commands u w Hinv) as Hinvc.
  rewrite Hcancel in Hlen, Htrace, Hheap, Hinvc. simpl in Hlen, Htrace, Hheap, Hinvc.
  set (w1 := set_log (λ l, l ++ [Chat m CommandsCancelled]) wc).
  assert (step (EvCancel u m) w = Some w1) as Hstep1.
  { simpl. unfold run_handler. rewrite Hhandler. unfold cancel_command, mbind, M_bind.
    by rewrite (bind_ok _ _ _ _ _ Hcancel). }
  assert (begun u (log w1) = begun u (log w)) as Hbegun1.
  { assert (commands_trace w1 = commands_trace w ++ cancel_trace u (worker_pc_of u w)
              ++ map (QueueDrop u) (current_queue u w)) as Hl1.
    { rewrite <- Htrace. subst w1. unfold commands_trace. simpl.
      rewrite filter_app. trace_simpl. done. }
    rewrite (trace_begun u w w1 _ Hl1). unfold begun at 2. rewrite omap_app.
    fold (begun u (cancel_trace u (worker_pc_of u w))).
    fold (begun u (map (QueueDrop u) (current_queue u w))).
    destruct (drops_silent u u (current_queue u w)) as (_ & -> & _).
    assert (begun u (cancel_trace u (worker_pc_of u w)) = []) as ->
      by (by destruct (worker_pc_of u w)).
    by rewrite app_nil_r. }
  (* the command: [execute_command] up to its [put] *)
  set (tn := length (tasks w)).
  set (qn := length (queue_heap wc)).
  set (w2 := set_handler (Some (mk_pending u e))
               (set_log (λ l, l ++ [Chat status_msg Enqueued])
                  (set_command_queues (insert u qn)
                     (set_queue_heap (λ h, h ++ [empty_queue])
                        (set_command_workers (insert u tn)
                           (set_tasks (λ ts, ts ++ [mk_task u WStart]) w1)))))).
  assert (step (EvSubmit u update command status_msg) w1 = Some w2) as Hstep2.
  { simpl. unfold run_handler. subst w1. simpl. rewrite Hh, Hhandler. f_equal.
    unfold execute_command, has_active_session, Redis.exists_,
      start_command_worker, create_task, new_queue. mrun.
    rewrite Hredis, (bool_decide_eq_true_2 _ Hsession). simpl.
    rewrite Hcw, lookup_delete_eq. simpl. rewrite Hcw, lookup_delete_eq. simpl.
    rewrite Hcq, lookup_delete_eq. simpl.
    subst w2 tn. by rewrite Hlen. }
  (* the worker is entered *)
  set (w3 := set_task tn (mk_task u (WGet qn (now w2))) w2).
  assert (tasks w2 !! tn = Some (mk_task u WStart)) as Htask2.
  { subst w2 w1 tn. simpl. rewrite <- Hlen. by apply list_lookup_middle. }
  assert (step (EvWorkerStart tn) w2 = Some w3) as Hstep3.
  { simpl. unfold worker_start. rewrite Htask2.
    assert (command_queues w2 !! u = Some qn) as -> by (subst w2; simpl; apply lookup_insert_eq).
    done. }
  (* the [put] *)
  set (w4 := set_log (λ l, l ++ [QueuePut u e; Chat status_msg (QueuePosition 1)])
               (set_queue_heap (<[qn := mk_queue [e] 1]>) (set_handler None w3))).
  assert (queue_heap w3 !! qn = Some empty_queue) as Hq3
    by (subst w3 w2 w1 qn; simpl; by apply list_lookup_middle).
  assert (step EvSubmitResume w3 = Some w4) as Hstep4.
  { unfold step. assert (handler w3 = Some (mk_pending u e)) as -> by done. f_equal.
    unfold execute_command_resumed, queue_put, queue_qsize. mrun. unfold id.
    rewrite lookup_insert_eq. simpl. unfold queue_of. simpl.
    change (queue_heap wc ++ [empty_queue]) with (queue_heap w3) in *.
    rewrite Hq3. simpl.
    rewrite list_lookup_insert_eq by (by eapply lookup_lt_Some). simpl.
    subst w4. unfold set_log, set_queue_heap, set_handler. simpl.
    by rewrite <- app_assoc. }
  (* the [get] *)
  assert (tasks w4 !! tn = Some (mk_task u (WGet qn (now w2)))) as Htask4.
  { subst w4 w3. simpl. apply list_lookup_insert_eq. by eapply lookup_lt_Some. }
  assert (items (queue_of w4 qn) = [e]) as Hitems4.
  { unfold queue_of. subst w4. simpl.
    by rewrite list_lookup_insert_eq by (by eapply lookup_lt_Some). }
  destruct (worker_get_begins tn u qn (now w2) e [] w4 Htask4 Hitems4)
    as (w5 & Hstep5 & Hbegun5 & _ & Hlive5).
  assert (command_workers w5 !! u = Some tn ∧ command_queues w5 !! u = Some qn)
    as [Hcw5 Hcq5].
  { assert (inv w4) as Hinv4.
    { eapply inv_step; [|exact Hstep4]. eapply inv_step; [|exact Hstep3].
      eapply inv_step; [|exact Hstep2]. eapply inv_step; [exact Hinv|exact Hstep1]. }
    assert (inv w5) as Hinv5 by (eapply inv_worker_get; [exact Hinv4|exact Hstep5]).
    destruct Hlive5 as (pc & Hpc & Hlive & Hpcq).
    split.
    - exact (inv_live_registered w5 Hinv5 _ _ _ Hpc Hlive).
    - exact (inv_live_queue w5 Hinv5 _ _ _ _ Hpc Hpcq). }
  exists w5. split_and!.
  - unfold cancel_and_submit. fold tn.
    rewrite (run_step _ _ _ _ Hstep1), (run_step _ _ _ _ Hstep2),
      (run_step _ _ _ _ Hstep3), (run_step _ _ _ _ Hstep4),
      (run_step (EvWorkerGet tn) _ _ _ Hstep5). reflexivity.
  - rewrite Hbegun5. f_equal. rewrite <- Hbegun1.
    assert (commands_trace w4 = commands_trace w1 ++ [QueuePut u e]) as Hl4.
    { subst w4 w3 w2. unfold commands_trace. simpl.
      rewrite <- !app_assoc. rewrite !filter_app. trace_simpl. done. }
    rewrite (trace_begun u w1 w4 _ Hl4). unfold begun at 2. simpl. by rewrite app_nil_r.
  - exact Hcw5.
  - destruct Hlive5 as (pc & Hpc & Hlive & _). by exists pc.
  - exists qn. split; [exact Hcq5|]. intros Hold.
    pose proof (inv_queue_valid w Hinv u qn Hold) as Hvalid.
    subst qn. lia.
Qed.

Lemma cancel_then_submit_executes_witness :
  ∃ w', run (cancel_and_submit 7 103 3 "pwd" 104 (length (tasks late_world))) late_world
          = Some w' ∧
        begun 7 (log w') = begun 7 (log late_world) ++ [mk_entry 3 "pwd" 104].
Proof.
  destruct (cancel_then_submit_executes
              (idle_events ++ [EvWorkerIdle 0] ++ late_events) 0
              example_redis example_docker late_world 7 103 3 "pwd" 104)
    as (w' & Hrun & Hbegun & _).
  - vm_compute. reflexivity.
  - vm_compute. reflexivity.
  - vm_compute. by eexists.
  - exists w'. split; [exact Hrun|exact Hbegun].
Defined.

(** ** Handlers outside the command queue *)

Lemma stale_session w u s :
  session_of w u = Some s →
  stale w (session_key u) =
    truthy (container_id s) &&
    match docker w !! container_id s with
    | Some c => negb (String.eqb (c_status c) "running")
    | None => true
    end.
Proof.
  unfold session_of, stale.
  destruct (redis w !! session_key u) as [[[[n|s0]|] t]|]; try done.
  by intros [= ->].
Qed.

(** X14.  [inline_query] reconciles the record of the user who asks.  With
    no record it answers that there is no container and changes nothing.
    With a record, it never raises and touches neither Docker nor another
    key: a record without a container id is deleted; a record whose
    container is gone or not running is deleted, exactly when the cleanup
    at startup would delete it; otherwise nothing changes and the answer
    describes the session.  A record that is left names a running
    container. *)
Theorem inline_query_reconciles (w : world) (u : Z) :
  (redis w !! session_key u = None → inline_query u w = (Ok InlineNoContainer, w)) ∧
  (∀ s, session_of w u = Some s →
     ∃ a w', inline_query u w = (Ok a, w') ∧
       docker w' = docker w ∧
       (∀ key, key ≠ session_key u → redis w' !! key = redis w !! key) ∧
       (truthy (container_id s) = false →
          a = InlineNoContainer ∧ redis w' !! session_key u = None) ∧
       (truthy (container_id s) = true →
          redis w' !! session_key u =
            (if stale w (session_key u) then None else redis w !! session_key u) ∧
          (stale w (session_key u) = false → a = InlineShows s ∧ w' = w) ∧
          (stale w (session_key u) = true → a = InlineNotFound ∨ a = InlineNotRunning)) ∧
       (is_Some (redis w' !! session_key u) →
          ∃ k, docker w' !! container_id s = Some k ∧ c_status k = "running")).
Proof.
  split.
  - intros Hnone. unfold inline_query, get_session_info, Redis.get. mrun.
    by rewrite Hnone.
  - intros s Hs. pose proof (stale_session w u s Hs) as Hstale.
    unfold session_of in Hs.
    unfold inline_query, get_session_info, Redis.get, Docker.containers_get,
      Redis.delete. mrun.
    destruct (redis w !! session_key u) as [[[[n|s0]|] t]|] eqn:E; try done.
    injection Hs as ->. simpl.
    destruct (truthy (container_id s)) eqn:Ht; simpl.
    + destruct (docker w !! container_id s) as [k|] eqn:Hk; simpl.
      * destruct (String.eqb_spec (c_status k) "running") as [Hrun|Hrun]; simpl;
          simpl in Hstale; eexists _, _; (split; [reflexivity|]); simpl.
        -- split_and!; [done|done|done| |].
           ++ intros _. rewrite Hstale. by split_and!.
           ++ intros _. by exists k.
        -- split_and!; [done| |done| |].
           ++ intros key Hne. by apply lookup_delete_ne.
           ++ intros _. rewrite Hstale, lookup_delete_eq.
              split_and!; [done|done|by right].
           ++ rewrite lookup_delete_eq. by intros [? ?].
      * simpl in Hstale. eexists _, _. split; [reflexivity|]. simpl.
        split_and!; [done| |done| |].
        -- intros key Hne. by apply lookup_delete_ne.
        -- intros _. rewrite Hstale, lookup_delete_eq.
           split_and!; [done|done|by left].
        -- rewrite lookup_delete_eq. by intros [? ?].
    + eexists _, _. split; [reflexivity|]. simpl.
      split_and!; [done| | |done|].
      * intros key Hne. by apply lookup_delete_ne.
      * intros _. split; [done|apply lookup_delete_eq].
      * rewrite lookup_delete_eq. by intros [? ?].
Qed.

Lemma inline_query_reconciles_witness :
  ∃ w', inline_query 6 stale_world = (Ok InlineNotRunning, w') ∧
        redis w' !! session_key 6 = None ∧ docker w' = docker stale_world.
Proof.
  destruct (inline_query_reconciles stale_world 6) as [_ Hrec].
  destruct (Hrec (example_session "c6" false)) as (a & w' & Hrun & Hd & _ & _ & Hlive & _);
    [reflexivity|].
  destruct Hlive as (Hgone & _ & Hanswer); [reflexivity|].
  assert (stale stale_world (session_key 6) = true) as Hst by (vm_compute; reflexivity).
  rewrite Hst in Hgone.
  assert (a = InlineNotRunning) as ->.
  { assert (fst (inline_query 6 stale_world) = Ok InlineNotRunning) as Hc
      by (vm_compute; reflexivity).
    rewrite Hrun in Hc. by injection Hc. }
  exists w'. split; [exact Hrun|]. split; [exact Hgone|exact Hd].
Defined.

Lemma neutral_nohup_command u args time : neutral (nohup_command u args time).
Proof.
  unfold nohup_command, get_session_info.
  neutral_calls; try apply neutral_has_active_session;
    try apply neutral_is_confirmed_user.
Qed.

Lemma session_record w u s :
  session_of w u = Some s →
  ∃ t, redis w !! session_key u = Some (mk_rentry (VStr (SJson s)) t).
Proof.
  unfold session_of.
  destruct (redis w !! session_key u) as [[[[n|s0]|] t]|]; try done.
  intros [= ->]. by exists t.
Qed.



Lemma ttl_rows_spec c a options : ∀ row,
  (length row < 2)%nat →
  concat (ttl_rows c a options row) =
    row ++ (filter (λ o, ttl_allowed c a o = true) options).*1 ∧
  Forall (λ r, (0 < length r ≤ 2)%nat) (ttl_rows c a options row).
Proof.
  induction options as [|[name ttl] options IH]; intros row Hrow.
  - simpl. destruct row as [|x row]; simpl; [done|].
    rewrite !app_nil_r. split; [done|]. constructor; [simpl in *; lia|done].
  - cbn [ttl_rows]. rewrite filter_cons.
    destruct (negb c && match ttl with
                        | Some t => negb (t =? 0) && (86400 <? t)
                        | None => false
                        end) eqn:Hbig.
    { assert (ttl_allowed c a (name, ttl) = false) as Hno
        by (unfold ttl_allowed; simpl; by rewrite Hbig).
      rewrite decide_False by (by rewrite Hno). by apply IH. }
    destruct ((name =? "always")%string && negb a) eqn:Halways.
    { assert (ttl_allowed c a (name, ttl) = false) as Hno
        by (unfold ttl_allowed; simpl; by rewrite Hbig, Halways).
      rewrite decide_False by (by rewrite Hno). by apply IH. }
    assert (ttl_allowed c a (name, ttl) = true) as Hyes
      by (unfold ttl_allowed; simpl; by rewrite Hbig, Halways).
    rewrite decide_True by done. rewrite length_app. simpl.
    destruct (Nat.eqb_spec (length row + 1) 2) as [Hfull|Hnot].
    + destruct (IH []) as [Hc Hf]; [simpl; lia|].
      simpl. rewrite Hc. simpl. rewrite <- app_assoc. split; [done|].
      constructor; [|done]. rewrite length_app. simpl. lia.
    + destruct (IH (row ++ [name])) as [Hc Hf]; [rewrite length_app; simpl; lia|].
      rewrite Hc. by rewrite <- app_assoc.
Qed.

Lemma is_admin_false u : is_admin u = false.
Proof. unfold is_admin. apply bool_decide_eq_false_2. simpl. apply not_elem_of_nil. Qed.

(** X16.  The keyboard of times to live that [select_config] shows: an
    unknown configuration key is refused and nothing is stored; otherwise
    the key is stored and the buttons are, in the order of [ttl_options] and
    in rows of at most two, exactly the times the user's status allows: at
    most 24 hours for an untrusted user, and [always] for an administrator
    only -- and since the list of administrators is empty, for nobody. *)
Theorem select_config_offers_allowed_ttls
    (w : world) (u : Z) (config_key : string) (ud : user_data) (confirmed : bool) :
  fst (is_confirmed_user u w) = Ok confirmed →
  (resource_configs !! config_key = None →
     select_config u config_key ud w = (Ok (ud, None), w)) ∧
  (is_Some (resource_configs !! config_key) →
     ∃ rows, select_config u config_key ud w =
               (Ok (mk_user_data (selected_image ud) (selected_shell ud)
                      (Some config_key) (ud_network ud), Some rows), w) ∧
             concat rows =
               (filter (λ o, ttl_allowed confirmed false o = true) ttl_options).*1 ∧
             Forall (λ row, (0 < length row ≤ 2)%nat) rows ∧
             ("always" ∉ concat rows) ∧
             (confirmed = false →
                ∀ name, name ∈ concat rows →
                  ∃ t, dict_get ttl_options name = Some (Some t) ∧ t ≤ 86400)).
Proof.
  intros Hc. split.
  - intros Hnone. unfold select_config. by rewrite Hnone.
  - intros [config Hcfg].
    destruct (ttl_rows_spec confirmed false ttl_options []) as [Hconcat Hrows];
      [simpl; lia|].
    exists (ttl_rows confirmed false ttl_options []). split_and!.
    + unfold select_config. rewrite Hcfg. unfold bind.
      by rewrite run_is_confirmed_user, Hc, is_admin_false.
    + exact Hconcat.
    + exact Hrows.
    + rewrite Hconcat.
      assert (∀ c0, "always" ∉ (filter (λ o, ttl_allowed c0 false o = true) ttl_options).*1)
        as Hnot; [|apply Hnot].
      intros c0 Hin. pose proof (bool_decide_eq_true_2 _ Hin) as Hb.
      destruct c0; vm_compute in Hb; discriminate.
    + intros -> name. rewrite Hconcat.
      assert ((filter (λ o, ttl_allowed false false o = true) ttl_options).*1
              = ["30m"; "1h"; "5h"; "24h"]) as -> by (vm_compute; reflexivity).
      intros Hin.
      repeat (apply elem_of_cons in Hin as [->|Hin];
              [eexists; split; [reflexivity|]; lia|]).
      by apply elem_of_nil in Hin.
Qed.

Lemma select_config_offers_allowed_ttls_witness :
  ∃ rows, select_config 7 "maximum" (mk_user_data None None None None) example_world
            = (Ok (mk_user_data None None (Some "maximum") None, Some rows),
               example_world) ∧
          concat rows = ["30m"; "1h"; "5h"; "24h"].
Proof.
  destruct (select_config_offers_allowed_ttls example_world 7 "maximum"
              (mk_user_data None None None None) false) as [_ Hrows]; [reflexivity|].
  destruct Hrows as (rows & Hrun & Hconcat & _); [vm_compute; by eexists|].
  exists rows. split; [exact Hrun|]. rewrite Hconcat. vm_compute. reflexivity.
Defined.

Lemma dict_get_elem_of {A} (d : list (string * A)) key v :
  dict_get d key = Some v → (key, v) ∈ d.
Proof.
  induction d as [|[k x] d IH]; [done|]. cbn [dict_get].
  destruct (String.eqb_spec k key) as [->|Hne].
  - intros [= ->]. left.
  - intros H. right. by apply IH.
Qed.

Lemma ttl_option_valid ttl_name ttl :
  dict_get ttl_options ttl_name = Some ttl → valid_ttl ttl ∧ ttl ≠ Some 0.
Proof.
  intros Hin%dict_get_elem_of. unfold ttl_options in Hin.
  repeat (apply elem_of_cons in Hin as [[= _ ->]|Hin]; [split; [simpl; lia|done]|]).
  by apply elem_of_nil in Hin.
Qed.

Lemma select_ttl_run u ttl_name ttl ud urandom cid w old c config :
  dict_get ttl_options ttl_name = Some ttl →
  fst (Redis.get (session_key u) w) = Ok old →
  fst (is_confirmed_user u w) = Ok c →
  resource_configs !! default "minimal" (selected_config ud) = Some config →
  select_ttl u ttl_name ud urandom (Ok cid) w =
    (Ok [Creating;
         if c
         then ContainerStarted (image_name_of (default "alpine:latest" (selected_image ud)))
                (default "bash" (selected_shell ud)) (rc_name config)
                (default true (ud_network ud))
                (if String.eqb ttl_name "always" then "всегда" else ttl_name)
         else CreationFailed (AttributeError "start_token_consumption")],
     snd (create_user_container u (default "alpine:latest" (selected_image ud))
            (default "bash" (selected_shell ud)) ttl ttl_name
            (default "minimal" (selected_config ud)) (default true (ud_network ud))
            false urandom (Ok cid) w)).
Proof.
  intros Httl Hget Hc Hcfg.
  destruct (ttl_option_valid ttl_name ttl Httl) as [Hvalid _].
  unfold select_ttl. rewrite Httl. unfold try_except, mbind, M_bind. unfold bind at 1.
  rewrite (create_user_container_run u _ _ ttl ttl_name _ _ false urandom cid w old c
             config Hget Hc Hcfg Hvalid).
  simpl. destruct c; simpl; [|done].
  unfold bind. by rewrite Hcfg.
Qed.

(** X17.  [select_ttl] starts a container for every name of [ttl_options],
    whoever the user is and whatever the keyboard offered: an untrusted
    user who sends [12d] or [always] gets a record with that time to live,
    or none.  For an untrusted user the handler then reports that the
    creation failed, because [create_user_container] raises after it has
    started the container and written the record: the message is an error,
    and the user has an active session with a running container.  For a
    trusted user it reports the container as started.  A name that is not
    in [ttl_options] changes nothing. *)
Theorem select_ttl_reports_failure_for_untrusted
    (w : world) (u : Z) (ttl_name : string) (ud : user_data) (urandom cid : string)
    (old : option rstring) (c : bool) (config : resource_config) :
  fst (Redis.get (session_key u) w) = Ok old →
  fst (is_confirmed_user u w) = Ok c →
  resource_configs !! default "minimal" (selected_config ud) = Some config →
  (dict_get ttl_options ttl_name = None →
     select_ttl u ttl_name ud urandom (Ok cid) w = (Ok [UnknownTtl], w)) ∧
  (∀ ttl, dict_get ttl_options ttl_name = Some ttl →
     ∃ w' messages s k,
       select_ttl u ttl_name ud urandom (Ok cid) w = (Ok messages, w') ∧
       (c = false →
          messages = [Creating; CreationFailed (AttributeError "start_token_consumption")]) ∧
       (c = true → ∃ text, messages = [Creating; text] ∧
                           ∀ e, text ≠ CreationFailed e) ∧
       fst (has_active_session u w') = Ok true ∧
       session_of w' u = Some s ∧ container_id s = cid ∧ ttl_seconds s = ttl ∧
       is_test s = false ∧
       docker w' !! cid = Some k ∧ c_status k = "running" ∧
       redis w' !! session_key u =
         Some (mk_rentry (VStr (SJson s))
                 match ttl with Some t => Some (now w + t) | None => None end)).
Proof.
  intros Hget Hc Hcfg. split.
  - intros Hnone. unfold select_ttl. by rewrite Hnone.
  - intros ttl Httl.
    rewrite (select_ttl_run u ttl_name ttl ud urandom cid w old c config Httl Hget Hc Hcfg).
    destruct (ttl_option_valid ttl_name ttl Httl) as [Hvalid Hnz].
    destruct (created_now u (default "alpine:latest" (selected_image ud))
                (default "bash" (selected_shell ud)) ttl ttl_name
                (default "minimal" (selected_config ud)) (default true (ud_network ud))
                false urandom cid w old c config Hget Hc Hcfg Hvalid)
      as (_ & Hrec & Hdocker).
    set (w' := snd (create_user_container _ _ _ _ _ _ _ _ _ _ _)) in *.
    eexists w', _, _, _. split; [reflexivity|]. split_and!.
    + by intros ->.
    + intros ->. eexists. split; [reflexivity|]. done.
    + rewrite has_active_session_run. cbn [fst]. f_equal.
      apply bool_decide_eq_true_2. rewrite Hrec. by eexists.
    + unfold session_of. by rewrite Hrec.
    + done.
    + done.
    + done.
    + exact Hdocker.
    + done.
    + rewrite Hrec. do 2 f_equal. destruct ttl as [t|]; [|done].
      destruct (Z.eqb_spec t 0); [congruence|done].
Qed.

Lemma select_ttl_reports_failure_for_untrusted_witness :
  ∃ w' s,
    select_ttl 7 "always" (mk_user_data None None (Some "maximum") None) "0a0b0c0d"
      (Ok "c1") (fresh_bot 0 ∅ ∅)
      = (Ok [Creating; CreationFailed (AttributeError "start_token_consumption")], w') ∧
    fst (has_active_session 7 w') = Ok true ∧
    redis w' !! session_key 7 = Some (mk_rentry (VStr (SJson s)) None).
Proof.
  destruct (select_ttl_reports_failure_for_untrusted (fresh_bot 0 ∅ ∅) 7 "always"
              (mk_user_data None None (Some "maximum") None) "0a0b0c0d" "c1" None false
              (default test_resource_config (resource_configs !! "maximum")))
    as [_ Hrun]; [reflexivity|reflexivity|vm_compute; reflexivity|].
  destruct (Hrun None) as (w' & messages & s & k & Hsel & Hmsg & _ & Hact & _ & _ & _ & _
                           & _ & _ & Hrec); [reflexivity|].
  exists w', s. rewrite Hsel, Hmsg by done. split; [done|]. split; [exact Hact|exact Hrec].
Defined.

(** X18.  [select_image].  An untrusted user whose balance is zero or less
    is turned away from every image but [test], and nothing changes.  The
    key [test] starts a test session for every user, whatever the balance:
    the record says [is_test], expires after 1200 seconds, and the container
    runs with the limits of the test configuration.  Any other key is stored
    as the selected image without a check against the images on offer, so an
    untrusted user with tokens can select an image the menu hides. *)
Theorem select_image_gates_on_tokens
    (w : world) (u : Z) (image_key : string) (ud : user_data) (urandom cid : string)
    (old : option rstring) (c : bool) (b : Z) :
  fst (Redis.get (session_key u) w) = Ok old →
  fst (is_confirmed_user u w) = Ok c →
  balance_is w u b →
  (image_key ≠ "test" → c = false → b ≤ 0 →
     select_image u image_key ud urandom (Ok cid) w = (Ok (ud, [TokensExhausted]), w)) ∧
  (image_key ≠ "test" → c = true ∨ 0 < b →
     select_image u image_key ud urandom (Ok cid) w =
       (Ok (mk_user_data (Some image_key) (selected_shell ud) (selected_config ud)
              (ud_network ud), [ChooseShell (image_name_of image_key)]), w)) ∧
  (image_key = "test" →
     ∃ w' s k,
       select_image u image_key ud urandom (Ok cid) w =
         (Ok (ud, [CreatingTest; TestContainerStarted]), w') ∧
       session_of w' u = Some s ∧ is_test s = true ∧ container_id s = cid ∧
       image s = "alpine:latest" ∧ shell s = "sh" ∧
       redis w' !! session_key u =
         Some (mk_rentry (VStr (SJson s)) (Some (now w + 1200))) ∧
       docker w' !! cid = Some k ∧ c_status k = "running" ∧
       c_mem_limit k = "50m" ∧ c_pids_limit k = 10 ∧ c_cpu_quota k = 25000).
Proof.
  intros Hget Hc Hb. unfold balance_is in Hb.
  split_and!.
  - intros Hne -> Hle. unfold select_image. unfold bind at 1.
    rewrite run_is_confirmed_user, Hc. simpl.
    destruct (String.eqb_spec image_key "test") as [|_]; [done|]. simpl.
    unfold bind at 1. unfold bind at 1. rewrite run_get_user_tokens, Hb. simpl.
    destruct (Z.leb_spec b 0); [done|lia].
  - intros Hne Hok. unfold select_image. unfold bind at 1.
    rewrite run_is_confirmed_user, Hc.
    destruct (String.eqb_spec image_key "test") as [|_]; [done|].
    destruct c; simpl; [done|]. destruct Hok as [|Hpos]; [done|].
    unfold bind at 1. unfold bind at 1. rewrite run_get_user_tokens, Hb. simpl.
    destruct (Z.leb_spec b 0); [lia|done].
  - intros ->.
    destruct (created_now u "alpine:latest" "sh" (Some 1200) "20m" "test" true true
                urandom cid w old c test_resource_config Hget Hc eq_refl)
      as (_ & Hrec & Hdocker); [simpl; lia|].
    pose proof (create_user_container_run u "alpine:latest" "sh" (Some 1200) "20m" "test"
                  true true urandom cid w old c test_resource_config Hget Hc eq_refl)
      as Hrun.
    simpl in Hrun. specialize (Hrun ltac:(lia)).
    set (w' := snd (create_user_container u "alpine:latest" "sh" (Some 1200) "20m" "test"
                      true true urandom (Ok cid) w)) in *.
    assert (create_user_container u "alpine:latest" "sh" (Some 1200) "20m" "test"
              true true urandom (Ok cid) w = (Ok cid, w')) as Hrun'
      by (subst w'; by rewrite Hrun).
    clear Hrun.
    exists w'. eexists _, _. split_and!.
    + unfold select_image. unfold bind at 1. rewrite run_is_confirmed_user, Hc.
      simpl. rewrite andb_false_r. simpl.
      unfold try_except, mbind, M_bind. unfold bind at 1.
      change (tc_image test_config) with "alpine:latest".
      change (tc_shell test_config) with "sh".
      change (tc_max_session_time test_config) with 1200.
      unfold ret at 1. cbv beta iota. unfold bind at 1. rewrite Hrun'. reflexivity.
    + unfold session_of. rewrite Hrec. reflexivity.
    + done.
    + done.
    + done.
    + done.
    + by rewrite Hrec.
    + exact Hdocker.
    + done.
    + simpl. by rewrite andb_false_r.
    + simpl. by rewrite andb_false_r.
    + done.
Qed.

Lemma select_image_gates_on_tokens_witness :
  select_image 9 "archlinux:latest" (mk_user_data None None None None) "0a0b0c0d"
    (Ok "c1") example_world
    = (Ok (mk_user_data None None None None, [TokensExhausted]), example_world) ∧
  select_image 7 "archlinux:latest" (mk_user_data None None None None) "0a0b0c0d"
    (Ok "c1") example_world
    = (Ok (mk_user_data (Some "archlinux:latest") None None None,
           [ChooseShell "Arch Linux"]), example_world).
Proof.
  destruct (select_image_gates_on_tokens example_world 9 "archlinux:latest"
              (mk_user_data None None None None) "0a0b0c0d" "c1"
              (Some (SJson (example_session "c9" true))) false 0)
    as (Hgate & _); [reflexivity|reflexivity|reflexivity|].
  destruct (select_image_gates_on_tokens example_world 7 "archlinux:latest"
              (mk_user_data None None None None) "0a0b0c0d" "c1"
              (Some (SJson (example_session "c7" false))) false 480)
    as (_ & Hpick & _); [reflexivity|reflexivity|reflexivity|].
  split.
  - apply Hgate; [discriminate|reflexivity|lia].
  - apply Hpick; [discriminate|right; lia].
Defined.

(** X19.  A command typed in the terminal.  Without a session record
    [execute_command] only says so: no worker, no queue, nothing is put.
    With a record, up to its [put] it makes sure a worker and a queue are
    registered for the user -- it creates each only when the register has
    none -- and leaves the waiting commands as they are.  The [put] that
    follows appends the command at the end of the user's queue, and the
    status message shows its position: the number of commands that wait,
    this one included. *)
Theorem submission_joins_queue_end (evs : list event) (t : Z)
    (r : gmap string rentry) (d : gmap string container) (w : world)
    (u : Z) (update : nat) (command : string) (status_msg : nat) :
  run evs (fresh_bot t r d) = Some w →
  (handler w = None → redis w !! session_key u = None →
     step (EvSubmit u update command status_msg) w =
       Some (set_log (λ l, l ++ [Chat status_msg NoActiveSession]) w)) ∧
  (handler w = None → is_Some (redis w !! session_key u) →
     ∃ w1, step (EvSubmit u update command status_msg) w = Some w1 ∧
           handler w1 = Some (mk_pending u (mk_entry update command status_msg)) ∧
           is_Some (command_workers w1 !! u) ∧ is_Some (command_queues w1 !! u) ∧
           (is_Some (command_workers w !! u) → tasks w1 = tasks w) ∧
           (∀ u0, current_queue u0 w1 = current_queue u0 w) ∧
           log w1 = log w ++ [Chat status_msg Enqueued]) ∧
  (∀ p q, handler w = Some p → command_queues w !! p_user p = Some q →
     ∃ w', step EvSubmitResume w = Some w' ∧ handler w' = None ∧
           current_queue (p_user p) w' = current_queue (p_user p) w ++ [p_entry p] ∧
           (∀ u0, u0 ≠ p_user p → current_queue u0 w' = current_queue u0 w) ∧
           log w' = log w ++ [QueuePut (p_user p) (p_entry p);
                              Chat (e_status_msg (p_entry p))
                                (QueuePosition (S (length (current_queue (p_user p) w))))]).
Proof.
  intros Hrun.
  assert (inv w) as Hinv by (eapply inv_run; [apply inv_fresh_bot|exact Hrun]).
  split_and!.
  - intros Hh Hnone. simpl. unfold run_handler. rewrite Hh. f_equal.
    unfold execute_command, has_active_session, Redis.exists_. mrun.
    rewrite Hnone. reflexivity.
  - intros Hh Hsome. simpl. unfold run_handler. rewrite Hh.
    eexists. split; [reflexivity|].
    unfold execute_command, has_active_session, Redis.exists_,
      start_command_worker, create_task, new_queue. mrun.
    rewrite (bool_decide_eq_true_2 _ Hsome). simpl.
    assert (∀ w0 : world, queue_heap w0 = queue_heap w →
              command_queues w0 = command_queues w →
              command_queues w !! u = None → ∀ u0,
              current_queue u0
                (set_command_queues (insert u (length (queue_heap w0)))
                   (set_queue_heap (λ h, h ++ [empty_queue]) w0))
              = current_queue u0 w) as Hnew.
    { intros w0 Hheap Hcq Hnone u0. unfold current_queue. simpl. rewrite Hcq.
      destruct (decide (u0 = u)) as [->|Hne].
      - rewrite lookup_insert_eq, Hnone. unfold queue_of. simpl.
        by rewrite list_lookup_middle.
      - rewrite lookup_insert_ne by done.
        destruct (command_queues w !! u0) as [q0|] eqn:E0; [|done].
        unfold queue_of. simpl. rewrite Hheap.
        rewrite lookup_app_l by (by apply (inv_queue_valid w Hinv u0)). done. }
    destruct (command_workers w !! u) as [tid|] eqn:Ew; simpl; rewrite ?Ew; simpl;
      destruct (command_queues w !! u) as [q|] eqn:Eq; simpl.
    all: split_and!; try done; rewrite ?lookup_insert_eq, ?Ew, ?Eq;
      try (by eexists); try (by intros [? ?]); try (by apply Hnew).
    intros u0. etrans; [|apply (Hnew w eq_refl eq_refl eq_refl u0)]. reflexivity.
  - intros p q Hp Hq. simpl. rewrite Hp. eexists. split; [reflexivity|].
    pose proof (inv_queue_valid w Hinv _ _ Hq) as Hvalid.
    unfold execute_command_resumed, queue_put, queue_qsize. mrun. unfold id.
    rewrite Hq. simpl.
    assert (∀ f, queue_of (set_log f (set_queue_heap
               (<[q := mk_queue (items (queue_of (set_handler None w) q) ++ [p_entry p])
                            (S (unfinished (queue_of (set_handler None w) q)))]>)
               (set_handler None w))) q
            = mk_queue (items (queue_of w q) ++ [p_entry p])
                (S (unfinished (queue_of w q)))) as Hqueue.
    { intros f. unfold queue_of at 1. simpl. by rewrite list_lookup_insert_eq. }
    rewrite Hqueue. simpl. split_and!.
    + done.
    + unfold current_queue. simpl. rewrite Hq.
      unfold queue_of at 1. simpl. by rewrite list_lookup_insert_eq.
    + intros u0 Hne. unfold current_queue. simpl.
      destruct (command_queues w !! u0) as [q0|] eqn:E0; [|done].
      assert (q0 ≠ q) as Hq0.
      { intros ->. by apply Hne, (inv_queue_inj w Hinv u0 (p_user p) q). }
      unfold queue_of. simpl. by rewrite list_lookup_insert_ne.
    + unfold current_queue. rewrite Hq. rewrite length_app, Nat.add_1_r.
      by rewrite <- app_assoc.
Qed.

Lemma submission_joins_queue_end_witness :
  ∃ w', step EvSubmitResume
          (default example_world
             (run [EvSubmit 9 1 "sleep 100" 101; EvWorkerStart 0; EvSubmitResume;
                   EvSubmit 9 2 "ls" 102] example_world)) = Some w' ∧
        current_queue 9 w' = [mk_entry 1 "sleep 100" 101; mk_entry 2 "ls" 102].
Proof.
  destruct (submission_joins_queue_end
              [EvSubmit 9 1 "sleep 100" 101; EvWorkerStart 0; EvSubmitResume;
               EvSubmit 9 2 "ls" 102] 0 example_redis example_docker
              (default example_world
                 (run [EvSubmit 9 1 "sleep 100" 101; EvWorkerStart 0; EvSubmitResume;
                       EvSubmit 9 2 "ls" 102] example_world)) 9 2 "ls" 102)
    as (_ & _ & Hput); [vm_compute; reflexivity|].
  destruct (Hput (mk_pending 9 (mk_entry 2 "ls" 102)) 0%nat)
    as (w' & Hstep & _ & Hqueue & _); [vm_compute; reflexivity..|].
  exists w'. split; [exact Hstep|]. etrans; [exact Hqueue|]. vm_compute. reflexivity.
Defined.
